(** * zed-open-capture: the VideoCapture driver (src/videocapture.cpp)

    A shallow embedding of the userspace driver: the [VideoCapture] object is
    a record, the kernel and the camera are an oracle that answers every
    system call from the history of the calls made so far, and every member
    function is a computation in a small state monad over the pair
    (object, world).  An integer division by zero is a trap, kept apart from
    a normal return. *)

From Stdlib Require Import ZArith List Bool Lia.
From Equations Require Import Equations.
Import ListNotations.
Open Scope Z_scope.

(** ** Machine integers *)

Definition wrap_u8 (z : Z) : Z := z mod 2 ^ 8.
Definition wrap_u16 (z : Z) : Z := z mod 2 ^ 16.
Definition wrap_u32 (z : Z) : Z := z mod 2 ^ 32.
Definition wrap_u64 (z : Z) : Z := z mod 2 ^ 64.
Definition wrap_s32 (z : Z) : Z := (z + 2 ^ 31) mod 2 ^ 32 - 2 ^ 31.

(** ** Constants of the source and of the Linux headers it includes *)

Definition cbs_xu_unit_id : Z := 0x04.
Definition cbs_xu_control_selector : Z := 0x02.
Definition READ_MODE : Z := 1.
Definition WRITE_MODE : Z := 2.
Definition XU_TASK_SET : Z := 0x50.
Definition XU_TASK_GET : Z := 0x51.

Definition LINUX_CTRL_BRIGHTNESS : Z := 9963776.
Definition LINUX_CTRL_CONTRAST : Z := 9963777.
Definition LINUX_CTRL_HUE : Z := 9963779.
Definition LINUX_CTRL_SATURATION : Z := 9963778.
Definition LINUX_CTRL_GAIN : Z := 9963795.
Definition LINUX_CTRL_AWB : Z := 9963802.
Definition LINUX_CTRL_AWB_AUTO : Z := 9963788.
Definition LINUX_CTRL_SHARPNESS : Z := 9963803.
Definition LINUX_CTRL_GAMMA : Z := 9963792.

Definition DEFAULT_MIN_GAMMA : Z := 1.
Definition DEFAULT_MAX_GAMMA : Z := 9.

Definition IOCTL_RETRY : nat := 3.

(* errno.h *)
Definition ENOENT : Z := 2.
Definition EINTR : Z := 4.
Definition EAGAIN : Z := 11.
Definition EINVAL : Z := 22.
Definition EBADRQC : Z := 56.
Definition ENOBUFS : Z := 105.
Definition ETIMEDOUT : Z := 110.

(* linux/usb/video.h *)
Definition UVC_SET_CUR : Z := 0x01.
Definition UVC_GET_CUR : Z := 0x81.
Definition UVC_GET_LEN : Z := 0x85.

(* sys/mman.h: MAP_FAILED is (void* )-1, nullptr is 0 *)
Definition MAP_FAILED : Z := -1.
Definition nullptr : Z := 0.

(** ** The enumerations of videocapture.hpp

    The header is not part of the sources at hand.  [RESOLUTION] has the four
    tiers the switch of [checkResFps] names; [RES_OTHER] stands for every
    other value of the enumeration type, which the switch sends to its
    [default] label.  [SL_DEVICE] has the six tags the source compares. *)

Inductive RESOLUTION : Type :=
| HD2K | HD1080 | HD720 | VGA | RES_OTHER.

Inductive SL_DEVICE : Type :=
| ZED | ZED_M | ZED_CBS | ZED_M_CBS | ZED_2_CBS | NONE.

Record Params : Type := mkParams {
  res : RESOLUTION;
  fps : Z;            (* static_cast<int>(par.fps) *)
  verbose : bool
}.

(** ** System calls: requests, answers, history *)

Inductive Request : Type :=
| VIDIOC_QUERYCAP
| VIDIOC_CROPCAP
| VIDIOC_S_FMT (width height : Z)      (* pixelformat YUYV, field ANY *)
| VIDIOC_S_PARM (denominator : Z)      (* timeperframe = 1 / denominator *)
| VIDIOC_REQBUFS (count : Z)
| VIDIOC_QUERYBUF (index : Z)
| VIDIOC_QBUF (index : Z)
| VIDIOC_DQBUF
| VIDIOC_G_PRIORITY
| VIDIOC_STREAMON
| VIDIOC_STREAMOFF
| VIDIOC_QUERYCTRL (id : Z)
| VIDIOC_G_CTRL (id : Z)
| VIDIOC_S_CTRL (id value : Z)
| UVCIOC_CTRL_QUERY (query size : Z) (data : list Z). (* unit 4, selector 2 *)

(** What a call leaves in the structure its argument points to.
    [Untouched] leaves the structure as the caller filled it. *)
Inductive Payload : Type :=
| Untouched
| FmtInfo (width height bytesperline : Z)
| ReqBufsInfo (count : Z)
| BufInfo (index bytesused length offset tv_sec tv_usec : Z)
| CtrlRange (minimum maximum step default_value : Z)
| CtrlValue (value : Z)
| XuData (data : list Z).

Record Response : Type := mkResponse {
  ret : Z;            (* value returned by ioctl *)
  err : Z;            (* errno once the call has returned *)
  payload : Payload
}.

Inductive Event : Type :=
| EvIoctl (fd : Z) (req : Request)
| EvMmap (fd len offset : Z)
| EvMunmap (addr len : Z)
| EvOpen (devId : Z)
| EvClose (fd : Z)
| EvUsleep (usec : Z)
| EvSelect (fd sec : Z)
| EvMemcpy (dst_size : option Z) (src : Z) (n : Z).

(** The kernel and the camera behind it.  Every answer may depend on the
    whole history (latest call first), so any deterministic device fits. *)
Record Kernel : Type := mkKernel {
  k_ioctl : list Event -> Z -> Request -> Response;
  k_mmap : list Event -> Z -> Z -> Z -> Z;      (* address or MAP_FAILED *)
  k_camera_model : Z -> SL_DEVICE;              (* getCameraModel, by device id *)
  k_stat : Z -> Z * bool;                       (* stat result, S_ISCHR *)
  k_open : list Event -> Z -> Z;                (* descriptor or -1 *)
  k_clock : list Event -> Z * Z                 (* getCurrentTs, CLOCK_MONOTONIC in usec *)
}.

Record World : Type := mkWorld {
  trace : list Event;           (* latest call first *)
  errno : Z;
  live : list (Z * Z)           (* mappings of the process: address, length *)
}.

(** ** The VideoCapture object *)

Record Buffer : Type := mkBuffer {
  buf_start : Z;
  buf_length : Z
}.

Record Frame : Type := mkFrame {
  frame_id : Z;
  timestamp : Z;
  frame_width : Z;
  frame_height : Z;
  frame_channels : Z;
  frame_data : option Z   (* size of the allocation; None is nullptr *)
}.

Record VideoCapture : Type := mkVC {
  mVerbose : bool;
  mInitialized : bool;
  mFileDesc : Z;
  mDevId : Z;
  mCameraModel : SL_DEVICE;
  mWidth : Z;
  mHeight : Z;
  mChannels : Z;
  mFps : Z;
  mBufCount : Z;
  mBuffers : option (list Buffer);   (* None is nullptr *)
  mCurrentIndex : Z;
  mLastFrame : Frame;
  mNewFrame : bool;
  mStopCapture : bool;
  mGrabRunning : bool;
  mGrabThread : bool;                (* joinable *)
  mStartTs : Z;
  mInitTs : Z
}.

Record St : Type := mkSt { vc : VideoCapture; world : World }.

(** ** The monad: state, and a trap for an integer division by zero *)

Inductive Outcome (A : Type) : Type :=
| Done (a : A) (s : St)
| Trap (s : St).
Arguments Done {A} a s.
Arguments Trap {A} s.

Definition M (A : Type) : Type := St -> Outcome A.

Definition mret {A} (a : A) : M A := fun s => Done a s.

Definition mbind {A B} (m : M A) (k : A -> M B) : M B :=
  fun s => match m s with
           | Done a s' => k a s'
           | Trap s' => Trap s'
           end.

Definition trap {A} : M A := fun s => Trap s.

Declare Scope drv_scope.
Delimit Scope drv_scope with drv.
Notation "x <- m ;; k" := (mbind m (fun x => k))
  (at level 61, m at next level, right associativity) : drv_scope.
Notation "m ;;; k" := (mbind m (fun _ => k))
  (at level 61, right associativity) : drv_scope.
Open Scope drv_scope.

Definition get_vc : M VideoCapture := fun s => Done (vc s) s.
Definition get_world : M World := fun s => Done (world s) s.
Definition upd_vc (f : VideoCapture -> VideoCapture) : M unit :=
  fun s => Done tt (mkSt (f (vc s)) (world s)).
Definition upd_world (f : World -> World) : M unit :=
  fun s => Done tt (mkSt (vc s) (f (world s))).

Definition when (b : bool) (m : M unit) : M unit := if b then m else mret tt.

(** The final state and the value of a run. *)
Definition final {A} (o : Outcome A) : St :=
  match o with Done _ s => s | Trap s => s end.
Definition value {A} (o : Outcome A) : option A :=
  match o with Done a _ => Some a | Trap _ => None end.

(** ** Field updates *)

Definition set_mInitialized (b : bool) (v : VideoCapture) : VideoCapture :=
  mkVC (mVerbose v) b (mFileDesc v) (mDevId v) (mCameraModel v) (mWidth v)
       (mHeight v) (mChannels v) (mFps v) (mBufCount v) (mBuffers v)
       (mCurrentIndex v) (mLastFrame v) (mNewFrame v) (mStopCapture v)
       (mGrabRunning v) (mGrabThread v) (mStartTs v) (mInitTs v).

Definition set_mFileDesc (fd : Z) (v : VideoCapture) : VideoCapture :=
  mkVC (mVerbose v) (mInitialized v) fd (mDevId v) (mCameraModel v) (mWidth v)
       (mHeight v) (mChannels v) (mFps v) (mBufCount v) (mBuffers v)
       (mCurrentIndex v) (mLastFrame v) (mNewFrame v) (mStopCapture v)
       (mGrabRunning v) (mGrabThread v) (mStartTs v) (mInitTs v).

Definition set_device (id : Z) (model : SL_DEVICE) (v : VideoCapture)
  : VideoCapture :=
  mkVC (mVerbose v) (mInitialized v) (mFileDesc v) id model (mWidth v)
       (mHeight v) (mChannels v) (mFps v) (mBufCount v) (mBuffers v)
       (mCurrentIndex v) (mLastFrame v) (mNewFrame v) (mStopCapture v)
       (mGrabRunning v) (mGrabThread v) (mStartTs v) (mInitTs v).

Definition set_format (w h c : Z) (v : VideoCapture) : VideoCapture :=
  mkVC (mVerbose v) (mInitialized v) (mFileDesc v) (mDevId v) (mCameraModel v)
       w h c (mFps v) (mBufCount v) (mBuffers v)
       (mCurrentIndex v) (mLastFrame v) (mNewFrame v) (mStopCapture v)
       (mGrabRunning v) (mGrabThread v) (mStartTs v) (mInitTs v).

Definition set_mode (w h f : Z) (v : VideoCapture) : VideoCapture :=
  mkVC (mVerbose v) (mInitialized v) (mFileDesc v) (mDevId v) (mCameraModel v)
       w h (mChannels v) f (mBufCount v) (mBuffers v)
       (mCurrentIndex v) (mLastFrame v) (mNewFrame v) (mStopCapture v)
       (mGrabRunning v) (mGrabThread v) (mStartTs v) (mInitTs v).

Definition set_mBufCount (n : Z) (v : VideoCapture) : VideoCapture :=
  mkVC (mVerbose v) (mInitialized v) (mFileDesc v) (mDevId v) (mCameraModel v)
       (mWidth v) (mHeight v) (mChannels v) (mFps v) n (mBuffers v)
       (mCurrentIndex v) (mLastFrame v) (mNewFrame v) (mStopCapture v)
       (mGrabRunning v) (mGrabThread v) (mStartTs v) (mInitTs v).

Definition set_mBuffers (b : option (list Buffer)) (v : VideoCapture)
  : VideoCapture :=
  mkVC (mVerbose v) (mInitialized v) (mFileDesc v) (mDevId v) (mCameraModel v)
       (mWidth v) (mHeight v) (mChannels v) (mFps v) (mBufCount v) b
       (mCurrentIndex v) (mLastFrame v) (mNewFrame v) (mStopCapture v)
       (mGrabRunning v) (mGrabThread v) (mStartTs v) (mInitTs v).

Definition set_mCurrentIndex (i : Z) (v : VideoCapture) : VideoCapture :=
  mkVC (mVerbose v) (mInitialized v) (mFileDesc v) (mDevId v) (mCameraModel v)
       (mWidth v) (mHeight v) (mChannels v) (mFps v) (mBufCount v) (mBuffers v)
       i (mLastFrame v) (mNewFrame v) (mStopCapture v)
       (mGrabRunning v) (mGrabThread v) (mStartTs v) (mInitTs v).

Definition set_mLastFrame (f : Frame) (v : VideoCapture) : VideoCapture :=
  mkVC (mVerbose v) (mInitialized v) (mFileDesc v) (mDevId v) (mCameraModel v)
       (mWidth v) (mHeight v) (mChannels v) (mFps v) (mBufCount v) (mBuffers v)
       (mCurrentIndex v) f (mNewFrame v) (mStopCapture v)
       (mGrabRunning v) (mGrabThread v) (mStartTs v) (mInitTs v).

Definition set_mNewFrame (b : bool) (v : VideoCapture) : VideoCapture :=
  mkVC (mVerbose v) (mInitialized v) (mFileDesc v) (mDevId v) (mCameraModel v)
       (mWidth v) (mHeight v) (mChannels v) (mFps v) (mBufCount v) (mBuffers v)
       (mCurrentIndex v) (mLastFrame v) b (mStopCapture v)
       (mGrabRunning v) (mGrabThread v) (mStartTs v) (mInitTs v).

Definition set_mStopCapture (b : bool) (v : VideoCapture) : VideoCapture :=
  mkVC (mVerbose v) (mInitialized v) (mFileDesc v) (mDevId v) (mCameraModel v)
       (mWidth v) (mHeight v) (mChannels v) (mFps v) (mBufCount v) (mBuffers v)
       (mCurrentIndex v) (mLastFrame v) (mNewFrame v) b
       (mGrabRunning v) (mGrabThread v) (mStartTs v) (mInitTs v).

Definition set_mGrabRunning (b : bool) (v : VideoCapture) : VideoCapture :=
  mkVC (mVerbose v) (mInitialized v) (mFileDesc v) (mDevId v) (mCameraModel v)
       (mWidth v) (mHeight v) (mChannels v) (mFps v) (mBufCount v) (mBuffers v)
       (mCurrentIndex v) (mLastFrame v) (mNewFrame v) (mStopCapture v)
       b (mGrabThread v) (mStartTs v) (mInitTs v).

Definition set_mGrabThread (b : bool) (v : VideoCapture) : VideoCapture :=
  mkVC (mVerbose v) (mInitialized v) (mFileDesc v) (mDevId v) (mCameraModel v)
       (mWidth v) (mHeight v) (mChannels v) (mFps v) (mBufCount v) (mBuffers v)
       (mCurrentIndex v) (mLastFrame v) (mNewFrame v) (mStopCapture v)
       (mGrabRunning v) b (mStartTs v) (mInitTs v).

Definition set_clocks (start init : Z) (v : VideoCapture) : VideoCapture :=
  mkVC (mVerbose v) (mInitialized v) (mFileDesc v) (mDevId v) (mCameraModel v)
       (mWidth v) (mHeight v) (mChannels v) (mFps v) (mBufCount v) (mBuffers v)
       (mCurrentIndex v) (mLastFrame v) (mNewFrame v) (mStopCapture v)
       (mGrabRunning v) (mGrabThread v) start init.

Definition set_frame_data (d : option Z) (f : Frame) : Frame :=
  mkFrame (frame_id f) (timestamp f) (frame_width f) (frame_height f)
          (frame_channels f) d.

Definition set_frame_timestamp (t : Z) (f : Frame) : Frame :=
  mkFrame (frame_id f) t (frame_width f) (frame_height f)
          (frame_channels f) (frame_data f).

Definition set_frame_id (i : Z) (f : Frame) : Frame :=
  mkFrame i (timestamp f) (frame_width f) (frame_height f)
          (frame_channels f) (frame_data f).

Definition log_event (e : Event) (w : World) : World :=
  mkWorld (e :: trace w) (errno w) (live w).

Definition set_errno (e : Z) (w : World) : World :=
  mkWorld (trace w) e (live w).

Definition set_live (l : list (Z * Z)) (w : World) : World :=
  mkWorld (trace w) (errno w) l.

Definition set_mFps (f : Z) (v : VideoCapture) : VideoCapture :=
  set_mode (mWidth v) (mHeight v) f v.

(** [mBuffers[i] = b].  The array is never written out of its bounds by the
    driver: [openCamera] sizes it by the count it then loops over. *)
Fixpoint store_at {A} (i : nat) (b : A) (l : list A) : list A :=
  match l, i with
  | [], _ => []
  | _ :: t, O => b :: t
  | h :: t, S j => h :: store_at j b t
  end.

Definition set_buffer (i : Z) (b : Buffer) (v : VideoCapture) : VideoCapture :=
  set_mBuffers (option_map (store_at (Z.to_nat i) b) (mBuffers v)) v.

Definition buffer_at (bufs : list Buffer) (i : Z) : Buffer :=
  nth (Z.to_nat i) bufs (mkBuffer nullptr 0).

(** The local [struct v4l2_buffer buf] of the capture thread. *)
Record v4l2_buffer : Type := mkV4l2Buffer {
  index : Z;
  bytesused : Z;
  length : Z;
  tv_sec : Z;
  tv_usec : Z
}.

(** ** The driver

    Mutexes are left out: each member function is modelled as it runs on its
    own thread.  Verbose output is left out; [mVerbose] is kept where a
    [return] sits inside an [if (mVerbose)] block.  Memory allocation
    ([calloc], [new]) is taken to succeed. *)

Section Driver.

Variable K : Kernel.

(** [cameraResolution] is a table of videocapture.hpp, which is not among the
    sources: nominal width and height of each tier.  At [RES_OTHER] it
    stands for whatever the lookup yields there; nothing below depends on
    it. *)
Variable cameraResolution : RESOLUTION -> Z * Z.

(** *** System calls *)

Definition ioctl (fd : Z) (req : Request) : M (Z * Payload) :=
  fun s =>
    let r := k_ioctl K (trace (world s)) fd req in
    Done (ret r, payload r)
         (mkSt (vc s)
               (set_errno (err r) (log_event (EvIoctl fd req) (world s)))).

Definition mmap (len fd offset : Z) : M Z :=
  fun s =>
    let a := k_mmap K (trace (world s)) fd len offset in
    let w := log_event (EvMmap fd len offset) (world s) in
    Done a (mkSt (vc s)
                 (if a =? MAP_FAILED then w
                  else set_live ((a, len) :: live w) w)).

Definition munmap (addr len : Z) : M unit :=
  upd_world (fun w =>
    set_live (filter (fun m => negb (fst m =? addr)) (live w))
             (log_event (EvMunmap addr len) w)).

Definition sys_open (devId : Z) : M Z :=
  fun s =>
    Done (k_open K (trace (world s)) devId)
         (mkSt (vc s) (log_event (EvOpen devId) (world s))).

Definition close (fd : Z) : M unit := upd_world (log_event (EvClose fd)).

Definition usleep (usec : Z) : M unit := upd_world (log_event (EvUsleep usec)).

(** *** xioctl (lines 513-535)

    [tries] counts down from [IOCTL_RETRY]; the condition of the do-while is
    [ret && tries-- && (errno == EINTR || errno == EAGAIN || errno == ETIMEDOUT)],
    evaluated left to right with short circuit.  [tries--] yields the value
    before the decrement, so the match on [tries] is that test.  A retry
    passes the same argument again. *)

Definition transient (e : Z) : bool :=
  (e =? EINTR) || (e =? EAGAIN) || (e =? ETIMEDOUT).

Fixpoint xioctl_loop (tries : nat) (fd : Z) (req : Request) : M (Z * Payload) :=
  r <- ioctl fd req ;;
  if fst r =? 0 then mret r
  else match tries with
       | O => mret r
       | S tries' =>
           w <- get_world ;;
           if transient (errno w) then xioctl_loop tries' fd req
           else mret r
       end.

Definition xioctl (fd : Z) (req : Request) : M (Z * Payload) :=
  xioctl_loop IOCTL_RETRY fd req.

(** *** checkResFps (lines 113-186) *)

Definition checkResFps (par : Params) : M unit :=
  upd_vc (set_mode (wrap_s32 (fst (cameraResolution (res par)) * 2))
                   (snd (cameraResolution (res par)))
                   (fps par)) ;;;
  v <- get_vc ;;
  let f := mFps v in
  match res par with
  | RES_OTHER (* default: falls through *)
  | HD2K =>
      when (negb (f =? 15)) (upd_vc (set_mFps 15))
  | HD1080 =>
      when (negb (f =? 15) && negb (f =? 30))
           (if f <=? 22 then upd_vc (set_mFps 15)
            else upd_vc (set_mFps 30))
  | HD720 =>
      when (negb (f =? 15) && negb (f =? 30) && negb (f =? 60))
           (if f <=? 22 then upd_vc (set_mFps 15)
            else if f <? 45 then upd_vc (set_mFps 30)
            else upd_vc (set_mFps 60))
  | VGA =>
      when (negb (f =? 15) && negb (f =? 30) && negb (f =? 60)
            && negb (f =? 100))
           (if f <=? 22 then upd_vc (set_mFps 15)
            else if f <? 45 then upd_vc (set_mFps 30)
            else if f <? 80 then upd_vc (set_mFps 60)
            else upd_vc (set_mFps 100))
  end.

(** *** linux_cbs_VendorControl (lines 705-813)

    Returns the status and the command buffer as the call leaves it. *)

(** [(data[1] << 8) + data[0]] over the two bytes of the length query. *)
Definition control_length (data : list Z) : Z :=
  Z.shiftl (wrap_u8 (nth 1 data 0)) 8 + wrap_u8 (nth 0 data 0).

Definition linux_cbs_VendorControl (buf : list Z) (len readMode : Z)
    (safe : bool) : M (Z * list Z) :=
  if len >? 384 then mret (-2, buf) else
  v <- get_vc ;;
  if negb (mInitialized v) then mret (-3, buf) else
  r <- ioctl (mFileDesc v) (UVCIOC_CTRL_QUERY UVC_GET_LEN 2 [0; 0]) ;;
  if negb (fst r =? 0) then mret (-4, buf) else
  let tmp := match snd r with XuData d => d | _ => [0; 0] end in
  let len := control_length tmp in
  s <- ioctl (mFileDesc v) (UVCIOC_CTRL_QUERY UVC_SET_CUR (wrap_u16 len) buf) ;;
  if negb (fst s =? 0) then mret (-1, buf) else
  usleep (if negb safe then 300 else 2000) ;;;
  if readMode =? READ_MODE then
    g <- ioctl (mFileDesc v) (UVCIOC_CTRL_QUERY UVC_GET_CUR (wrap_u16 len) buf) ;;
    let buf' := match snd g with XuData d => d | _ => buf end in
    if negb (fst g =? 0) then mret (-1, buf') else mret (0, buf')
  else mret (0, buf).

(** *** GPIO and LED (lines 821-925)

    [xu_buf] is zeroed by memset, then bytes 0 to 3 are written.  The calls
    leave the [safe] argument to its default, false. *)

Definition xu_buf (size : nat) (b0 b1 b2 b3 : Z) : list Z :=
  b0 :: b1 :: wrap_u8 b2 :: wrap_u8 b3 :: repeat 0 (size - 4).

Definition linux_cbs_get_gpio_value (gpio_number : Z) : M (Z * Z) :=
  r <- linux_cbs_VendorControl (xu_buf 384 XU_TASK_GET 0x13 gpio_number 0)
                               384 1 false ;;
  mret (fst r, wrap_u8 (nth 17 (snd r) 0)).

Definition linux_cbs_set_gpio_value (gpio_number value : Z) : M Z :=
  r <- linux_cbs_VendorControl (xu_buf 64 XU_TASK_SET 0x12 gpio_number value)
                               64 0 false ;;
  mret (fst r).

Definition linux_cbs_set_gpio_direction (gpio_number direction : Z) : M Z :=
  r <- linux_cbs_VendorControl (xu_buf 64 XU_TASK_SET 0x10 gpio_number direction)
                               64 0 false ;;
  mret (fst r).

Definition setLEDValue (display : bool) : M Z :=
  if display then
    a <- linux_cbs_set_gpio_direction 2 0 ;;
    b <- linux_cbs_set_gpio_value 2 1 ;;
    mret (0 + a + b)
  else
    a <- linux_cbs_set_gpio_direction 2 0 ;;
    b <- linux_cbs_set_gpio_value 2 0 ;;
    mret (0 + a + b).

(** [value_ok] says that the pointer argument is not null; the second
    component of the result is what is stored through it. *)
Definition getLEDValue (value_ok : bool) : M (Z * option bool) :=
  if negb value_ok then mret (-1, None) else
  hr <- linux_cbs_set_gpio_direction 2 1 ;;
  g <- linux_cbs_get_gpio_value 2 ;;
  mret (hr + fst g, Some (negb (snd g =? 0))).

Definition toggleLED (value_ok : bool) : M (Z * option bool) :=
  g <- getLEDValue true ;;
  let ret := fst g in
  if ret =? 0 then
    let newVal := negb (match snd g with Some b => b | None => false end) in
    ret <- setLEDValue newVal ;;
    if (ret =? 0) && value_ok then mret (ret, Some newVal)
    else mret (ret, None)
  else mret (ret, None).

(** *** Standard controls (lines 927-1005)

    [queryctrl] and [control_s] are zeroed by memset before the query. *)

Definition queryctrl_fields (p : Payload) : Z * Z * Z * Z :=
  match p with
  | CtrlRange mn mx st df =>
      (wrap_s32 mn, wrap_s32 mx, wrap_s32 st, wrap_s32 df)
  | _ => (0, 0, 0, 0)
  end.

Definition getCameraControlSettings (ctrl_id : Z) : M Z :=
  v <- get_vc ;;
  q <- ioctl (mFileDesc v) (VIDIOC_QUERYCTRL (wrap_u32 ctrl_id)) ;;
  if negb (0 =? fst q) then mret (-1) else
  g <- ioctl (mFileDesc v) (VIDIOC_G_CTRL (wrap_u32 ctrl_id)) ;;
  if fst g =? 0
  then mret (match snd g with CtrlValue x => wrap_s32 x | _ => 0 end)
  else mret (-1).

Definition setCameraControlSettings (ctrl_id ctrl_val : Z) : M unit :=
  v <- get_vc ;;
  q <- ioctl (mFileDesc v) (VIDIOC_QUERYCTRL (wrap_u32 ctrl_id)) ;;
  let '(qmin, qmax, _, _) := queryctrl_fields (snd q) in
  let '(min, max) :=
    if 0 =? fst q then
      if ctrl_id =? LINUX_CTRL_GAMMA
      then (DEFAULT_MIN_GAMMA, DEFAULT_MAX_GAMMA)
      else (qmin, qmax)
    else (0, 6500) in
  if (ctrl_val >=? min) && (ctrl_val <=? max) then
    _ <- ioctl (mFileDesc v) (VIDIOC_S_CTRL (wrap_u32 ctrl_id) ctrl_val) ;;
    mret tt
  else mret tt.

Definition resetCameraControlSettings (ctrl_id : Z) : M unit :=
  v <- get_vc ;;
  q <- ioctl (mFileDesc v) (VIDIOC_QUERYCTRL (wrap_u32 ctrl_id)) ;;
  let '(_, _, _, val_def) := queryctrl_fields (snd q) in
  _ <- ioctl (mFileDesc v) (VIDIOC_S_CTRL (wrap_u32 ctrl_id) val_def) ;;
  mret tt.

(** *** reset (lines 63-111) *)

Fixpoint munmap_all (bufs : list Buffer) (n : nat) (i : Z) : M unit :=
  match n with
  | O => mret tt
  | S n' =>
      munmap (buf_start (buffer_at bufs i)) (buf_length (buffer_at bufs i)) ;;;
      munmap_all bufs n' (i + 1)
  end.

Definition reset : M unit :=
  _ <- setLEDValue false ;;
  upd_vc (set_mStopCapture true) ;;;
  v <- get_vc ;;
  when (mGrabThread v)                            (* joinable: join *)
       (upd_vc (fun v => set_mGrabThread false (set_mGrabRunning false v))) ;;;
  (if negb (mFileDesc v =? -1)
   then _ <- xioctl (mFileDesc v) VIDIOC_STREAMOFF ;; mret tt
   else mret tt) ;;;
  match mInitialized v, mBuffers v with
  | true, Some bufs =>
      munmap_all bufs (Z.to_nat (mBufCount v)) 0 ;;;
      upd_vc (set_mBuffers None)                  (* free, then nullptr *)
  | _, _ => mret tt
  end ;;;
  when (negb (mFileDesc v =? 0))
       (close (mFileDesc v) ;;; upd_vc (set_mFileDesc (-1))) ;;;
  upd_vc (fun v => set_mLastFrame (set_frame_data None (mLastFrame v)) v) ;;;
  upd_vc (set_mInitialized false).

(** *** openCamera (lines 226-442) *)

Definition input_set_framerate (fps : Z) : M Z :=
  v <- get_vc ;;
  r <- xioctl (mFileDesc v) (VIDIOC_S_PARM (wrap_u32 fps)) ;;
  mret (fst r).

(** What the caller reads back from the structures it passed: the fields
    the kernel wrote, or the values the caller had put there. *)
Definition format_fields (width height : Z) (p : Payload) : Z * Z * Z :=
  match p with
  | FmtInfo w h b => (wrap_u32 w, wrap_u32 h, wrap_u32 b)
  | _ => (width, height, 0)
  end.

Definition granted_count (count : Z) (p : Payload) : Z :=
  match p with
  | ReqBufsInfo n => wrap_u32 n
  | _ => count
  end.

Definition querybuf_fields (p : Payload) : Z * Z :=
  match p with
  | BufInfo _ _ l o _ _ => (wrap_u32 l, wrap_u32 o)
  | _ => (0, 0)
  end.

(** The loop of lines 408-436; [n] buffers are still to be queried and
    mapped, [i] is the running value of [mBufCount]. *)
Fixpoint map_buffers (n : nat) (i : Z) : M bool :=
  upd_vc (set_mBufCount i) ;;;
  match n with
  | O => mret true
  | S n' =>
      v <- get_vc ;;
      q <- xioctl (mFileDesc v) (VIDIOC_QUERYBUF i) ;;
      if -1 =? fst q then mret false else
      let '(len, off) := querybuf_fields (snd q) in
      a <- mmap len (mFileDesc v) off ;;
      upd_vc (set_buffer i (mkBuffer a len)) ;;;
      map_buffers n' (i + 1)
  end.

Definition openCamera (devId : Z) : M bool :=
  upd_vc (fun v => set_device devId (k_camera_model K devId) v) ;;;
  v <- get_vc ;;
  match mCameraModel v with
  | NONE => mret false
  | ZED | ZED_M => mret false
  | _ =>
  let st := k_stat K devId in
  if (-1 =? fst st) && mVerbose v then mret false else
  if negb (snd st) && mVerbose v then mret false else
  upd_vc (set_mFileDesc 0) ;;;
  fd <- sys_open devId ;;
  upd_vc (set_mFileDesc fd) ;;;
  if -1 =? fd then mret false else
  cap <- xioctl fd VIDIOC_QUERYCAP ;;
  if -1 =? fst cap then mret false else
  _ <- xioctl fd VIDIOC_CROPCAP ;;
  let '(fw, fh) :=
    if negb (wrap_s32 (mWidth v * mHeight v) =? 0)
    then (wrap_u32 (mWidth v), wrap_u32 (mHeight v))
    else (0, 0) in
  let width_tmp := mWidth v in
  let height_tmp := mHeight v in
  fmt <- xioctl fd (VIDIOC_S_FMT fw fh) ;;
  if -1 =? fst fmt then mret false else
  let '(pw, ph, bpl) := format_fields fw fh (snd fmt) in
  let w := wrap_s32 pw in
  let h := wrap_s32 ph in
  (* bytesperline / mWidth: unsigned division, mWidth converted back *)
  if wrap_u32 w =? 0 then upd_vc (set_format w h (mChannels v)) ;;; trap else
  let c := wrap_s32 (bpl / wrap_u32 w) in
  upd_vc (set_format w h c) ;;;
  if negb (w =? width_tmp) || negb (h =? height_tmp) then mret false else
  _ <- input_set_framerate (mFps v) ;;
  let bufSize := wrap_s32 (wrap_s32 (w * h) * c) in
  (* new unsigned char[bufSize] throws on a negative size *)
  if bufSize <? 0 then trap else
  upd_vc (set_mLastFrame (mkFrame (frame_id (mLastFrame v))
            (timestamp (mLastFrame v)) w h c (Some bufSize))) ;;;
  wd <- get_world ;;
  upd_vc (set_clocks (wrap_u64 (fst (k_clock K (trace wd))))
                     (wrap_u64 (snd (k_clock K (trace wd))))) ;;;
  req <- xioctl fd (VIDIOC_REQBUFS (wrap_u32 (mBufCount v))) ;;
  if -1 =? fst req then mret false else
  let count := granted_count (wrap_u32 (mBufCount v)) (snd req) in
  upd_vc (set_mBuffers (Some (repeat (mkBuffer nullptr 0) (Z.to_nat count)))) ;;;
  ok <- map_buffers (Z.to_nat count) 0 ;;
  if negb ok then mret false else
  upd_vc (set_mBufCount count) ;;;
  mret true
  end.

(** *** startCapture (lines 444-499) and init (lines 188-224) *)

Fixpoint queue_all (n : nat) (i : Z) : M bool :=
  match n with
  | O => mret true
  | S n' =>
      v <- get_vc ;;
      r <- xioctl (mFileDesc v) (VIDIOC_QBUF i) ;;
      if -1 =? fst r then mret false else queue_all n' (i + 1)
  end.

Definition startCapture : M bool :=
  v <- get_vc ;;
  ok <- queue_all (Z.to_nat (mBufCount v)) 0 ;;
  if negb ok then mret false else
  p <- xioctl (mFileDesc v) VIDIOC_G_PRIORITY ;;
  if -1 =? fst p then mret false else
  s <- xioctl (mFileDesc v) VIDIOC_STREAMON ;;
  if -1 =? fst s then mret false else
  upd_vc (set_mGrabThread true) ;;;             (* the thread is spawned *)
  mret true.

(** Device ids [id], [id + 1], ... for [n] attempts, until one opens. *)
Fixpoint open_first (n : nat) (id : Z) : M bool :=
  match n with
  | O => mret false
  | S n' =>
      opened <- openCamera id ;;
      if opened then mret true else open_first n' (id + 1)
  end.

Definition init (devId : Z) : M bool :=
  reset ;;;
  opened <- (if devId =? -1 then open_first 64 0
             else openCamera (wrap_u8 devId)) ;;
  if negb opened then mret false else
  started <- startCapture ;;
  upd_vc (set_mInitialized started) ;;;
  _ <- setLEDValue true ;;
  mret started.

(** *** grabThreadFunc (lines 603-681)

    [buf] is declared before the loop and lives across its turns. *)

(** Lines 605-629: the flags, the wait on the descriptor, and [buf] zeroed
    with bytesused = -1.  The result is None when the thread returns at
    line 614. *)
Definition grab_buf : v4l2_buffer := mkV4l2Buffer 0 (wrap_u32 (-1)) 0 0 0.

Definition grab_prelude : M (option v4l2_buffer) :=
  upd_vc (set_mNewFrame false) ;;;
  upd_vc (set_mStopCapture false) ;;;
  v <- get_vc ;;
  if mFileDesc v <? 0 then mret None else
  upd_world (log_event (EvSelect (mFileDesc v) 2)) ;;;
  mret (Some grab_buf).

(** One turn of the loop, lines 633-677. *)

Definition dequeued (buf : v4l2_buffer) (p : Payload) : v4l2_buffer :=
  match p with
  | BufInfo i bu l _ s us =>
      mkV4l2Buffer (wrap_u32 i) (wrap_u32 bu) (wrap_u32 l) s us
  | _ => buf
  end.

Definition grab_iteration (buf : v4l2_buffer) : M v4l2_buffer :=
  upd_vc (set_mGrabRunning true) ;;;
  v <- get_vc ;;
  r <- ioctl (mFileDesc v) VIDIOC_DQBUF ;;
  let buf := dequeued buf (snd r) in
  if (bytesused buf =? length buf) && (fst r =? 0)
     && (index buf <? mBufCount v)
  then
    upd_vc (set_mCurrentIndex (index buf)) ;;;
    let current_ts :=
      wrap_u64 (wrap_u64 (wrap_u64 (tv_sec buf * (1000 * 1000) + tv_usec buf)
                          - mInitTs v) * 1000) in
    upd_vc (fun v => set_mLastFrame
              (set_frame_timestamp (wrap_u64 (mStartTs v + current_ts))
                                   (mLastFrame v)) v) ;;;
    match mBuffers v with
    | None => trap                                (* mBuffers[...] on nullptr *)
    | Some bufs =>
        let b := buffer_at bufs (index buf) in
        match frame_data (mLastFrame v) with
        | Some size =>
            when (negb (mWidth v =? 0) && negb (mHeight v =? 0)
                  && negb (buf_start b =? nullptr))
                 (upd_vc (fun v => set_mLastFrame
                            (set_frame_timestamp current_ts
                               (set_frame_id (wrap_u64 (frame_id (mLastFrame v) + 1))
                                             (mLastFrame v))) v) ;;;
                  upd_world (log_event
                               (EvMemcpy (Some size) (buf_start b) (buf_length b))) ;;;
                  upd_vc (set_mNewFrame true))
        | None => mret tt
        end
    end ;;;
    _ <- ioctl (mFileDesc v) (VIDIOC_QBUF (index buf)) ;;
    mret buf
  else
    (if negb (bytesused buf =? length buf)
     then _ <- ioctl (mFileDesc v) (VIDIOC_QBUF (index buf)) ;; mret tt
     else mret tt) ;;;
    usleep 200 ;;;
    mret (mkV4l2Buffer (index buf) (wrap_u32 (-1)) 0 (tv_sec buf) (tv_usec buf)).

(** [mStopCapture] is raised by another thread; the loop is modelled by the
    number of turns it makes before it sees the flag. *)
Fixpoint grab_turns (turns : nat) (buf : v4l2_buffer) : M v4l2_buffer :=
  match turns with
  | O => mret buf
  | S n => b <- grab_iteration buf ;; grab_turns n b
  end.

Definition grabThreadFunc (turns : nat) : M unit :=
  b <- grab_prelude ;;
  match b with
  | None => mret tt
  | Some buf =>
      _ <- grab_turns turns buf ;;
      upd_vc (set_mGrabRunning false)
  end.

End Driver.

(** *** getLastFrame (lines 683-701)

    [mNewFrame] is written by the capture thread: [seen k] is its value at
    the k-th evaluation of the loop condition.  [time_count] is a uint64_t,
    and [--time_count] wraps.  The loop ends, since the counter reaches 0
    within 2^64 turns.  The result of the wait is whether a frame was seen
    and how many times [usleep(100)] ran. *)

Definition turns_left (time_count : Z) : nat :=
  Z.to_nat (if wrap_u64 time_count =? 0 then 2 ^ 64 else wrap_u64 time_count).

Equations? wait_new_frame (seen : nat -> bool) (k : nat) (time_count : Z)
  : bool * nat by wf (turns_left time_count) lt :=
  wait_new_frame seen k time_count with seen k := {
    | true => (true, k)
    | false with Z.eq_dec (wrap_u64 (time_count - 1)) 0 := {
        | left _ => (false, k)
        | right _ => wait_new_frame seen (S k) (wrap_u64 (time_count - 1)) } }.
Proof.
  unfold turns_left, wrap_u64 in *.
  rewrite Z.mod_mod by lia.
  destruct (Z.eqb_spec ((time_count - 1) mod 2 ^ 64) 0); [ contradiction | ].
  destruct (Z.eqb_spec (time_count mod 2 ^ 64) 0);
    apply Z2Nat.inj_lt; try lia;
    Z.to_euclidean_division_equations; lia.
Qed.

Inductive FramePtr : Type :=
| null_frame            (* nullptr *)
| last_frame.           (* &mLastFrame *)

(** [delivered k]: the capture thread has set [mNewFrame] by the k-th
    evaluation of the loop condition. *)
Definition getLastFrame (delivered : nat -> bool) (timeout_msec : Z)
    (v : VideoCapture) : FramePtr * nat * VideoCapture :=
  let w := wait_new_frame (fun k => mNewFrame v || delivered k) 0
                          (wrap_u64 (timeout_msec * 10)) in
  if fst w then (last_frame, snd w, set_mNewFrame false v)
  else (null_frame, snd w, v).

(** * Specification-level notions and concrete environments *)

(** ** Frame rate negotiation *)

(** The frame rates each tier supports.  A resolution outside the four tiers
    is handled by the [default] label, which falls through to HD2K. *)
Definition supported_fps (r : RESOLUTION) : list Z :=
  match r with
  | HD2K | RES_OTHER => [15]
  | HD1080 => [15; 30]
  | HD720 => [15; 30; 60]
  | VGA => [15; 30; 60; 100]
  end.

Definition fps_after (table : RESOLUTION -> Z * Z) (par : Params) (s : St) : Z :=
  mFps (vc (final (checkResFps table par s))).


(** ** Concrete environments *)

(** A device that gives the same answer to every request; nothing can be
    opened or mapped. *)
Definition always (r : Response) : Kernel :=
  mkKernel (fun _ _ _ => r) (fun _ _ _ _ => MAP_FAILED) (fun _ => NONE)
           (fun _ => (-1, false)) (fun _ _ => -1) (fun _ => (0, 0)).

Definition interrupted : Response := mkResponse (-1) EINTR Untouched.
Definition success : Response := mkResponse 0 0 Untouched.

(** A VideoCapture object before [init]: no descriptor ([reset] tests it
    against -1), no buffers, not initialized, two buffers to request.  The
    member initializers are in videocapture.hpp, which is not among the
    sources; the general statements below quantify over the state. *)
Definition fresh_vc (v : bool) : VideoCapture :=
  mkVC v false (-1) 0 NONE 0 0 0 0 2 None 0 (mkFrame 0 0 0 0 0 None)
       false false false false 0 0.

Definition boot (v : bool) : St := mkSt (fresh_vc v) (mkWorld [] 0 []).

(** ** Retry of control requests *)

Definition is_ioctl (e : Event) : bool :=
  match e with EvIoctl _ _ => true | _ => false end.

(** Number of ioctl calls in a history. *)
Definition ioctl_calls (t : list Event) : nat := List.length (filter is_ioctl t).

(** The answer to the attempt that follows [i] earlier attempts of the same
    request made from state [s]. *)
Definition attempt (K : Kernel) (s : St) (fd : Z) (req : Request) (i : nat)
  : Response :=
  k_ioctl K (repeat (EvIoctl fd req) i ++ trace (world s)) fd req.

(** ** Vendor commands and the LED *)

(** A "set current value" request that carries an XU_TASK_SET command: the
    commands by which the driver changes the state of a GPIO line. *)
Definition is_gpio_set (e : Event) : bool :=
  match e with
  | EvIoctl _ (UVCIOC_CTRL_QUERY q _ (b0 :: _)) =>
      (q =? UVC_SET_CUR) && (b0 =? XU_TASK_SET)
  | _ => false
  end.

(** Among them, the command that writes the value of a line (0x12). *)
Definition is_gpio_value_write (e : Event) : bool :=
  match e with
  | EvIoctl _ (UVCIOC_CTRL_QUERY q _ (b0 :: b1 :: _)) =>
      (q =? UVC_SET_CUR) && (b0 =? XU_TASK_SET) && (b1 =? 0x12)
  | _ => false
  end.

Definition gpio_set_commands (t : list Event) : list Event :=
  filter is_gpio_set t.

Definition gpio_value_writes (t : list Event) : list Event :=
  filter is_gpio_value_write t.

(** An initialized session on descriptor 3 with no history. *)
Definition ready_vc : VideoCapture :=
  mkVC false true 3 0 ZED_2_CBS 4416 1242 2 15 2
       (Some [mkBuffer 4096 10969344; mkBuffer 8192 10969344]) 0
       (mkFrame 0 0 4416 1242 2 (Some 10969344))
       false false true true 0 0.

Definition ready : St := mkSt ready_vc (mkWorld [] 0 [(4096, 10969344); (8192, 10969344)]).

(** A camera on USB3 (control length 384) that takes every command but fails
    every read-back with EIO. *)
Definition readback_fails : Kernel :=
  mkKernel
    (fun _ _ req =>
       match req with
       | UVCIOC_CTRL_QUERY q _ _ =>
           if q =? UVC_GET_LEN then mkResponse 0 0 (XuData [128; 1])
           else if q =? UVC_SET_CUR then success
           else mkResponse (-1) 5 Untouched
       | _ => success
       end)
    (fun _ _ _ _ => MAP_FAILED) (fun _ => ZED_2_CBS)
    (fun _ => (0, true)) (fun _ _ => 3) (fun _ => (0, 0)).

(** ** Standard controls *)

(** The control writes of a history, latest first: control id and value. *)
Fixpoint control_writes (t : list Event) : list (Z * Z) :=
  match t with
  | [] => []
  | EvIoctl _ (VIDIOC_S_CTRL id value) :: t' => (id, value) :: control_writes t'
  | _ :: t' => control_writes t'
  end.

(** The answer the device gives to the range query of a call made in [s]. *)
Definition range_answer (K : Kernel) (s : St) (ctrl_id : Z) : Response :=
  k_ioctl K (trace (world s)) (mFileDesc (vc s))
          (VIDIOC_QUERYCTRL (wrap_u32 ctrl_id)).

(** The range a request is checked against: the queried range, [1,9] for
    gamma, and the fixed [0,6500] when the query itself fails. *)
Definition effective_range (ctrl_id : Z) (q : Response) : Z * Z :=
  if ret q =? 0 then
    if ctrl_id =? LINUX_CTRL_GAMMA then (1, 9)
    else (fst (fst (fst (queryctrl_fields (payload q)))),
          snd (fst (fst (queryctrl_fields (payload q)))))
  else (0, 6500).

(** The state a call is in once its range query has been answered. *)
Definition after_query (K : Kernel) (s : St) (ctrl_id : Z) : St :=
  mkSt (vc s)
       (set_errno (err (range_answer K s ctrl_id))
          (log_event (EvIoctl (mFileDesc (vc s))
                        (VIDIOC_QUERYCTRL (wrap_u32 ctrl_id))) (world s))).

(** A camera that does not know the control asked about: the range query
    fails with EINVAL, every other request succeeds. *)
Definition no_range : Kernel :=
  mkKernel
    (fun _ _ req =>
       match req with
       | VIDIOC_QUERYCTRL _ => mkResponse (-1) EINVAL Untouched
       | _ => success
       end)
    (fun _ _ _ _ => MAP_FAILED) (fun _ => ZED_2_CBS)
    (fun _ => (0, true)) (fun _ _ => 3) (fun _ => (0, 0)).

(** A camera that reports the range [0,200], step 1 and default 100 for
    every control. *)
Definition wide_range : Kernel :=
  mkKernel
    (fun _ _ req =>
       match req with
       | VIDIOC_QUERYCTRL _ => mkResponse 0 0 (CtrlRange 0 200 1 100)
       | _ => success
       end)
    (fun _ _ _ _ => MAP_FAILED) (fun _ => ZED_2_CBS)
    (fun _ => (0, true)) (fun _ _ => 3) (fun _ => (0, 0)).

(** ** Frames and buffers *)

(** The size [openCamera] allocates for the frame payload (lines 373-377):
    width * height * channels in int arithmetic. *)
Definition payload_size (v : VideoCapture) : Z :=
  wrap_s32 (wrap_s32 (mWidth v * mHeight v) * mChannels v).

(** [b] holds the length the kernel reported for buffer [j]. *)
Definition length_reported (K : Kernel) (fd j : Z) (b : Buffer) : Prop :=
  exists t,
    buf_length b
    = fst (querybuf_fields (payload (k_ioctl K t fd (VIDIOC_QUERYBUF j)))).

(** The facts about the object that the buffer loop leaves alone. *)
Definition same_format (v1 v : VideoCapture) : Prop :=
  mWidth v1 = mWidth v /\ mHeight v1 = mHeight v /\ mChannels v1 = mChannels v
  /\ mLastFrame v1 = mLastFrame v /\ mFileDesc v1 = mFileDesc v
  /\ mInitialized v1 = mInitialized v.

(** ** Sessions on concrete cameras *)

(** Nominal sizes for the examples: the left image of each tier. *)
Definition zed_table (r : RESOLUTION) : Z * Z :=
  match r with
  | HD2K | RES_OTHER => (2208, 1242)
  | HD1080 => (1920, 1080)
  | HD720 => (1280, 720)
  | VGA => (672, 376)
  end.

(** A supported camera on /dev/video0, opened as descriptor 3.  [fmt] is what
    it writes into the format it is asked to set, [querybuf] its answer to
    a buffer query, [dqbuf] its answer to a dequeue.  It grants as many
    buffers as requested, maps a buffer at 4096 + offset, reports a control
    length of 384 and echoes a command on read-back. *)
Definition camera (fmt : Z -> Z -> Payload) (querybuf : Z -> Response)
    (dqbuf : Response) : Kernel :=
  mkKernel
    (fun _ _ req =>
       match req with
       | VIDIOC_S_FMT w h => mkResponse 0 0 (fmt w h)
       | VIDIOC_REQBUFS n => mkResponse 0 0 (ReqBufsInfo n)
       | VIDIOC_QUERYBUF i => querybuf i
       | VIDIOC_DQBUF => dqbuf
       | UVCIOC_CTRL_QUERY q _ data =>
           if q =? UVC_GET_LEN then mkResponse 0 0 (XuData [128; 1])
           else if q =? UVC_GET_CUR then mkResponse 0 0 (XuData data)
           else success
       | _ => success
       end)
    (fun _ _ _ off => 4096 + off)
    (fun _ => ZED_2_CBS) (fun _ => (0, true)) (fun _ _ => 3) (fun _ => (0, 0)).

(** The object as its constructor leaves it for HD2K at 15 fps. *)
Definition constructed : St :=
  final (checkResFps zed_table (mkParams HD2K 15 false) (boot false)).

(** A camera that answers the format request with a width of 0. *)
Definition zero_width : Kernel :=
  camera (fun w h => FmtInfo 0 h (2 * w))
         (fun i => mkResponse 0 0 (BufInfo i 0 0 0 0 0))
         success.

(** A camera that accepts the format, grants two buffers, answers the query
    of buffer 0 and fails the query of every other buffer with EINVAL. *)
Definition second_buffer_fails : Kernel :=
  camera (fun w h => FmtInfo w h (2 * w))
         (fun i => if i =? 0
                   then mkResponse 0 0 (BufInfo 0 0 10969344 0 0 0)
                   else mkResponse (-1) EINVAL Untouched)
         success.

(** What [openCamera] establishes and the session keeps: the payload has the
    size computed from the negotiated format, and every buffer record holds
    the length the kernel reported for it. *)
Definition session (K : Kernel) (v : VideoCapture) : Prop :=
  frame_data (mLastFrame v) = Some (payload_size v)
  /\ 0 <= payload_size v
  /\ exists bufs,
       mBuffers v = Some bufs
       /\ mBufCount v = Z.of_nat (List.length bufs)
       /\ forall j, 0 <= j < mBufCount v ->
                    length_reported K (mFileDesc v) j (buffer_at bufs j).

(** A copy stays inside its destination. *)
Definition copy_within (e : Event) : Prop :=
  match e with
  | EvMemcpy (Some size) _ n => 0 <= n <= size
  | EvMemcpy None _ _ => False
  | _ => True
  end.

(** A camera whose lines are one byte longer than two bytes per pixel: it
    reports bytesperline = 2 * width + 1, and buffers of bytesperline * 1242
    bytes, which it always delivers full. *)
Definition long_lines : Kernel :=
  camera (fun w h => FmtInfo w h (2 * w + 1))
         (fun i => mkResponse 0 0 (BufInfo i 0 10970586 (i * 10973184) 0 0))
         (mkResponse 0 0 (BufInfo 0 10970586 10970586 0 1 0)).

(** The session [init] sets up on that camera for HD2K. *)
Definition streaming : St := final (init long_lines 0 constructed).

(** The capture thread of that session, about to enter its loop. *)
Definition capturing : St := final (grab_prelude streaming).

(** * The rest of the driver *)

From Stdlib Require String Ascii.

Definition set_mVerbose (b : bool) (v : VideoCapture) : VideoCapture :=
  mkVC b (mInitialized v) (mFileDesc v) (mDevId v) (mCameraModel v) (mWidth v)
       (mHeight v) (mChannels v) (mFps v) (mBufCount v) (mBuffers v)
       (mCurrentIndex v) (mLastFrame v) (mNewFrame v) (mStopCapture v)
       (mGrabRunning v) (mGrabThread v) (mStartTs v) (mInitTs v).

Section Facade.

Variable K : Kernel.
Variable cameraResolution : RESOLUTION -> Z * Z.

(** *** Constructor and destructor (lines 41-61) *)

Definition VideoCapture_new (params : Params) : M unit :=
  upd_vc (set_mVerbose (verbose params)) ;;;
  checkResFps cameraResolution params.

Definition VideoCapture_delete : M unit := reset K.

(** *** Image settings (lines 1007-1114) *)

Definition setBrightnessSetting (value : Z) : M unit :=
  setCameraControlSettings K LINUX_CTRL_BRIGHTNESS value.
Definition resetBrightnessSetting : M unit :=
  resetCameraControlSettings K LINUX_CTRL_BRIGHTNESS.
Definition getBrightnessSetting : M Z :=
  getCameraControlSettings K LINUX_CTRL_BRIGHTNESS.

Definition setSharpnessSetting (value : Z) : M unit :=
  setCameraControlSettings K LINUX_CTRL_SHARPNESS value.
Definition resetSharpnessSetting : M unit :=
  resetCameraControlSettings K LINUX_CTRL_SHARPNESS.
Definition getSharpnessSetting : M Z :=
  getCameraControlSettings K LINUX_CTRL_SHARPNESS.

Definition setContrastSetting (value : Z) : M unit :=
  setCameraControlSettings K LINUX_CTRL_CONTRAST value.
Definition resetContrastSetting : M unit :=
  resetCameraControlSettings K LINUX_CTRL_CONTRAST.
Definition getContrastSetting : M Z :=
  getCameraControlSettings K LINUX_CTRL_CONTRAST.

Definition setHueSetting (value : Z) : M unit :=
  setCameraControlSettings K LINUX_CTRL_HUE value.
Definition resetHueSetting : M unit :=
  resetCameraControlSettings K LINUX_CTRL_HUE.
Definition getHueSetting : M Z :=
  getCameraControlSettings K LINUX_CTRL_HUE.

Definition setSaturationSetting (value : Z) : M unit :=
  setCameraControlSettings K LINUX_CTRL_SATURATION value.
Definition resetSaturationSetting : M unit :=
  resetCameraControlSettings K LINUX_CTRL_SATURATION.
Definition getSaturationSetting : M Z :=
  getCameraControlSettings K LINUX_CTRL_SATURATION.

Definition getWhiteBalanceSetting : M Z :=
  getCameraControlSettings K LINUX_CTRL_AWB.


Definition setAutoWhiteBalanceSetting (active : bool) : M unit :=
  setCameraControlSettings K LINUX_CTRL_AWB_AUTO (if active then 1 else 0).

Definition resetAutoWhiteBalanceSetting : M unit :=
  setAutoWhiteBalanceSetting true.


Definition resetWhiteBalanceSetting : M unit :=
  resetAutoWhiteBalanceSetting.

End Facade.

(** *** getCameraModel (lines 537-601)

    The function reads one token from a file under /sys and extracts two
    hexadecimal numbers from it with the stream library.  Both are taken as
    given: [modalias_token path] is the token read from [path], None when
    the extraction fails (no file, empty file); [hex_extract s] is the value
    [istringstream(s) >> std::hex] yields, None when it fails.  The vendor
    and product ids are constants of videocapture.hpp, which is not among
    the sources. *)

Module Modalias.
Import String Ascii.
Open Scope string_scope.

(** [std::string::erase(0, n)]: the first [n] characters, or all of them,
    are removed. *)
Fixpoint erase_front (n : nat) (s : string) : string :=
  match n, s with
  | O, _ => s
  | S n', EmptyString => EmptyString
  | S n', String _ s' => erase_front n' s'
  end.

(** The file [getCameraModel] reads for a device name such as /dev/video0:
    the name without its first five characters, under /sys. *)
Definition sysfs_path (dev_name : string) : string :=
  "/sys/class/video4linux/" ++ erase_front 5 dev_name ++ "/device/modalias".

Section Identity.

Variable modalias_token : string -> option string.
Variable hex_extract : string -> option Z.
Variables SL_USB_VENDOR SL_USB_PROD_ZED SL_USB_PROD_ZED_M SL_USB_PROD_ZED_CBS
  SL_USB_PROD_ZED_M_CBS SL_USB_PROD_ZED_2_CBS : Z.

Definition getCameraModel (dev_name : string) : SL_DEVICE :=
  match modalias_token (sysfs_path dev_name) with
  | None => NONE
  | Some modalias =>
      if (String.length modalias <? 14)%nat
         || negb (substring 0 5 modalias =? "usb:v")
         || negb (match get 9 modalias with
                  | Some c => Ascii.eqb c "p"
                  | None => false
                  end)
      then NONE
      else
        match hex_extract (substring 5 4 modalias) with
        | None => NONE
        | Some vid =>
            match hex_extract (substring 10 4 modalias) with
            | None => NONE
            | Some pid =>
                if (pid =? SL_USB_PROD_ZED)%Z && (vid =? SL_USB_VENDOR)%Z
                then ZED
                else if (pid =? SL_USB_PROD_ZED_M)%Z && (vid =? SL_USB_VENDOR)%Z
                then ZED_M
                else if (pid =? SL_USB_PROD_ZED_CBS)%Z && (vid =? SL_USB_VENDOR)%Z
                then ZED_CBS
                else if (pid =? SL_USB_PROD_ZED_M_CBS)%Z && (vid =? SL_USB_VENDOR)%Z
                then ZED_M_CBS
                else if (pid =? SL_USB_PROD_ZED_2_CBS)%Z && (vid =? SL_USB_VENDOR)%Z
                then ZED_2_CBS
                else NONE
            end
        end
  end.

End Identity.

(** A reader of hexadecimal fields for the examples: every character must
    be a hexadecimal digit. *)
Definition hex_digit (c : ascii) : option Z :=
  let n := Z.of_nat (nat_of_ascii c) in
  if ((48 <=? n) && (n <=? 57))%Z then Some (n - 48)%Z
  else if ((97 <=? n) && (n <=? 102))%Z then Some (n - 87)%Z
  else if ((65 <=? n) && (n <=? 70))%Z then Some (n - 55)%Z
  else None.

Fixpoint hex_digits (acc : Z) (s : string) : option Z :=
  match s with
  | EmptyString => Some acc
  | String c s' =>
      match hex_digit c with
      | Some d => hex_digits (16 * acc + d)%Z s'
      | None => None
      end
  end.

Definition hex_field (s : string) : option Z :=
  match s with
  | EmptyString => None
  | _ => hex_digits 0 s
  end.

End Modalias.

(** ** Notions for the further properties *)

(** The length of the vendor control as the device reports it to a call made
    in [s], converted to the 16 bits of the request size. *)
Definition negotiated_size (K : Kernel) (s : St) : Z :=
  wrap_u16
    (control_length
       match payload (k_ioctl K (trace (world s)) (mFileDesc (vc s))
                        (UVCIOC_CTRL_QUERY UVC_GET_LEN 2 [0; 0])) with
       | XuData d => d
       | _ => [0; 0]
       end).

(** The requests of the vendor protocol on descriptor [fd]. *)
Definition xu_get_len (fd : Z) : Event :=
  EvIoctl fd (UVCIOC_CTRL_QUERY UVC_GET_LEN 2 [0; 0]).
Definition xu_set_cur (fd size : Z) (buf : list Z) : Event :=
  EvIoctl fd (UVCIOC_CTRL_QUERY UVC_SET_CUR size buf).
Definition xu_get_cur (fd size : Z) (buf : list Z) : Event :=
  EvIoctl fd (UVCIOC_CTRL_QUERY UVC_GET_CUR size buf).

(** The calls that give a resource back: close and munmap. *)
Definition is_release (e : Event) : bool :=
  match e with
  | EvClose _ | EvMunmap _ _ => true
  | _ => false
  end.

(** From [w] to [w1] calls were only added, none of them a release, and no
    mapping went away. *)
Definition grows (w w1 : World) : Prop :=
  (exists t, trace w1 = t ++ trace w
             /\ Forall (fun e => is_release e = false) t)
  /\ incl (live w) (live w1).

(** The camera models [openCamera] goes on with. *)
Definition supported (m : SL_DEVICE) : bool :=
  match m with
  | ZED_CBS | ZED_M_CBS | ZED_2_CBS => true
  | _ => false
  end.

(** The munmap calls of [reset] for [n] buffers from index [i], in the order
    they are made. *)
Fixpoint unmap_calls (bufs : list Buffer) (n : nat) (i : Z) : list Event :=
  match n with
  | O => []
  | S n' =>
      EvMunmap (buf_start (buffer_at bufs i)) (buf_length (buffer_at bufs i))
      :: unmap_calls bufs n' (i + 1)
  end.

(** The release calls of a history (latest first), in the order they were
    made. *)
Definition releases (t : list Event) : list Event :=
  rev (filter is_release t).

(** The copies into the frame made in a history. *)
Definition is_memcpy (e : Event) : bool :=
  match e with EvMemcpy _ _ _ => true | _ => false end.

Definition copies (t : list Event) : nat := List.length (filter is_memcpy t).

(** The test of line 639 on the buffer [d] a dequeue returned with [r]. *)
Definition accepted (v : VideoCapture) (r : Z) (d : v4l2_buffer) : bool :=
  (bytesused d =? length d) && (r =? 0) && (index d <? mBufCount v).

(** Time of buffer [d] in nanoseconds since [mInitTs], as line 645 and 647
    compute it in 64 bits. *)
Definition buffer_ts (v : VideoCapture) (d : v4l2_buffer) : Z :=
  wrap_u64 (wrap_u64 (wrap_u64 (tv_sec d * (1000 * 1000) + tv_usec d)
                      - mInitTs v) * 1000).

(** The kernel [K] with [m] answering mmap in its place. *)
Definition with_mmap (K : Kernel) (m : list Event -> Z -> Z -> Z -> Z)
  : Kernel :=
  mkKernel (k_ioctl K) m (k_camera_model K) (k_stat K) (k_open K) (k_clock K).

(** Two states that differ at most in the buffer table and in the mappings
    of the process. *)
Definition same_but_buffers (s s' : St) : Prop :=
  trace (world s) = trace (world s')
  /\ errno (world s) = errno (world s')
  /\ set_mBuffers None (vc s) = set_mBuffers None (vc s').

(** * Properties *)

(** ** Frame rate negotiation *)

Lemma checkResFps_returns table par s :
  value (checkResFps table par s) = Some tt.
Proof.
  unfold checkResFps, mbind, upd_vc, get_vc, when, mret. cbn.
  destruct (res par); cbn;
    repeat match goal with
           | |- context [if ?b then _ else _] => destruct b; cbn
           end; reflexivity.
Qed.

(** C1. Whatever resolution and frame rate are requested, the frame rate held
    after [checkResFps] is one the resolution supports; VGA at 70 gives 60,
    VGA at 85 gives 100, 720p at 50 gives 60 and 1080p at 20 gives 15. *)
Theorem checkResFps_fps_supported :
  (forall table par s, In (fps_after table par s) (supported_fps (res par)))
  /\ (forall table b s, fps_after table (mkParams VGA 70 b) s = 60)
  /\ (forall table b s, fps_after table (mkParams VGA 85 b) s = 100)
  /\ (forall table b s, fps_after table (mkParams HD720 50 b) s = 60)
  /\ (forall table b s, fps_after table (mkParams HD1080 20 b) s = 15).
Proof.
  repeat split; try reflexivity.
  intros table [r f b] s. unfold fps_after, checkResFps, mbind, upd_vc, get_vc,
    when, mret. cbn.
  destruct r; cbn;
    repeat match goal with
           | |- context [if ?c then _ else _] =>
               let E := fresh "E" in destruct c eqn:E; cbn
           end;
    rewrite ?andb_true_iff, ?andb_false_iff, ?negb_true_iff, ?negb_false_iff,
      ?Z.eqb_eq in *;
    intuition lia.
Qed.

(** ** Retry of control requests *)

Lemma repeat_shift {A} (x : A) (n : nat) (l : list A) :
  repeat x n ++ x :: l = repeat x (S n) ++ l.
Proof.
  induction n as [| n IH]; cbn; [ reflexivity | ].
  rewrite IH. reflexivity.
Qed.

Lemma xioctl_loop_runs (K : Kernel) (fd : Z) (req : Request) :
  forall tries s,
  exists n,
    (1 <= n <= S tries)%nat
    /\ xioctl_loop K tries fd req s =
       Done (ret (attempt K s fd req (n - 1)), payload (attempt K s fd req (n - 1)))
            (mkSt (vc s)
                  (mkWorld (repeat (EvIoctl fd req) n ++ trace (world s))
                           (err (attempt K s fd req (n - 1)))
                           (live (world s))))
    /\ (forall i, (i < n - 1)%nat ->
          ret (attempt K s fd req i) <> 0
          /\ transient (err (attempt K s fd req i)) = true)
    /\ ((n < S tries)%nat ->
          ret (attempt K s fd req (n - 1)) = 0
          \/ transient (err (attempt K s fd req (n - 1))) = false).
Proof.
  induction tries as [| t IH]; intros s.
  - exists 1%nat. split; [ lia | ]. split; [ | split; intros; lia ].
    cbn. unfold mbind, ioctl, mret, attempt. cbn.
    destruct (ret _ =? 0); reflexivity.
  - cbn [xioctl_loop]. unfold mbind at 1. unfold ioctl at 1. cbn.
    destruct (ret (k_ioctl K (trace (world s)) fd req) =? 0) eqn:E.
    + exists 1%nat. split; [ lia | ]. split; [ reflexivity | ].
      split; [ intros; lia | ]. intros _. left. apply Z.eqb_eq. exact E.
    + unfold mbind, get_world. cbn.
      destruct (transient (err (k_ioctl K (trace (world s)) fd req))) eqn:T.
      * destruct (IH (mkSt (vc s)
                       (set_errno (err (k_ioctl K (trace (world s)) fd req))
                          (log_event (EvIoctl fd req) (world s)))))
          as (n & Hn & Hrun & Hbefore & Hlast).
        assert (Hat : forall i,
                  attempt K (mkSt (vc s)
                       (set_errno (err (k_ioctl K (trace (world s)) fd req))
                          (log_event (EvIoctl fd req) (world s)))) fd req i
                  = attempt K s fd req (S i)).
        { intros i. unfold attempt. cbn [world trace set_errno log_event].
          rewrite repeat_shift. reflexivity. }
        exists (S n). split; [ lia | ].
        replace (S n - 1)%nat with (S (n - 1)) by lia.
        split; [ | split ].
        -- rewrite Hrun, Hat. cbn [vc world trace live set_errno log_event].
           rewrite repeat_shift. reflexivity.
        -- intros i Hi. destruct i as [| i].
           ++ unfold attempt. cbn. split; [ apply Z.eqb_neq; exact E | exact T ].
           ++ rewrite <- Hat. apply Hbefore. lia.
        -- intros Hlt. rewrite <- Hat. apply Hlast. lia.
      * exists 1%nat. split; [ lia | ]. split; [ reflexivity | ].
        split; [ intros; lia | ]. intros _. right. exact T.
Qed.

(** C6, as the code has it. Every request issued through [xioctl] reaches the
    device at least once and at most four times: the first attempt and up to
    IOCTL_RETRY = 3 repetitions.  An attempt is repeated only after it failed
    with errno EINTR, EAGAIN or ETIMEDOUT; a success or a failure with any
    other errno ends the call at once, and the call returns the result of
    the last attempt. *)
Theorem xioctl_bounded_retry (K : Kernel) (fd : Z) (req : Request) (s : St) :
  exists n,
    (1 <= n <= 4)%nat
    /\ trace (world (final (xioctl K fd req s)))
       = repeat (EvIoctl fd req) n ++ trace (world s)
    /\ value (xioctl K fd req s)
       = Some (ret (attempt K s fd req (n - 1)),
               payload (attempt K s fd req (n - 1)))
    /\ (forall i, (i < n - 1)%nat ->
          ret (attempt K s fd req i) <> 0
          /\ (err (attempt K s fd req i) = EINTR
              \/ err (attempt K s fd req i) = EAGAIN
              \/ err (attempt K s fd req i) = ETIMEDOUT))
    /\ (forall i, (i < n)%nat ->
          ret (attempt K s fd req i) <> 0 ->
          err (attempt K s fd req i) <> EINTR ->
          err (attempt K s fd req i) <> EAGAIN ->
          err (attempt K s fd req i) <> ETIMEDOUT ->
          i = (n - 1)%nat).
Proof.
  destruct (xioctl_loop_runs K fd req IOCTL_RETRY s)
    as (n & Hn & Hrun & Hbefore & _).
  exists n. unfold xioctl. rewrite Hrun. cbn.
  split; [ exact Hn | ]. split; [ reflexivity | ]. split; [ reflexivity | ].
  assert (Htr : forall e, transient e = true ->
                          e = EINTR \/ e = EAGAIN \/ e = ETIMEDOUT).
  { intros e. unfold transient.
    rewrite !orb_true_iff, !Z.eqb_eq. tauto. }
  split.
  - intros i Hi. destruct (Hbefore i Hi) as [Hr Ht]. auto.
  - intros i Hi Hr H1 H2 H3.
    destruct (Nat.eq_dec i (n - 1)) as [| Hne]; [ assumption | exfalso ].
    assert (Hlt : (i < n - 1)%nat) by lia.
    destruct (Hbefore i Hlt) as [_ Ht].
    destruct (Htr _ Ht) as [| [|]]; contradiction.
Qed.

(** C6 as stated fails: a device that answers every call with EINTR is
    called four times, not three. *)
Lemma xioctl_fourth_attempt :
  ~ (ioctl_calls (trace (world (final
        (xioctl (always interrupted) 3 VIDIOC_STREAMOFF (boot false)))))
     <= 3)%nat.
Proof. cbn. lia. Qed.

(** ** The vendor command channel *)

Arguments wrap_u8 : simpl never.
Arguments wrap_u16 : simpl never.
Arguments wrap_u32 : simpl never.
Arguments wrap_s32 : simpl never.
Arguments wrap_u64 : simpl never.

(** C7. A call of [linux_cbs_VendorControl] with a length above 384, or on a
    device that is not initialized, returns an error (-2 or -3) and has made
    no system call: the world and the object are as they were. *)
Theorem VendorControl_rejects_before_io
    (K : Kernel) (buf : list Z) (len readMode : Z) (safe : bool) (s : St) :
  len > 384 \/ mInitialized (vc s) = false ->
  exists code,
    (code = -2 \/ code = -3)
    /\ linux_cbs_VendorControl K buf len readMode safe s = Done (code, buf) s.
Proof.
  intros H. unfold linux_cbs_VendorControl.
  destruct (len >? 384) eqn:L.
  - exists (-2). split; [ left | ]; reflexivity.
  - destruct H as [H | H]; [ rewrite Z.gtb_ltb in L; apply Z.ltb_ge in L; lia | ].
    exists (-3). split; [ right; reflexivity | ].
    unfold mbind, get_vc, mret. rewrite H. reflexivity.
Qed.

Lemma VendorControl_rejects_before_io_witness :
  ((385 > 384 \/ mInitialized (vc ready) = false)
   /\ exists code,
        (code = -2 \/ code = -3)
        /\ linux_cbs_VendorControl readback_fails (repeat 0 385%nat) 385 1
             false ready
           = Done (code, repeat 0 385%nat) ready)
  /\ ((64 > 384 \/ mInitialized (vc (boot false)) = false)
      /\ exists code,
           (code = -2 \/ code = -3)
           /\ linux_cbs_VendorControl readback_fails
                (xu_buf 64 XU_TASK_SET 0x12 2 1) 64 0 false (boot false)
              = Done (code, xu_buf 64 XU_TASK_SET 0x12 2 1) (boot false)).
Proof.
  split.
  - split; [ left; lia | ].
    apply (VendorControl_rejects_before_io readback_fails (repeat 0 385%nat)
             385 1 false ready).
    left; lia.
  - split; [ right; reflexivity | ].
    apply (VendorControl_rejects_before_io readback_fails
             (xu_buf 64 XU_TASK_SET 0x12 2 1) 64 0 false (boot false)).
    right; reflexivity.
Defined.

(** ** The LED *)

Arguments control_length : simpl never.
Arguments is_gpio_value_write : simpl never.

Lemma filter_cons_false {A} (f : A -> bool) (x : A) (l : list A) :
  f x = false -> filter f (x :: l) = filter f l.
Proof. intros H. cbn. rewrite H. reflexivity. Qed.

Ltac step_if :=
  match goal with
  | |- context [if ?b then _ else _] =>
      let E := fresh "E" in destruct b eqn:E; cbn
  end.

(** A vendor call leaves the object alone, always returns, and adds a value
    write to the history only if its own command is one. *)
Lemma VendorControl_value_writes
    (K : Kernel) (buf : list Z) (len readMode : Z) (safe : bool) (s : St) :
  (forall fd sz,
      is_gpio_value_write (EvIoctl fd (UVCIOC_CTRL_QUERY UVC_SET_CUR sz buf))
      = false) ->
  exists r s1,
    linux_cbs_VendorControl K buf len readMode safe s = Done r s1
    /\ vc s1 = vc s
    /\ gpio_value_writes (trace (world s1)) = gpio_value_writes (trace (world s)).
Proof.
  intros Hbuf. unfold linux_cbs_VendorControl, gpio_value_writes.
  unfold mbind, get_vc, ioctl, usleep, upd_world, mret. cbn.
  repeat step_if; eexists; eexists;
    (split; [ reflexivity | split; [ reflexivity | ] ]);
    cbn [world trace set_errno log_event];
    repeat (rewrite filter_cons_false;
            [ | solve [ apply Hbuf | reflexivity
                      | destruct buf as [| ? [| ? ?]]; reflexivity ] ]);
    reflexivity.
Qed.

Lemma getLEDValue_value_writes (K : Kernel) (s : St) :
  exists r s1,
    getLEDValue K true s = Done r s1
    /\ vc s1 = vc s
    /\ gpio_value_writes (trace (world s1)) = gpio_value_writes (trace (world s)).
Proof.
  unfold getLEDValue, linux_cbs_set_gpio_direction, linux_cbs_get_gpio_value.
  cbn [negb].
  destruct (VendorControl_value_writes K (xu_buf 64 XU_TASK_SET 16 2 1) 64 0
              false s) as (r1 & s1 & H1 & V1 & W1); [ reflexivity | ].
  destruct (VendorControl_value_writes K (xu_buf 384 XU_TASK_GET 19 2 0) 384 1
              false s1) as (r2 & s2 & H2 & V2 & W2); [ reflexivity | ].
  unfold mbind, mret. rewrite H1. rewrite H2.
  eexists; eexists. split; [ reflexivity | ].
  split; congruence.
Qed.

(** C5, as the code has it. When the read that opens [toggleLED] fails,
    [toggleLED] returns the status of that read, stores nothing through its
    argument, and does nothing beyond the read itself: it ends in the state
    [getLEDValue] left, and no command writing a GPIO value has been sent.
    (The read itself sends the command that turns line 2 into an input.) *)
Theorem toggleLED_failed_read
    (K : Kernel) (value_ok : bool) (s s1 : St) (r : Z * option bool) :
  getLEDValue K true s = Done r s1 ->
  fst r <> 0 ->
  toggleLED K value_ok s = Done (fst r, None) s1
  /\ vc s1 = vc s
  /\ gpio_value_writes (trace (world s1)) = gpio_value_writes (trace (world s)).
Proof.
  intros Hget Hfail.
  destruct (getLEDValue_value_writes K s) as (r' & s' & Hget' & Hvc & Hw).
  rewrite Hget in Hget'. injection Hget' as -> ->.
  split; [ | split; assumption ].
  unfold toggleLED, mbind. rewrite Hget.
  apply Z.eqb_neq in Hfail. rewrite Hfail. reflexivity.
Qed.

Lemma toggleLED_failed_read_witness :
  exists s1,
    getLEDValue readback_fails true ready = Done (-1, Some false) s1
    /\ toggleLED readback_fails true ready = Done (-1, None) s1
    /\ gpio_value_writes (trace (world s1)) = [].
Proof.
  eexists. split; [ vm_compute; reflexivity | ].
  refine ((fun H => conj (proj1 H) (proj2 (proj2 H)))
            (toggleLED_failed_read readback_fails true ready _
               (-1, Some false) _ _)).
  - vm_compute; reflexivity.
  - cbn. lia.
Defined.

(** C5 as stated fails: the read fails at its read-back, [toggleLED] returns
    the failure, and yet the device has taken a set command, the one that
    turns the LED line into an input. *)
Lemma toggleLED_sets_direction_before_failure :
  value (getLEDValue readback_fails true ready) = Some (-1, Some false)
  /\ value (toggleLED readback_fails true ready) = Some (-1, None)
  /\ gpio_set_commands (trace (world ready)) = []
  /\ gpio_set_commands
       (trace (world (final (toggleLED readback_fails true ready))))
     = [EvIoctl 3 (UVCIOC_CTRL_QUERY UVC_SET_CUR 384
                     (xu_buf 64 XU_TASK_SET 0x10 2 1))].
Proof. vm_compute. repeat split. Qed.

(** ** Standard controls *)

(** C3, as the code has it. A request whose value lies outside the range it
    is checked against is not written: the call returns, and all it has done
    is the range query.  That range is the queried one, the fixed [1,9] for
    gamma, and, when the range query fails, the fixed [0,6500] for every
    control, gamma included. *)
Theorem setCameraControlSettings_out_of_range
    (K : Kernel) (ctrl_id ctrl_val : Z) (s : St) :
  ctrl_val < fst (effective_range ctrl_id (range_answer K s ctrl_id))
  \/ snd (effective_range ctrl_id (range_answer K s ctrl_id)) < ctrl_val ->
  setCameraControlSettings K ctrl_id ctrl_val s
  = Done tt (after_query K s ctrl_id)
  /\ control_writes (trace (world (after_query K s ctrl_id)))
     = control_writes (trace (world s)).
Proof.
  intros H. split; [ | reflexivity ].
  unfold setCameraControlSettings, mbind, get_vc, ioctl, mret.
  cbn [fst snd vc world].
  unfold effective_range, range_answer in H.
  fold (range_answer K s ctrl_id) in *.
  destruct (queryctrl_fields (payload (range_answer K s ctrl_id)))
    as [[[qmin qmax] qstep] qdef].
  rewrite (Z.eqb_sym 0). cbn [fst snd] in H.
  destruct (ret (range_answer K s ctrl_id) =? 0);
    [ destruct (ctrl_id =? LINUX_CTRL_GAMMA) | ];
    cbn [fst snd] in *; unfold DEFAULT_MIN_GAMMA, DEFAULT_MAX_GAMMA;
    match goal with
    | |- context [(ctrl_val >=? ?a) && (ctrl_val <=? ?b)] =>
        replace ((ctrl_val >=? a) && (ctrl_val <=? b)) with false
          by (symmetry; apply andb_false_iff;
              rewrite Z.geb_leb, !Z.leb_gt; lia)
    end; reflexivity.
Qed.

Lemma setCameraControlSettings_out_of_range_witness :
  (10 < fst (effective_range LINUX_CTRL_GAMMA
               (range_answer wide_range ready LINUX_CTRL_GAMMA))
   \/ snd (effective_range LINUX_CTRL_GAMMA
             (range_answer wide_range ready LINUX_CTRL_GAMMA)) < 10)
  /\ setCameraControlSettings wide_range LINUX_CTRL_GAMMA 10 ready
     = Done tt (after_query wide_range ready LINUX_CTRL_GAMMA).
Proof.
  split; [ right; vm_compute; reflexivity | ].
  apply (setCameraControlSettings_out_of_range wide_range LINUX_CTRL_GAMMA 10
           ready).
  right; vm_compute; reflexivity.
Defined.

(** A value inside the range is written, whatever the device then answers. *)
Lemma setCameraControlSettings_in_range
    (K : Kernel) (ctrl_id ctrl_val : Z) (s : St) :
  fst (effective_range ctrl_id (range_answer K s ctrl_id)) <= ctrl_val
    <= snd (effective_range ctrl_id (range_answer K s ctrl_id)) ->
  control_writes
    (trace (world (final (setCameraControlSettings K ctrl_id ctrl_val s))))
  = (wrap_u32 ctrl_id, ctrl_val) :: control_writes (trace (world s)).
Proof.
  intros H.
  unfold setCameraControlSettings, mbind, get_vc, ioctl, mret.
  cbn [fst snd vc world].
  unfold effective_range, range_answer in H.
  fold (range_answer K s ctrl_id) in *.
  destruct (queryctrl_fields (payload (range_answer K s ctrl_id)))
    as [[[qmin qmax] qstep] qdef].
  rewrite (Z.eqb_sym 0). cbn [fst snd] in H.
  destruct (ret (range_answer K s ctrl_id) =? 0);
    [ destruct (ctrl_id =? LINUX_CTRL_GAMMA) | ];
    cbn [fst snd] in *; unfold DEFAULT_MIN_GAMMA, DEFAULT_MAX_GAMMA;
    match goal with
    | |- context [(ctrl_val >=? ?a) && (ctrl_val <=? ?b)] =>
        replace ((ctrl_val >=? a) && (ctrl_val <=? b)) with true
          by (symmetry; apply andb_true_iff;
              rewrite Z.geb_leb, !Z.leb_le; lia)
    end; reflexivity.
Qed.

(** C3 as stated fails: when the range query fails, a gamma value of 10,
    outside [1,9], is written to the device. *)
Lemma setCameraControlSettings_gamma_written_outside_1_9 :
  ~ (1 <= 10 <= 9)
  /\ ret (range_answer no_range ready LINUX_CTRL_GAMMA) = -1
  /\ control_writes (trace (world ready)) = []
  /\ control_writes
       (trace (world (final
          (setCameraControlSettings no_range LINUX_CTRL_GAMMA 10 ready))))
     = [(LINUX_CTRL_GAMMA, 10)].
Proof. split; [ lia | vm_compute; repeat split ]. Qed.

(** C4, as the code has it. For every control, gamma included,
    [resetCameraControlSettings] queries the control and then writes the
    default value found in the answer as it is; no range is applied. *)
Theorem resetCameraControlSettings_writes_default
    (K : Kernel) (ctrl_id : Z) (s : St) :
  exists s1,
    resetCameraControlSettings K ctrl_id s = Done tt s1
    /\ vc s1 = vc s
    /\ trace (world s1)
       = EvIoctl (mFileDesc (vc s))
           (VIDIOC_S_CTRL (wrap_u32 ctrl_id)
              (snd (queryctrl_fields (payload (range_answer K s ctrl_id)))))
         :: EvIoctl (mFileDesc (vc s)) (VIDIOC_QUERYCTRL (wrap_u32 ctrl_id))
         :: trace (world s).
Proof.
  unfold resetCameraControlSettings, mbind, get_vc, ioctl, mret.
  cbn [fst snd vc world]. fold (range_answer K s ctrl_id).
  destruct (queryctrl_fields (payload (range_answer K s ctrl_id)))
    as [[[qmin qmax] qstep] qdef].
  eexists. split; [ reflexivity | ]. split; reflexivity.
Qed.

(** C4 as stated fails: the camera reports 100 as the default of gamma, and
    the reset writes 100, a value outside [1,9]. *)
Lemma resetCameraControlSettings_gamma_not_clamped :
  ~ (1 <= 100 <= 9)
  /\ control_writes (trace (world ready)) = []
  /\ control_writes
       (trace (world (final
          (resetCameraControlSettings wide_range LINUX_CTRL_GAMMA ready))))
     = [(LINUX_CTRL_GAMMA, 100)].
Proof. split; [ lia | vm_compute; repeat split ]. Qed.

(** ** Waiting for a frame *)

Lemma turns_left_pos (tc : Z) : (1 <= turns_left tc)%nat.
Proof.
  unfold turns_left, wrap_u64.
  pose proof (Z.mod_pos_bound tc (2 ^ 64) ltac:(lia)).
  destruct (Z.eqb_spec (tc mod 2 ^ 64) 0); lia.
Qed.

Lemma turns_left_last (tc : Z) :
  wrap_u64 (tc - 1) = 0 -> turns_left tc = 1%nat.
Proof.
  unfold turns_left, wrap_u64. intros H.
  assert (E : tc mod 2 ^ 64 = 1)
    by (Z.to_euclidean_division_equations; lia).
  rewrite E. reflexivity.
Qed.

Lemma turns_left_next (tc : Z) :
  wrap_u64 (tc - 1) <> 0 ->
  turns_left tc = S (turns_left (wrap_u64 (tc - 1))).
Proof.
  unfold turns_left, wrap_u64. intros H.
  rewrite Z.mod_mod by lia.
  destruct (Z.eqb_spec ((tc - 1) mod 2 ^ 64) 0); [ contradiction | ].
  rewrite <- Z2Nat.inj_succ
    by (pose proof (Z.mod_pos_bound (tc - 1) (2 ^ 64) ltac:(lia)); lia).
  f_equal.
  destruct (Z.eqb_spec (tc mod 2 ^ 64) 0);
    Z.to_euclidean_division_equations; lia.
Qed.

(** With no frame in sight the wait ends by the counter alone, after
    [turns_left] evaluations of the condition. *)
Lemma wait_new_frame_never (seen : nat -> bool) (k : nat) (tc : Z) :
  (forall j, seen j = false) ->
  wait_new_frame seen k tc = (false, (k + turns_left tc - 1)%nat).
Proof.
  intros Hnever. funelim (wait_new_frame seen k tc).
  - rewrite Hnever in Heq. discriminate.
  - rewrite (turns_left_last _ e). f_equal. lia.
  - rewrite H by assumption.
    rewrite (turns_left_next time_count n). f_equal.
    pose proof (turns_left_pos (wrap_u64 (time_count - 1))). lia.
Qed.

(** For a timeout whose tenfold is positive and fits 64 bits, the wait ends
    with no frame after [10 * timeout_msec - 1] sleeps of 100 microseconds,
    and the object is untouched. *)
Lemma getLastFrame_times_out
    (delivered : nat -> bool) (timeout_msec : Z) (v : VideoCapture) :
  mNewFrame v = false ->
  (forall k, delivered k = false) ->
  0 < timeout_msec * 10 < 2 ^ 64 ->
  exists sleeps,
    getLastFrame delivered timeout_msec v = (null_frame, sleeps, v)
    /\ Z.of_nat sleeps = timeout_msec * 10 - 1.
Proof.
  intros Hflag Hnever Hrange. unfold getLastFrame.
  rewrite wait_new_frame_never
    by (intros j; rewrite Hflag, Hnever; reflexivity).
  cbn [fst snd]. eexists. split; [ reflexivity | ].
  unfold turns_left, wrap_u64. rewrite Z.mod_mod by lia.
  rewrite (Z.mod_small (timeout_msec * 10)) by lia.
  destruct (Z.eqb_spec (timeout_msec * 10) 0); lia.
Qed.

(** C9 at a timeout of 0. [time_count] starts at 0, the first [--time_count]
    wraps to 2^64 - 1, and the call gives its no-frame answer only after
    2^64 - 1 sleeps of 100 microseconds. *)
Theorem getLastFrame_zero_timeout :
  exists sleeps,
    getLastFrame (fun _ => false) 0 (fresh_vc false)
    = (null_frame, sleeps, fresh_vc false)
    /\ Z.of_nat sleeps = 2 ^ 64 - 1.
Proof.
  unfold getLastFrame.
  rewrite wait_new_frame_never by (intros j; reflexivity).
  cbn [fst snd]. eexists. split; [ reflexivity | ].
  unfold turns_left.
  change (wrap_u64 (wrap_u64 (0 * 10))) with 0.
  change (0 =? 0) with true. cbv iota. lia.
Qed.

(** ** Opening the camera *)

Lemma xioctl_done (K : Kernel) (fd : Z) (req : Request) (s : St) :
  exists r s1,
    xioctl K fd req s = Done r s1
    /\ vc s1 = vc s
    /\ live (world s1) = live (world s)
    /\ exists t, r = (ret (k_ioctl K t fd req), payload (k_ioctl K t fd req)).
Proof.
  destruct (xioctl_loop_runs K fd req IOCTL_RETRY s) as (n & _ & Hrun & _).
  unfold xioctl. rewrite Hrun. eexists; eexists.
  split; [ reflexivity | ]. cbn. repeat split.
  unfold attempt. eexists. reflexivity.
Qed.

Ltac run_prims :=
  cbv beta iota delta [mbind upd_vc upd_world get_vc get_world mret when trap
                       sys_open input_set_framerate mmap munmap close usleep].

Ltac simp_st :=
  cbn [vc world trace errno live fst snd
       mVerbose mInitialized mFileDesc mDevId mCameraModel mWidth mHeight
       mChannels mFps mBufCount mBuffers mCurrentIndex mLastFrame mNewFrame
       mStopCapture mGrabRunning mGrabThread mStartTs mInitTs
       frame_id timestamp frame_width frame_height frame_channels frame_data
       set_mInitialized set_mFileDesc set_device set_format set_mode
       set_mBufCount set_mBuffers set_mCurrentIndex set_mLastFrame
       set_mNewFrame set_mStopCapture set_mGrabRunning set_mGrabThread
       set_clocks set_frame_data set_frame_timestamp set_frame_id set_mFps
       set_buffer log_event set_errno set_live option_map] in *.

Ltac run_xioctl :=
  match goal with
  | |- context [xioctl ?K ?fd ?req ?s] =>
      let r := fresh "r" in
      let s1 := fresh "s" in
      let Hrun := fresh "Hrun" in
      let Hvc := fresh "Hvc" in
      let Hlive := fresh "Hlive" in
      let Htr := fresh "Htr" in
      destruct (xioctl_done K fd req s) as (r & s1 & Hrun & Hvc & Hlive & Htr);
      rewrite Hrun; clear Hrun; simp_st
  end.

Lemma store_at_length {A} (b : A) (l : list A) :
  forall i, List.length (store_at i b l) = List.length l.
Proof.
  induction l as [| h t IH]; intros [| i]; cbn; try reflexivity.
  rewrite IH. reflexivity.
Qed.

Lemma store_at_same {A} (b d : A) (l : list A) :
  forall i, (i < List.length l)%nat -> nth i (store_at i b l) d = b.
Proof.
  induction l as [| h t IH]; intros [| i] H; cbn in *; try lia.
  - reflexivity.
  - apply IH. lia.
Qed.

Lemma store_at_other {A} (b d : A) (l : list A) :
  forall i j, i <> j -> nth j (store_at i b l) d = nth j l d.
Proof.
  induction l as [| h t IH]; intros [| i] [| j] H; cbn; try reflexivity.
  - contradiction.
  - apply IH. congruence.
Qed.

Lemma map_buffers_format (K : Kernel) :
  forall n i s bufs,
  mBuffers (vc s) = Some bufs ->
  0 <= i ->
  exists ok s1 bufs1,
    map_buffers K n i s = Done ok s1
    /\ same_format (vc s1) (vc s)
    /\ mBuffers (vc s1) = Some bufs1
    /\ List.length bufs1 = List.length bufs
    /\ (forall j, 0 <= j < i -> buffer_at bufs1 j = buffer_at bufs j)
    /\ (ok = true ->
        mBufCount (vc s1) = i + Z.of_nat n
        /\ forall j, i <= j < i + Z.of_nat n ->
                     (Z.to_nat j < List.length bufs)%nat ->
                     length_reported K (mFileDesc (vc s)) j (buffer_at bufs1 j)).
Proof.
  induction n as [| n IH]; intros i s bufs Hbufs Hi.
  - cbn. run_prims. exists true. eexists. exists bufs.
    split; [ reflexivity | ]. simp_st.
    split; [ repeat split | ]. split; [ exact Hbufs | ].
    split; [ reflexivity | ]. split; [ reflexivity | ].
    intros _. split; [ lia | ]. intros j Hj. lia.
  - cbn [map_buffers]. run_prims. simp_st. run_xioctl.
    destruct (-1 =? fst r).
    + exists false. eexists. exists bufs. split; [ reflexivity | ].
      rewrite Hvc. simp_st.
      split; [ repeat split | ]. split; [ exact Hbufs | ].
      split; [ reflexivity | ]. split; [ reflexivity | ]. discriminate.
    + destruct (querybuf_fields (snd r)) as [len off] eqn:Eq. simp_st.
      match goal with
      | |- context [map_buffers K n (i + 1) ?st] =>
          destruct (IH (i + 1) st
                      (store_at (Z.to_nat i)
                         (mkBuffer (k_mmap K (trace (world s0))
                                      (mFileDesc (vc s)) len off) len) bufs))
            as (ok & s1 & bufs1 & Hrun & Hsf & Hb1 & Hlen & Hold & Hnew)
      end.
      { simp_st. rewrite Hvc. simp_st. rewrite Hbufs. reflexivity. }
      { lia. }
      rewrite Hrun. exists ok, s1, bufs1. split; [ reflexivity | ].
      unfold same_format in *. simp_st. rewrite Hvc in *. simp_st.
      split; [ exact Hsf | ]. split; [ exact Hb1 | ].
      split; [ rewrite Hlen; apply store_at_length | ].
      split.
      * intros j Hj. rewrite Hold by lia. unfold buffer_at.
        apply store_at_other. lia.
      * intros Hok. destruct (Hnew Hok) as [Hcount Hrep].
        split; [ lia | ]. intros j Hj Hin.
        destruct (Z.eq_dec j i) as [-> | Hne].
        -- rewrite Hold by lia. unfold buffer_at.
           rewrite store_at_same by exact Hin.
           destruct Htr as (t & ->). exists t. cbn [buf_length].
           cbn [snd] in Eq. rewrite Eq. reflexivity.
        -- apply Hrep; [ lia | ]. rewrite store_at_length. exact Hin.
Qed.

Ltac head_step :=
  simp_st; cbv beta iota;
  lazymatch goal with
  | |- (if ?c then _ else _) _ = _ -> _ =>
      let E := fresh "E" in destruct c eqn:E
  | |- (if ?c then _ else _) = _ -> _ =>
      let E := fresh "E" in destruct c eqn:E
  | |- (match ?p with (_, _) => _ end) _ = _ -> _ =>
      let E := fresh "E" in destruct p eqn:E
  | |- (match ?p with (_, _) => _ end) = _ -> _ =>
      let E := fresh "E" in destruct p eqn:E
  | |- match xioctl _ _ _ _ with Done _ _ => _ | Trap _ => _ end = _ -> _ =>
      run_xioctl
  | |- Done false _ = Done true _ -> _ => discriminate
  | |- Trap _ = Done _ _ -> _ => discriminate
  | |- context [xioctl _ _ _ _] => run_xioctl
  end.

Lemma wrap_u32_nonneg (z : Z) : 0 <= wrap_u32 z.
Proof. unfold wrap_u32. apply Z.mod_pos_bound. lia. Qed.

Lemma granted_count_nonneg (c : Z) (p : Payload) :
  0 <= granted_count (wrap_u32 c) p.
Proof. destruct p; cbn; apply wrap_u32_nonneg. Qed.

(** What holds once [openCamera] has returned true. *)
Lemma openCamera_opened (K : Kernel) (devId : Z) (s s1 : St) :
  openCamera K devId s = Done true s1 ->
  mWidth (vc s1) = mWidth (vc s)
  /\ mHeight (vc s1) = mHeight (vc s)
  /\ (exists t fw fh pw ph bpl,
        format_fields fw fh
          (payload (k_ioctl K t (mFileDesc (vc s1)) (VIDIOC_S_FMT fw fh)))
        = (pw, ph, bpl)
        /\ mWidth (vc s1) = wrap_s32 pw
        /\ mHeight (vc s1) = wrap_s32 ph
        /\ wrap_u32 (mWidth (vc s1)) <> 0
        /\ mChannels (vc s1) = wrap_s32 (bpl / wrap_u32 (mWidth (vc s1))))
  /\ mLastFrame (vc s1)
     = mkFrame (frame_id (mLastFrame (vc s))) (timestamp (mLastFrame (vc s)))
               (mWidth (vc s1)) (mHeight (vc s1)) (mChannels (vc s1))
               (Some (payload_size (vc s1)))
  /\ 0 <= payload_size (vc s1)
  /\ exists bufs,
       mBuffers (vc s1) = Some bufs
       /\ mBufCount (vc s1) = Z.of_nat (List.length bufs)
       /\ forall j, 0 <= j < mBufCount (vc s1) ->
                    length_reported K (mFileDesc (vc s1)) j (buffer_at bufs j).
Proof.
  unfold openCamera. run_prims. simp_st.
  destruct (k_camera_model K devId); try discriminate.
  all: repeat head_step.
  all: match goal with
       | |- context [map_buffers ?K ?n ?i ?st] =>
           destruct (map_buffers_format K n i st _ eq_refl ltac:(lia))
             as (ok & s' & bufs1 & Hrun & Hsf & Hb & Hlen & _ & Hnew);
           rewrite Hrun; clear Hrun
       end.
  all: destruct ok; cbn [negb]; cbv beta iota; [ | discriminate ].
  all: intros Hdone; injection Hdone as <-.
  all: destruct (Hnew eq_refl) as [Hcount Hrep]; clear Hnew.
  all: unfold same_format in Hsf; simp_st.
  all: rewrite Hvc3, Hvc2, Hvc1, Hvc0, Hvc in Hsf, Hrep; simp_st.
  all: destruct Hsf as (Hw & Hh & Hc & Hf & Hfd & _).
  all: apply orb_false_iff in E8; destruct E8 as [Ew Eh].
  all: apply negb_false_iff, Z.eqb_eq in Ew, Eh.
  all: unfold payload_size; simp_st; rewrite Hw, Hh, Hc, Hf, Hfd.
  all: rewrite repeat_length in Hlen.
  all: pose proof (granted_count_nonneg (mBufCount (vc s)) (snd r3)) as Hg.
  all: split; [ exact Ew | ]; split; [ exact Eh | ].
  all: split;
    [ destruct Htr1 as (t & ->); exists t, z, z0, z2, z3, z1;
      cbn [snd] in E5; rewrite E5; apply Z.eqb_neq in E7; auto | ].
  all: split; [ reflexivity | ].
  all: split; [ apply Z.ltb_ge in E9; exact E9 | ].
  all: exists bufs1; split; [ exact Hb | ].
  all: split; [ rewrite Hlen; lia | ].
  all: intros j Hj; apply Hrep; [ lia | rewrite repeat_length; lia ].
Qed.

(** [openCamera] never returns true with a resolution other than the one
    requested. *)
Lemma openCamera_keeps_resolution (K : Kernel) (devId : Z) (s s1 : St) :
  openCamera K devId s = Done true s1 ->
  mWidth (vc s1) = mWidth (vc s) /\ mHeight (vc s1) = mHeight (vc s).
Proof.
  intros H. destruct (openCamera_opened K devId s s1 H) as (Hw & Hh & _).
  split; assumption.
Qed.

(** C8 on a camera that reports a width of 0 for a request of 4416 x 1242.
    The reported width is stored in [mWidth] and line 358 divides by it
    before line 361 compares it: the call does not return. *)
Theorem openCamera_zero_width_traps :
  mWidth (vc constructed) = 4416
  /\ mHeight (vc constructed) = 1242
  /\ value (openCamera zero_width 0 constructed) = None
  /\ mWidth (vc (final (openCamera zero_width 0 constructed))) = 0
  /\ hd_error (trace (world (final (openCamera zero_width 0 constructed))))
     = Some (EvIoctl 3 (VIDIOC_S_FMT 4416 1242)).
Proof. vm_compute. repeat split. Qed.


(** ** Teardown *)

Lemma VendorControl_frame
    (K : Kernel) (buf : list Z) (len readMode : Z) (safe : bool) (s : St) :
  exists r s1,
    linux_cbs_VendorControl K buf len readMode safe s = Done r s1
    /\ vc s1 = vc s
    /\ live (world s1) = live (world s).
Proof.
  unfold linux_cbs_VendorControl.
  unfold mbind, get_vc, ioctl, usleep, upd_world, mret. cbn.
  repeat step_if; eexists; eexists;
    (split; [ reflexivity | split; reflexivity ]).
Qed.

Lemma setLEDValue_frame (K : Kernel) (display : bool) (s : St) :
  exists r s1,
    setLEDValue K display s = Done r s1
    /\ vc s1 = vc s
    /\ live (world s1) = live (world s).
Proof.
  unfold setLEDValue, linux_cbs_set_gpio_direction, linux_cbs_set_gpio_value.
  destruct display; unfold mbind, mret; cbv beta.
  all: match goal with
       | |- context [linux_cbs_VendorControl ?K' ?b ?l ?m ?f ?st] =>
           destruct (VendorControl_frame K' b l m f st)
             as (r1 & s1 & H1 & V1 & L1)
       end.
  all: rewrite H1; cbv beta iota.
  all: match goal with
       | |- context [linux_cbs_VendorControl ?K' ?b ?l ?m ?f ?st] =>
           destruct (VendorControl_frame K' b l m f st)
             as (r2 & s2 & H2 & V2 & L2)
       end.
  all: rewrite H2; cbv beta iota.
  all: eexists; eexists; split; [ reflexivity | split; congruence ].
Qed.

(** The unmapping loop removes the mappings that start where the buffers it
    visits start, and adds none. *)
Lemma munmap_all_unmaps (bufs : list Buffer) :
  forall n i s,
  exists s1,
    munmap_all bufs n i s = Done tt s1
    /\ vc s1 = vc s
    /\ incl (live (world s1)) (live (world s))
    /\ forall j l, i <= j < i + Z.of_nat n ->
                   ~ In (buf_start (buffer_at bufs j), l) (live (world s1)).
Proof.
  induction n as [| n IH]; intros i s.
  - exists s. cbn. split; [ reflexivity | ]. split; [ reflexivity | ].
    split; [ apply incl_refl | ]. intros j l Hj. lia.
  - cbn [munmap_all]. run_prims. simp_st.
    match goal with
    | |- context [munmap_all bufs n (i + 1) ?st] =>
        destruct (IH (i + 1) st) as (s1 & Hrun & Hvc & Hincl & Hgone)
    end.
    exists s1. split; [ exact Hrun | ]. simp_st.
    split; [ exact Hvc | ]. split.
    + intros m Hm. apply Hincl in Hm. apply filter_In in Hm. tauto.
    + intros j l Hj Hin.
      destruct (Z.eq_dec j i) as [-> | Hne].
      * apply Hincl in Hin. apply filter_In in Hin.
        destruct Hin as [_ Hin]. cbn [fst] in Hin.
        rewrite Z.eqb_refl in Hin. discriminate.
      * apply (Hgone j l); [ lia | exact Hin ].
Qed.

(** [reset] always returns.  It leaves the object not initialized, adds no
    mapping, removes none when the object was not initialized, and removes
    those of all [mBufCount] buffers when it was. *)
Lemma reset_runs (K : Kernel) (s : St) :
  exists s1,
    reset K s = Done tt s1
    /\ mInitialized (vc s1) = false
    /\ frame_data (mLastFrame (vc s1)) = None
    /\ incl (live (world s1)) (live (world s))
    /\ (mInitialized (vc s) = false ->
        live (world s1) = live (world s)
        /\ mBuffers (vc s1) = mBuffers (vc s))
    /\ (forall bufs,
          mInitialized (vc s) = true ->
          mBuffers (vc s) = Some bufs ->
          mBuffers (vc s1) = None
          /\ forall j l, 0 <= j < mBufCount (vc s) ->
               ~ In (buf_start (buffer_at bufs j), l) (live (world s1))).
Proof.
  unfold reset.
  destruct (setLEDValue_frame K false s) as (r0 & s0 & H0 & V0 & L0).
  unfold mbind at 1. rewrite H0. run_prims. simp_st. rewrite V0. simp_st.
  destruct (mGrabThread (vc s)); cbv beta iota; simp_st.
  all: destruct (negb (mFileDesc (vc s) =? -1)); cbv beta iota;
    [ run_xioctl | ].
  all: destruct (mInitialized (vc s)) eqn:EI;
    [ destruct (mBuffers (vc s)) as [bufs |] eqn:EB | ]; cbv beta iota.
  all: try match goal with
       | |- context [munmap_all ?b ?n ?i ?st] =>
           destruct (munmap_all_unmaps b n i st) as (s' & Hm & Vm & Im & Gm);
           rewrite Hm; cbv beta iota
       end.
  all: destruct (negb (mFileDesc (vc s) =? 0)); cbv beta iota.
  all: eexists; (split; [ reflexivity | ]); simp_st.
  all: split; [ reflexivity | ]; split; [ reflexivity | ].
  all: split;
    [ intros x Hx; try (apply Im in Hx); congruence | ].
  all: split;
    [ intros Hf; try discriminate;
      try (match goal with H : vc _ = _ |- _ => rewrite H end); simp_st;
      split; congruence | ].
  all: intros bufs' Ht Hb'; try discriminate.
  all: injection Hb' as <-.
  all: split; [ reflexivity | ]; intros j l Hj; apply Gm; lia.
Qed.

(** A second [reset] in a row returns as well and touches no mapping. *)
Lemma reset_twice (K : Kernel) (s : St) :
  exists s1 s2,
    reset K s = Done tt s1
    /\ reset K s1 = Done tt s2
    /\ live (world s2) = live (world s1).
Proof.
  destruct (reset_runs K s) as (s1 & H1 & Hinit & _).
  destruct (reset_runs K s1) as (s2 & H2 & _ & _ & _ & Hsame & _).
  exists s1, s2. split; [ exact H1 | ]. split; [ exact H2 | ].
  apply Hsame. exact Hinit.
Qed.

(** With nothing mapped, as on an object that was never opened, nothing is
    mapped after [reset]. *)
Lemma reset_nothing_mapped (K : Kernel) (s : St) :
  live (world s) = [] -> live (world (final (reset K s))) = [].
Proof.
  intros Hempty. destruct (reset_runs K s) as (s1 & H1 & _ & _ & Hincl & _).
  rewrite H1. cbn [final]. rewrite Hempty in Hincl.
  apply incl_l_nil. exact Hincl.
Qed.

(** On an initialized session whose mappings are those of its buffers,
    [reset] leaves nothing mapped. *)
Lemma reset_unmaps_session (K : Kernel) (s : St) (bufs : list Buffer) :
  mInitialized (vc s) = true ->
  mBuffers (vc s) = Some bufs ->
  mBufCount (vc s) = Z.of_nat (List.length bufs) ->
  (forall a l, In (a, l) (live (world s)) ->
               exists b, In b bufs /\ buf_start b = a) ->
  live (world (final (reset K s))) = [].
Proof.
  intros Hinit Hbufs Hcount Hown.
  destruct (reset_runs K s) as (s1 & H1 & _ & _ & Hincl & _ & Hgone).
  rewrite H1. cbn [final].
  destruct (Hgone bufs Hinit Hbufs) as [_ Hg].
  destruct (live (world s1)) as [| [a l] rest] eqn:E; [ reflexivity | ].
  exfalso.
  destruct (Hown a l (Hincl _ (or_introl eq_refl))) as (b & Hb & <-).
  destruct (In_nth _ _ (mkBuffer nullptr 0) Hb) as (j & Hj & Hnth).
  apply (Hg (Z.of_nat j) l); [ lia | ].
  unfold buffer_at. rewrite Nat2Z.id, Hnth. left. reflexivity.
Qed.

(** C2 on a camera that fails the query of the second buffer. [init] maps
    buffer 0, [openCamera] returns false at line 425 and [mInitialized] stays
    false; the guard of line 81 then skips the unmapping, and the mapping
    made by the failed open is still there after [reset], and after a second
    [reset]. *)
Theorem reset_leaves_partial_open_mapped :
  value (init second_buffer_fails 0 constructed) = Some false
  /\ live (world (final (init second_buffer_fails 0 constructed)))
     = [(4096, 10969344)]
  /\ value (reset second_buffer_fails
              (final (init second_buffer_fails 0 constructed))) = Some tt
  /\ live (world (final (reset second_buffer_fails
                           (final (init second_buffer_fails 0 constructed)))))
     = [(4096, 10969344)]
  /\ live (world (final (reset second_buffer_fails
             (final (reset second_buffer_fails
                       (final (init second_buffer_fails 0 constructed)))))))
     = [(4096, 10969344)].
Proof. vm_compute. repeat split. Qed.

(** ** The capture loop *)

Lemma openCamera_session (K : Kernel) (devId : Z) (s s1 : St) :
  openCamera K devId s = Done true s1 -> session K (vc s1).
Proof.
  intros H.
  destruct (openCamera_opened K devId s s1 H)
    as (_ & _ & _ & Hf & Hsize & bufs & Hb & Hc & Hrep).
  unfold session. rewrite Hf. cbn [frame_data].
  split; [ reflexivity | ]. split; [ exact Hsize | ].
  exists bufs. auto.
Qed.

Lemma open_first_session (K : Kernel) :
  forall n id s s1,
  open_first K n id s = Done true s1 -> session K (vc s1).
Proof.
  induction n as [| n IH]; intros id s s1; cbn [open_first].
  - discriminate.
  - unfold mbind.
    destruct (openCamera K id s) as [[|] s' | s'] eqn:E.
    + unfold mret. intros H. injection H as <-.
      apply (openCamera_session K id s s' E).
    + apply IH.
    + discriminate.
Qed.

Lemma queue_all_frame (K : Kernel) :
  forall n i s, exists ok s1, queue_all K n i s = Done ok s1 /\ vc s1 = vc s.
Proof.
  induction n as [| n IH]; intros i s; cbn [queue_all].
  - exists true, s. split; reflexivity.
  - run_prims. run_xioctl.
    destruct (-1 =? fst r).
    + exists false, s0. split; [ reflexivity | exact Hvc ].
    + destruct (IH (i + 1) s0) as (ok & s1 & Hrun & Hvc1).
      exists ok, s1. split; [ exact Hrun | congruence ].
Qed.

Lemma startCapture_frame (K : Kernel) (s : St) :
  exists ok s1,
    startCapture K s = Done ok s1
    /\ (vc s1 = vc s \/ vc s1 = set_mGrabThread true (vc s)).
Proof.
  unfold startCapture. run_prims.
  destruct (queue_all_frame K (Z.to_nat (mBufCount (vc s))) 0 s)
    as (ok & s0 & Hrun & Hvc0).
  rewrite Hrun. cbv beta iota.
  destruct ok; cbn [negb]; cbv beta iota;
    [ | exists false, s0; split; [ reflexivity | left; exact Hvc0 ] ].
  run_xioctl. destruct (-1 =? fst r);
    [ exists false, s1; split; [ reflexivity | left; congruence ] | ].
  run_xioctl. destruct (-1 =? fst r0);
    [ exists false, s2; split; [ reflexivity | left; congruence ] | ].
  eexists; eexists. split; [ reflexivity | ]. simp_st. right. congruence.
Qed.

(** A successful [init] leaves a session. *)
Lemma init_session (K : Kernel) (devId : Z) (s s1 : St) :
  init K devId s = Done true s1 -> session K (vc s1).
Proof.
  unfold init.
  destruct (reset_runs K s) as (s0 & Hreset & _).
  unfold mbind at 1. rewrite Hreset.
  unfold mbind at 1.
  destruct ((if devId =? -1 then open_first K 64 0
             else openCamera K (wrap_u8 devId)) s0)
    as [[|] s2 | s2] eqn:Hopen; cbn [negb]; try discriminate.
  assert (Hs2 : session K (vc s2)).
  { destruct (devId =? -1).
    - apply (open_first_session K _ _ _ _ Hopen).
    - apply (openCamera_session K _ _ _ Hopen). }
  destruct (startCapture_frame K s2) as (ok & s3 & Hstart & Hvc3).
  unfold mbind at 1. rewrite Hstart. run_prims.
  match goal with
  | |- context [setLEDValue K true ?st] =>
      destruct (setLEDValue_frame K true st) as (r & s4 & Hled & Hvc4 & _)
  end.
  rewrite Hled. intros H. injection H as -> <-.
  rewrite Hvc4. simp_st.
  unfold session, payload_size in *.
  destruct Hvc3 as [-> | ->]; simp_st; exact Hs2.
Qed.

Lemma querybuf_length_nonneg (p : Payload) : 0 <= fst (querybuf_fields p).
Proof. destruct p; cbn; try lia. apply wrap_u32_nonneg. Qed.

(** A frame the capture loop accepts (its frame id advances) is copied from
    the buffer the kernel handed over; the number of bytes copied is the
    length recorded for that buffer, whatever the size of the payload. *)
Lemma grab_accepted_copy
    (K : Kernel) (buf buf1 : v4l2_buffer) (s s1 : St) :
  session K (vc s) ->
  0 <= index buf ->
  grab_iteration K buf s = Done buf1 s1 ->
  frame_id (mLastFrame (vc s1)) <> frame_id (mLastFrame (vc s)) ->
  exists bufs b,
    mBuffers (vc s) = Some bufs
    /\ 0 <= index buf1 < mBufCount (vc s)
    /\ b = buffer_at bufs (index buf1)
    /\ length_reported K (mFileDesc (vc s)) (index buf1) b
    /\ trace (world s1)
       = EvIoctl (mFileDesc (vc s)) (VIDIOC_QBUF (index buf1))
         :: EvMemcpy (Some (payload_size (vc s))) (buf_start b) (buf_length b)
         :: EvIoctl (mFileDesc (vc s)) VIDIOC_DQBUF
         :: trace (world s)
    /\ (copy_within
          (EvMemcpy (Some (payload_size (vc s))) (buf_start b) (buf_length b))
        <-> buf_length b <= payload_size (vc s)).
Proof.
  intros (Hdata & Hsize & bufs & Hbufs & Hcount & Hrep) Hidx.
  assert (Hdq : forall p, 0 <= index (dequeued buf p)).
  { intros p. destruct p; cbn; try exact Hidx. apply wrap_u32_nonneg. }
  unfold grab_iteration. run_prims. unfold ioctl. simp_st.
  rewrite Hbufs, Hdata.
  set (a := k_ioctl K (trace (world s)) (mFileDesc (vc s)) VIDIOC_DQBUF).
  specialize (Hdq (payload a)).
  set (b := dequeued buf (payload a)) in *.
  destruct ((bytesused b =? length b) && (ret a =? 0)
            && (index b <? mBufCount (vc s))) eqn:Hacc; cbv beta iota.
  - apply andb_true_iff in Hacc. destruct Hacc as [_ Hlt].
    apply Z.ltb_lt in Hlt.
    destruct (negb (mWidth (vc s) =? 0) && negb (mHeight (vc s) =? 0)
              && negb (buf_start (buffer_at bufs (index b)) =? nullptr));
      cbv beta iota; simp_st; intros Hrun Hid;
      injection Hrun as <- <-; simp_st.
    + exists bufs, (buffer_at bufs (index b)).
      split; [ reflexivity | ]. split; [ lia | ]. split; [ reflexivity | ].
      assert (Hlr := Hrep (index b) ltac:(lia)).
      split; [ exact Hlr | ]. split; [ reflexivity | ].
      destruct Hlr as (t & Hlr). cbn [copy_within]. rewrite Hlr.
      pose proof (querybuf_length_nonneg
                    (payload (k_ioctl K t (mFileDesc (vc s))
                                (VIDIOC_QUERYBUF (index b))))).
      lia.
    + contradiction Hid. reflexivity.
  - destruct (negb (bytesused b =? length b)); cbv beta iota; simp_st;
      intros Hrun Hid; injection Hrun as <- <-; simp_st;
      contradiction Hid; reflexivity.
Qed.

(** The session outlives the capture thread's own updates. *)
Lemma grab_iteration_session (K : Kernel) (buf : v4l2_buffer) (s : St) :
  session K (vc s) ->
  0 <= index buf ->
  exists buf1 s1,
    grab_iteration K buf s = Done buf1 s1
    /\ session K (vc s1)
    /\ 0 <= index buf1.
Proof.
  intros Hs Hidx.
  assert (Hdq : forall p, 0 <= index (dequeued buf p)).
  { intros p. destruct p; cbn; try exact Hidx. apply wrap_u32_nonneg. }
  pose proof Hs as (Hdata & Hsize & bufs & Hbufs & Hcount & Hrep).
  unfold grab_iteration. run_prims. unfold ioctl. simp_st.
  rewrite Hbufs, Hdata.
  set (a := k_ioctl K (trace (world s)) (mFileDesc (vc s)) VIDIOC_DQBUF).
  specialize (Hdq (payload a)).
  set (b := dequeued buf (payload a)) in *.
  destruct ((bytesused b =? length b) && (ret a =? 0)
            && (index b <? mBufCount (vc s))); cbv beta iota.
  - destruct (negb (mWidth (vc s) =? 0) && negb (mHeight (vc s) =? 0)
              && negb (buf_start (buffer_at bufs (index b)) =? nullptr));
      cbv beta iota; simp_st; eexists; eexists;
      (split; [ reflexivity | ]); (split; [ | exact Hdq ]);
      unfold session, payload_size in *; simp_st;
      rewrite Hbufs; repeat split; eauto.
  - destruct (negb (bytesused b =? length b)); cbv beta iota; simp_st;
      eexists; eexists; (split; [ reflexivity | ]);
      (split; [ | exact Hdq ]);
      unfold session, payload_size in *; simp_st;
      rewrite Hbufs; repeat split; eauto.
Qed.

Lemma grab_turns_session (K : Kernel) :
  forall n buf s,
  session K (vc s) ->
  0 <= index buf ->
  exists buf1 s1,
    grab_turns K n buf s = Done buf1 s1
    /\ session K (vc s1)
    /\ 0 <= index buf1.
Proof.
  induction n as [| n IH]; intros buf s Hs Hidx; cbn [grab_turns].
  - exists buf, s. split; [ reflexivity | split; assumption ].
  - destruct (grab_iteration_session K buf s Hs Hidx)
      as (b & s' & Hrun & Hs' & Hb).
    unfold mbind. rewrite Hrun. apply IH; assumption.
Qed.

Lemma grab_prelude_session (K : Kernel) (s sp : St) (buf0 : v4l2_buffer) :
  session K (vc s) ->
  grab_prelude s = Done (Some buf0) sp ->
  session K (vc sp) /\ buf0 = grab_buf.
Proof.
  intros Hs. unfold grab_prelude. run_prims. simp_st.
  destruct (mFileDesc (vc s) <? 0); [ discriminate | ].
  intros H. injection H as <- <-. simp_st.
  split; [ | reflexivity ].
  unfold session, payload_size in *. simp_st. exact Hs.
Qed.

Lemma streaming_started : init long_lines 0 constructed = Done true streaming.
Proof. vm_compute. reflexivity. Qed.

Lemma capturing_started :
  grab_prelude streaming = Done (Some grab_buf) capturing.
Proof. vm_compute. reflexivity. Qed.

(** C10. In every session [init] has set up, the payload is allocated with
    width * height * channels bytes, channels being bytesperline / width in
    integer division.  At every turn of the capture loop, a frame that is
    accepted (the frame id advances) is copied with the length the kernel
    reported for its buffer when the buffer was mapped, not with the payload
    size, and the copy stays inside the payload exactly when that length is
    at most the payload size.  The code enforces no such bound: on a camera
    that reports bytesperline = 2 * width + 1 the accepted frame is copied
    with 10970586 bytes into a payload of 10969344. *)
Theorem grab_copies_buffer_length :
  (forall K devId s0 s buf0 sp n buf s' buf1 s1,
      init K devId s0 = Done true s ->
      grab_prelude s = Done (Some buf0) sp ->
      grab_turns K n buf0 sp = Done buf s' ->
      grab_iteration K buf s' = Done buf1 s1 ->
      frame_id (mLastFrame (vc s1)) <> frame_id (mLastFrame (vc s')) ->
      frame_data (mLastFrame (vc s'))
      = Some (wrap_s32 (wrap_s32 (mWidth (vc s') * mHeight (vc s'))
                        * mChannels (vc s')))
      /\ exists bufs b,
           mBuffers (vc s') = Some bufs
           /\ 0 <= index buf1 < mBufCount (vc s')
           /\ b = buffer_at bufs (index buf1)
           /\ length_reported K (mFileDesc (vc s')) (index buf1) b
           /\ trace (world s1)
              = EvIoctl (mFileDesc (vc s')) (VIDIOC_QBUF (index buf1))
                :: EvMemcpy (frame_data (mLastFrame (vc s')))
                     (buf_start b) (buf_length b)
                :: EvIoctl (mFileDesc (vc s')) VIDIOC_DQBUF
                :: trace (world s')
           /\ (copy_within
                 (EvMemcpy (frame_data (mLastFrame (vc s')))
                    (buf_start b) (buf_length b))
               <-> buf_length b <= payload_size (vc s')))
  /\ (mChannels (vc capturing) = (2 * 4416 + 1) / 4416
      /\ frame_data (mLastFrame (vc capturing)) = Some (4416 * 1242 * 2)
      /\ exists buf1 s1,
           grab_iteration long_lines grab_buf capturing = Done buf1 s1
           /\ frame_id (mLastFrame (vc s1)) = 1
           /\ nth_error (trace (world s1)) 1
              = Some (EvMemcpy (Some 10969344) 4096 10970586)
           /\ ~ copy_within (EvMemcpy (Some 10969344) 4096 10970586)).
Proof.
  split.
  - intros K devId s0 s buf0 sp n buf s' buf1 s1 Hinit Hpre Hturns Hrun Hid.
    pose proof (init_session K devId s0 s Hinit) as Hs.
    destruct (grab_prelude_session K s sp buf0 Hs Hpre) as [Hsp ->].
    destruct (grab_turns_session K n grab_buf sp Hsp ltac:(cbn; lia))
      as (b' & s'' & Hturns' & Hs' & Hidx).
    rewrite Hturns in Hturns'. injection Hturns' as <- <-.
    destruct (grab_accepted_copy K buf buf1 s' s1 Hs' Hidx Hrun Hid)
      as (bufs & b & H).
    destruct Hs' as (Hdata & _).
    split; [ exact Hdata | ].
    exists bufs, b. rewrite Hdata. exact H.
  - split; [ vm_compute; reflexivity | ].
    split; [ vm_compute; reflexivity | ].
    eexists; eexists.
    split; [ vm_compute; reflexivity | ].
    split; [ vm_compute; reflexivity | ].
    split; [ vm_compute; reflexivity | ].
    cbn. lia.
Qed.

Lemma grab_copies_buffer_length_witness :
  init long_lines 0 constructed = Done true streaming
  /\ grab_prelude streaming = Done (Some grab_buf) capturing
  /\ exists buf s' buf1 s1,
       grab_turns long_lines 1 grab_buf capturing = Done buf s'
       /\ grab_iteration long_lines buf s' = Done buf1 s1
       /\ frame_id (mLastFrame (vc s1)) <> frame_id (mLastFrame (vc s'))
       /\ exists bufs b,
            mBuffers (vc s') = Some bufs
            /\ b = buffer_at bufs (index buf1)
            /\ length_reported long_lines (mFileDesc (vc s')) (index buf1) b
            /\ nth_error (trace (world s1)) 1
               = Some (EvMemcpy (frame_data (mLastFrame (vc s')))
                         (buf_start b) (buf_length b)).
Proof.
  split; [ exact streaming_started | ].
  split; [ exact capturing_started | ].
  eexists; eexists; eexists; eexists.
  split; [ vm_compute; reflexivity | ].
  split; [ vm_compute; reflexivity | ].
  split; [ vm_compute; discriminate | ].
  destruct (proj1 grab_copies_buffer_length long_lines 0 constructed streaming
              grab_buf capturing 1%nat _ _ _ _
              streaming_started capturing_started
              ltac:(vm_compute; reflexivity)
              ltac:(vm_compute; reflexivity)
              ltac:(vm_compute; discriminate))
    as (_ & bufs & b & Hb & _ & Hbeq & Hrep & Htr & _).
  exists bufs, b.
  split; [ exact Hb | ]. split; [ exact Hbeq | ]. split; [ exact Hrep | ].
  rewrite Htr. reflexivity.
Defined.

(** * Further properties *)

(** ** Frame rate negotiation *)

(** X1. The frame rate [checkResFps] settles on is a supported rate nearest to
    the requested one: no supported rate is closer. *)
Theorem checkResFps_nearest
    (table : RESOLUTION -> Z * Z) (par : Params) (s : St) (x : Z) :
  In x (supported_fps (res par)) ->
  Z.abs (fps_after table par s - fps par) <= Z.abs (x - fps par).
Proof.
  destruct par as [r f b]. unfold fps_after, checkResFps, mbind, upd_vc,
    get_vc, when, mret. cbn -[Z.abs Z.sub].
  destruct r; cbn -[Z.abs Z.sub];
    repeat match goal with
           | |- context [if ?c then _ else _] =>
               let E := fresh "E" in destruct c eqn:E; cbn -[Z.abs Z.sub]
           end;
    rewrite ?andb_true_iff, ?andb_false_iff, ?negb_true_iff, ?negb_false_iff,
      ?Z.eqb_eq, ?Z.eqb_neq, ?Z.leb_le, ?Z.leb_gt, ?Z.ltb_lt, ?Z.ltb_ge in *;
    intros Hx; intuition lia.
Qed.

Lemma checkResFps_nearest_witness :
  In 60 (supported_fps VGA)
  /\ Z.abs (fps_after zed_table (mkParams VGA 70 false) (boot false) - 70)
     <= Z.abs (60 - 70).
Proof.
  split; [ cbn; tauto | ].
  apply (checkResFps_nearest zed_table (mkParams VGA 70 false) (boot false) 60).
  cbn; tauto.
Defined.

(** X2. Asking for a higher frame rate never yields a lower one. *)
Theorem checkResFps_monotone
    (table : RESOLUTION -> Z * Z) (r : RESOLUTION) (f1 f2 : Z) (b1 b2 : bool)
    (s1 s2 : St) :
  f1 <= f2 ->
  fps_after table (mkParams r f1 b1) s1 <= fps_after table (mkParams r f2 b2) s2.
Proof.
  unfold fps_after, checkResFps, mbind, upd_vc, get_vc, when, mret. cbn.
  destruct r; cbn;
    repeat match goal with
           | |- context [if ?c then _ else _] =>
               let E := fresh "E" in destruct c eqn:E; cbn
           end;
    rewrite ?andb_true_iff, ?andb_false_iff, ?negb_true_iff, ?negb_false_iff,
      ?Z.eqb_eq, ?Z.eqb_neq, ?Z.leb_le, ?Z.leb_gt, ?Z.ltb_lt, ?Z.ltb_ge in *;
    intros Hle; intuition lia.
Qed.

Lemma checkResFps_monotone_witness :
  44 <= 45
  /\ fps_after zed_table (mkParams HD720 44 false) (boot false)
     <= fps_after zed_table (mkParams HD720 45 true) (boot true).
Proof.
  split; [ lia | ].
  apply (checkResFps_monotone zed_table HD720 44 45 false true
           (boot false) (boot true)).
  lia.
Defined.

(** ** Waiting for a frame *)

Lemma wait_new_frame_first (seen : nat -> bool) (k : nat) (tc : Z) :
  forall n,
  (forall i, (i < n)%nat -> seen (k + i)%nat = false) ->
  seen (k + n)%nat = true ->
  (n < turns_left tc)%nat ->
  wait_new_frame seen k tc = (true, (k + n)%nat).
Proof.
  funelim (wait_new_frame seen k tc); intros m Hbefore Hat Hturns.
  - destruct m as [| m].
    + rewrite Nat.add_0_r. reflexivity.
    + specialize (Hbefore 0%nat ltac:(lia)). rewrite Nat.add_0_r in Hbefore.
      congruence.
  - destruct m as [| m].
    + rewrite Nat.add_0_r in Hat. congruence.
    + rewrite (turns_left_last _ e) in Hturns. lia.
  - destruct m as [| m].
    + rewrite Nat.add_0_r in Hat. congruence.
    + rewrite (H m).
      * f_equal. lia.
      * intros i Hi. replace (S k + i)%nat with (k + S i)%nat by lia.
        apply Hbefore. lia.
      * replace (S k + m)%nat with (k + S m)%nat by lia. exact Hat.
      * rewrite (turns_left_next time_count n) in Hturns. lia.
Qed.

(** X3. The wait ends at the first evaluation of the condition that sees the
    flag, provided the counter has not run out before: the call hands out
    the frame after that many sleeps and clears the flag.  A frame that is
    already there ([n = 0]) is handed out at once, whatever the timeout. *)
Theorem getLastFrame_first_delivery
    (delivered : nat -> bool) (timeout_msec : Z) (v : VideoCapture) (n : nat) :
  (forall i, (i < n)%nat -> mNewFrame v || delivered i = false) ->
  mNewFrame v || delivered n = true ->
  (n < turns_left (wrap_u64 (timeout_msec * 10)))%nat ->
  getLastFrame delivered timeout_msec v
  = (last_frame, n, set_mNewFrame false v).
Proof.
  intros Hbefore Hat Hturns. unfold getLastFrame.
  rewrite (wait_new_frame_first _ 0 _ n); cbn [fst snd Nat.add];
    [ reflexivity | exact Hbefore | exact Hat | exact Hturns ].
Qed.

Lemma getLastFrame_first_delivery_witness :
  (forall i, (i < 2)%nat ->
             mNewFrame (fresh_vc false) || Nat.eqb i 2 = false)
  /\ mNewFrame (fresh_vc false) || Nat.eqb 2 2 = true
  /\ (2 < turns_left (wrap_u64 (1 * 10)))%nat
  /\ getLastFrame (fun i => Nat.eqb i 2) 1 (fresh_vc false)
     = (last_frame, 2%nat, set_mNewFrame false (fresh_vc false)).
Proof.
  assert (H1 : forall i, (i < 2)%nat ->
                         mNewFrame (fresh_vc false) || Nat.eqb i 2 = false).
  { intros i Hi. cbn. apply Nat.eqb_neq. lia. }
  assert (H3 : (2 < turns_left (wrap_u64 (1 * 10)))%nat).
  { change (wrap_u64 (1 * 10)) with 10. unfold turns_left.
    change (wrap_u64 10) with 10. cbn. lia. }
  split; [ exact H1 | ]. split; [ reflexivity | ]. split; [ exact H3 | ].
  apply (getLastFrame_first_delivery (fun i => Nat.eqb i 2) 1 (fresh_vc false)
           2 H1 eq_refl H3).
Defined.

(** X4. A frame is handed out once: after a call that returned the frame, a
    call during which nothing is captured returns nullptr, whatever its
    timeout, and leaves the object as it is. *)
Theorem getLastFrame_no_duplicate
    (delivered : nat -> bool) (t1 t2 : Z) (v v1 : VideoCapture) (n : nat) :
  getLastFrame delivered t1 v = (last_frame, n, v1) ->
  exists m, getLastFrame (fun _ => false) t2 v1 = (null_frame, m, v1).
Proof.
  unfold getLastFrame at 1.
  destruct (fst (wait_new_frame _ 0 (wrap_u64 (t1 * 10)))); [ | discriminate ].
  intros H. injection H as _ <-.
  unfold getLastFrame. rewrite wait_new_frame_never by (intros j; reflexivity).
  cbn [fst snd]. eexists. reflexivity.
Qed.

Lemma getLastFrame_no_duplicate_witness :
  getLastFrame (fun _ => true) 5 (fresh_vc false)
  = (last_frame, 0%nat, set_mNewFrame false (fresh_vc false))
  /\ exists m,
       getLastFrame (fun _ => false) 7 (set_mNewFrame false (fresh_vc false))
       = (null_frame, m, set_mNewFrame false (fresh_vc false)).
Proof.
  assert (H : getLastFrame (fun _ => true) 5 (fresh_vc false)
              = (last_frame, 0%nat, set_mNewFrame false (fresh_vc false))).
  { unfold getLastFrame.
    rewrite (wait_new_frame_first _ 0 _ 0); cbn [fst snd Nat.add].
    - reflexivity.
    - intros i Hi. lia.
    - reflexivity.
    - pose proof (turns_left_pos (wrap_u64 (5 * 10))). lia. }
  split; [ exact H | ].
  apply (getLastFrame_no_duplicate (fun _ => true) 5 7 (fresh_vc false)
           (set_mNewFrame false (fresh_vc false)) 0 H).
Defined.

(** X5. With no frame arriving and a timeout whose tenfold lies strictly between
    0 and 2^64, [getLastFrame] gives up with the null pointer after exactly
    ten times the timeout minus one sleeps of 100 microseconds, and leaves
    the object as it was. *)
Theorem getLastFrame_timeout_budget
    (delivered : nat -> bool) (timeout_msec : Z) (v : VideoCapture) :
  mNewFrame v = false ->
  (forall k, delivered k = false) ->
  0 < timeout_msec * 10 < 2 ^ 64 ->
  exists sleeps,
    getLastFrame delivered timeout_msec v = (null_frame, sleeps, v)
    /\ Z.of_nat sleeps = timeout_msec * 10 - 1.
Proof. apply getLastFrame_times_out. Qed.

Lemma getLastFrame_timeout_budget_witness :
  mNewFrame (fresh_vc false) = false
  /\ (forall k : nat, (fun _ : nat => false) k = false)
  /\ 0 < 1 * 10 < 2 ^ 64
  /\ exists sleeps,
       getLastFrame (fun _ => false) 1 (fresh_vc false)
       = (null_frame, sleeps, fresh_vc false)
       /\ Z.of_nat sleeps = 1 * 10 - 1.
Proof.
  split; [ reflexivity | ]. split; [ reflexivity | ]. split; [ lia | ].
  apply (getLastFrame_timeout_budget (fun _ => false) 1 (fresh_vc false)).
  - reflexivity.
  - reflexivity.
  - lia.
Defined.

(** ** Identifying the camera *)

Module ModaliasFacts.
Import String Ascii Modalias.
Open Scope string_scope.

Section Identity.

Variable modalias_token : string -> option string.
Variable hex_extract : string -> option Z.
Variables VENDOR PROD_ZED PROD_ZED_M PROD_ZED_CBS PROD_ZED_M_CBS
  PROD_ZED_2_CBS : Z.

(** X6. A device gets a tag other than NONE only if its modalias token could be
    read, has at least 14 characters, starts with "usb:v", has "p" at
    index 9, both four-character fields were extracted, the vendor field is
    the Stereolabs vendor id and the product field is one of the five
    product ids.  Everything else is NONE. *)
Theorem getCameraModel_recognised (dev_name : string) :
  getCameraModel modalias_token hex_extract VENDOR PROD_ZED PROD_ZED_M
    PROD_ZED_CBS PROD_ZED_M_CBS PROD_ZED_2_CBS dev_name <> NONE ->
  exists modalias vid pid,
    modalias_token (sysfs_path dev_name) = Some modalias
    /\ (14 <= String.length modalias)%nat
    /\ substring 0 5 modalias = "usb:v"
    /\ get 9 modalias = Some "p"%char
    /\ hex_extract (substring 5 4 modalias) = Some vid
    /\ hex_extract (substring 10 4 modalias) = Some pid
    /\ vid = VENDOR
    /\ (pid = PROD_ZED \/ pid = PROD_ZED_M \/ pid = PROD_ZED_CBS
        \/ pid = PROD_ZED_M_CBS \/ pid = PROD_ZED_2_CBS).
Proof.
  unfold getCameraModel.
  destruct (modalias_token (sysfs_path dev_name)) as [m |];
    [ | congruence ].
  destruct (String.length m <? 14)%nat eqn:El; [ cbn; congruence | ].
  destruct (substring 0 5 m =? "usb:v") eqn:Ep; [ | cbn; congruence ].
  destruct (get 9 m) as [c |] eqn:Eg; [ | cbn; congruence ].
  destruct (Ascii.eqb c "p") eqn:Ec; [ | cbn; congruence ].
  cbn [orb negb].
  destruct (hex_extract (substring 5 4 m)) as [vid |] eqn:Ev;
    [ | congruence ].
  destruct (hex_extract (substring 10 4 m)) as [pid |] eqn:Epid;
    [ | congruence ].
  intros H. exists m, vid, pid.
  apply Nat.ltb_ge in El. apply String.eqb_eq in Ep.
  apply Ascii.eqb_eq in Ec. subst c.
  repeat (split; [ first [ reflexivity | assumption ] | ]).
  revert H.
  repeat match goal with
         | |- context [(?a =? ?b)%Z] =>
             destruct (Z.eqb_spec a b); cbn [andb]
         end; try congruence; tauto.
Qed.

(** X7. With five different product ids, a well-formed modalias of the
    Stereolabs vendor gets the tag of its product id, and no other. *)
Theorem getCameraModel_tags (dev_name modalias : string) (pid : Z) :
  NoDup [PROD_ZED; PROD_ZED_M; PROD_ZED_CBS; PROD_ZED_M_CBS; PROD_ZED_2_CBS] ->
  modalias_token (sysfs_path dev_name) = Some modalias ->
  (14 <= String.length modalias)%nat ->
  substring 0 5 modalias = "usb:v" ->
  get 9 modalias = Some "p"%char ->
  hex_extract (substring 5 4 modalias) = Some VENDOR ->
  hex_extract (substring 10 4 modalias) = Some pid ->
  let tag :=
    getCameraModel modalias_token hex_extract VENDOR PROD_ZED PROD_ZED_M
      PROD_ZED_CBS PROD_ZED_M_CBS PROD_ZED_2_CBS dev_name in
  (tag = ZED <-> pid = PROD_ZED)
  /\ (tag = ZED_M <-> pid = PROD_ZED_M)
  /\ (tag = ZED_CBS <-> pid = PROD_ZED_CBS)
  /\ (tag = ZED_M_CBS <-> pid = PROD_ZED_M_CBS)
  /\ (tag = ZED_2_CBS <-> pid = PROD_ZED_2_CBS).
Proof.
  intros Hnd Htok Hlen Hpre Hp Hvid Hpid.
  unfold getCameraModel.
  rewrite Htok.
  apply Nat.ltb_ge in Hlen. rewrite Hlen, Hpre, Hp. cbn [orb negb].
  rewrite String.eqb_refl, Ascii.eqb_refl. cbn [orb negb].
  rewrite Hvid, Hpid. rewrite Z.eqb_refl, !andb_true_r.
  repeat match goal with
         | H : NoDup (_ :: _) |- _ => inversion H; clear H; subst
         end.
  cbn [In] in *. cbv zeta.
  repeat match goal with
         | |- context [(?a =? ?b)%Z] => destruct (Z.eqb_spec a b)
         end;
    repeat split; intros; subst; try congruence; tauto.
Qed.

End Identity.

(** /dev/video0 with the modalias of a ZED 2. *)
Definition zed2_token (path : string) : option string :=
  if path =? "/sys/class/video4linux/video0/device/modalias"
  then Some "usb:v2B03pF780d0100dcEFdsc02dp01ic0Eisc01ip00in00"
  else None.

Lemma getCameraModel_recognised_witness :
  getCameraModel zed2_token hex_field 0x2b03 0xf580 0xf680 0xf582 0xf682
                 0xf780 "/dev/video0" <> NONE
  /\ exists modalias vid pid,
       zed2_token (sysfs_path "/dev/video0") = Some modalias
       /\ (14 <= String.length modalias)%nat
       /\ substring 0 5 modalias = "usb:v"
       /\ get 9 modalias = Some "p"%char
       /\ hex_field (substring 5 4 modalias) = Some vid
       /\ hex_field (substring 10 4 modalias) = Some pid
       /\ vid = 0x2b03
       /\ (pid = 0xf580 \/ pid = 0xf680 \/ pid = 0xf582
           \/ pid = 0xf682 \/ pid = 0xf780).
Proof.
  split; [ vm_compute; discriminate | ].
  apply (getCameraModel_recognised zed2_token hex_field 0x2b03 0xf580 0xf680
           0xf582 0xf682 0xf780 "/dev/video0").
  vm_compute; discriminate.
Defined.

Lemma getCameraModel_tags_witness :
  getCameraModel zed2_token hex_field 0x2b03 0xf580 0xf680 0xf582 0xf682
                 0xf780 "/dev/video0" = ZED_2_CBS
  <-> 0xf780 = 0xf780.
Proof.
  apply (getCameraModel_tags zed2_token hex_field 0x2b03 0xf580 0xf680 0xf582
           0xf682 0xf780 "/dev/video0"
           "usb:v2B03pF780d0100dcEFdsc02dp01ic0Eisc01ip00in00" 0xf780).
  - repeat constructor; cbn; intuition lia.
  - reflexivity.
  - cbn; lia.
  - reflexivity.
  - reflexivity.
  - reflexivity.
  - reflexivity.
Defined.

End ModaliasFacts.

(** ** The vendor command channel *)

Lemma VendorControl_success
    (K : Kernel) (buf out : list Z) (len readMode : Z) (safe : bool)
    (s s1 : St) :
  linux_cbs_VendorControl K buf len readMode safe s = Done (0, out) s1 ->
  len <= 384
  /\ mInitialized (vc s) = true
  /\ vc s1 = vc s
  /\ trace (world s1)
     = (if readMode =? READ_MODE
        then [xu_get_cur (mFileDesc (vc s)) (negotiated_size K s) buf]
        else [])
       ++ EvUsleep (if safe then 2000 else 300)
       :: xu_set_cur (mFileDesc (vc s)) (negotiated_size K s) buf
       :: xu_get_len (mFileDesc (vc s))
       :: trace (world s).
Proof.
  unfold linux_cbs_VendorControl, negotiated_size, xu_get_cur, xu_set_cur,
    xu_get_len.
  unfold mbind, get_vc, ioctl, usleep, upd_world, mret. cbn.
  destruct (len >? 384) eqn:El; [ discriminate | ].
  rewrite Z.gtb_ltb in El. apply Z.ltb_ge in El.
  destruct (mInitialized (vc s)) eqn:Ei; cbn; [ | discriminate ].
  repeat step_if; try discriminate;
    intros H; injection H as <- <-; cbn;
    destruct safe; cbn; repeat split; try assumption; reflexivity.
Qed.

Lemma VendorControl_status
    (K : Kernel) (buf : list Z) (len readMode : Z) (safe : bool) (s : St) :
  exists r out s1,
    linux_cbs_VendorControl K buf len readMode safe s = Done (r, out) s1
    /\ -4 <= r <= 0.
Proof.
  unfold linux_cbs_VendorControl.
  unfold mbind, get_vc, ioctl, usleep, upd_world, mret. cbn.
  repeat step_if; eexists; eexists; eexists;
    (split; [ reflexivity | lia ]).
Qed.

(** X8. A vendor call that returns 0 was made on an initialized device with a
    length of at most 384 and has run the whole protocol in order: the
    length query, the command sent with the length the device reported (not
    the length the caller passed), the settle delay of 300 microseconds
    (2000 when safe), and, in read mode only, the read-back with the same
    length into the same buffer. *)
Theorem VendorControl_protocol
    (K : Kernel) (buf out : list Z) (len readMode : Z) (safe : bool)
    (s s1 : St) :
  linux_cbs_VendorControl K buf len readMode safe s = Done (0, out) s1 ->
  len <= 384
  /\ mInitialized (vc s) = true
  /\ vc s1 = vc s
  /\ trace (world s1)
     = (if readMode =? READ_MODE
        then [xu_get_cur (mFileDesc (vc s)) (negotiated_size K s) buf]
        else [])
       ++ EvUsleep (if safe then 2000 else 300)
       :: xu_set_cur (mFileDesc (vc s)) (negotiated_size K s) buf
       :: xu_get_len (mFileDesc (vc s))
       :: trace (world s).
Proof. apply VendorControl_success. Qed.

Lemma VendorControl_protocol_witness :
  exists out s1,
    linux_cbs_VendorControl long_lines (xu_buf 384 XU_TASK_GET 0x13 2 0) 384 1
      false streaming = Done (0, out) s1
    /\ hd_error (trace (world s1))
       = Some (xu_get_cur 3 384 (xu_buf 384 XU_TASK_GET 0x13 2 0)).
Proof.
  eexists; eexists.
  assert (H : linux_cbs_VendorControl long_lines
                (xu_buf 384 XU_TASK_GET 0x13 2 0) 384 1 false streaming
              = Done (0, xu_buf 384 XU_TASK_GET 0x13 2 0)
                     (final (linux_cbs_VendorControl long_lines
                               (xu_buf 384 XU_TASK_GET 0x13 2 0) 384 1 false
                               streaming)))
    by (vm_compute; reflexivity).
  split; [ exact H | ].
  destruct (VendorControl_protocol _ _ _ _ _ _ _ _ H) as (_ & _ & _ & Htr).
  rewrite Htr. vm_compute. reflexivity.
Defined.

(** ** The LED before and after initialization *)

(** X9. On a device that is not initialized the three LED calls fail with -6
    (twice the -3 of the vendor call) and make no system call. *)
Theorem LED_calls_before_init (K : Kernel) (b : bool) (s : St) :
  mInitialized (vc s) = false ->
  setLEDValue K b s = Done (-6) s
  /\ getLEDValue K true s = Done (-6, Some false) s
  /\ toggleLED K b s = Done (-6, None) s.
Proof.
  intros Hinit.
  assert (Hv : forall buf len rm,
             len <= 384 ->
             linux_cbs_VendorControl K buf len rm false s = Done (-3, buf) s).
  { intros buf len rm Hlen. unfold linux_cbs_VendorControl.
    replace (len >? 384) with false
      by (symmetry; rewrite Z.gtb_ltb; apply Z.ltb_ge; exact Hlen).
    unfold mbind, get_vc, mret. rewrite Hinit. reflexivity. }
  assert (Hset : setLEDValue K b s = Done (-6) s).
  { unfold setLEDValue, linux_cbs_set_gpio_direction, linux_cbs_set_gpio_value,
      mbind, mret.
    destruct b; rewrite Hv by lia; cbv beta iota; rewrite Hv by lia;
      reflexivity. }
  assert (Hget : getLEDValue K true s = Done (-6, Some false) s).
  { unfold getLEDValue, linux_cbs_set_gpio_direction, linux_cbs_get_gpio_value,
      mbind, mret. cbn [negb].
    rewrite Hv by lia. cbv beta iota. rewrite Hv by lia. reflexivity. }
  split; [ exact Hset | ]. split; [ exact Hget | ].
  unfold toggleLED, mbind. rewrite Hget. reflexivity.
Qed.

Lemma LED_calls_before_init_witness :
  mInitialized (vc (boot false)) = false
  /\ setLEDValue readback_fails true (boot false) = Done (-6) (boot false)
  /\ getLEDValue readback_fails true (boot false)
     = Done (-6, Some false) (boot false)
  /\ toggleLED readback_fails true (boot false) = Done (-6, None) (boot false).
Proof.
  split; [ reflexivity | ].
  apply (LED_calls_before_init readback_fails true (boot false)).
  reflexivity.
Defined.

Lemma setLEDValue_zero (K : Kernel) (display : bool) (r : Z) (s s1 : St) :
  setLEDValue K display s = Done r s1 ->
  r <= 0
  /\ (r = 0 ->
      vc s1 = vc s
      /\ exists size1 size2,
           trace (world s1)
           = EvUsleep 300
             :: xu_set_cur (mFileDesc (vc s)) size2
                  (xu_buf 64 XU_TASK_SET 0x12 2 (if display then 1 else 0))
             :: xu_get_len (mFileDesc (vc s))
             :: EvUsleep 300
             :: xu_set_cur (mFileDesc (vc s)) size1
                  (xu_buf 64 XU_TASK_SET 0x10 2 0)
             :: xu_get_len (mFileDesc (vc s))
             :: trace (world s)).
Proof.
  unfold setLEDValue, linux_cbs_set_gpio_direction, linux_cbs_set_gpio_value.
  assert (Hgen : forall v,
    (a <- (r0 <- linux_cbs_VendorControl K (xu_buf 64 XU_TASK_SET 16 2 0)
                   64 0 false ;; mret (fst r0)) ;;
     b <- (r0 <- linux_cbs_VendorControl K (xu_buf 64 XU_TASK_SET 18 2 v)
                   64 0 false ;; mret (fst r0)) ;;
     mret (0 + a + b)) s = Done r s1 ->
    r <= 0
    /\ (r = 0 ->
        vc s1 = vc s
        /\ exists size1 size2,
             trace (world s1)
             = EvUsleep 300
               :: xu_set_cur (mFileDesc (vc s)) size2
                    (xu_buf 64 XU_TASK_SET 0x12 2 v)
               :: xu_get_len (mFileDesc (vc s))
               :: EvUsleep 300
               :: xu_set_cur (mFileDesc (vc s)) size1
                    (xu_buf 64 XU_TASK_SET 0x10 2 0)
               :: xu_get_len (mFileDesc (vc s))
               :: trace (world s))).
  { intros v. unfold mbind, mret.
    destruct (VendorControl_status K (xu_buf 64 XU_TASK_SET 16 2 0) 64 0
                false s) as (r1 & o1 & s0 & H1 & R1).
    rewrite H1. cbv beta iota.
    destruct (VendorControl_status K (xu_buf 64 XU_TASK_SET 18 2 v) 64 0
                false s0) as (r2 & o2 & s2 & H2 & R2).
    rewrite H2. cbv beta iota. cbn [fst].
    intros H. injection H as <- <-.
    split; [ lia | ]. intros Hz.
    assert (r1 = 0) by lia. assert (r2 = 0) by lia. subst r1 r2.
    destruct (VendorControl_success _ _ _ _ _ _ _ _ H1)
      as (_ & _ & V1 & T1).
    destruct (VendorControl_success _ _ _ _ _ _ _ _ H2)
      as (_ & _ & V2 & T2).
    split; [ congruence | ].
    exists (negotiated_size K s), (negotiated_size K s0).
    rewrite T2, T1, V1. reflexivity. }
  destruct display; apply Hgen.
Qed.

(** X10. [setLEDValue] returns 0 only after both of its commands were sent and
    acknowledged, first the one that makes line 2 an output, then the one
    that writes 1 or 0 to it, each followed by the settle delay; a failure
    of either command makes the result negative. *)
Theorem setLEDValue_acknowledged
    (K : Kernel) (display : bool) (r : Z) (s s1 : St) :
  setLEDValue K display s = Done r s1 ->
  r <= 0
  /\ (r = 0 ->
      vc s1 = vc s
      /\ exists size1 size2,
           trace (world s1)
           = EvUsleep 300
             :: xu_set_cur (mFileDesc (vc s)) size2
                  (xu_buf 64 XU_TASK_SET 0x12 2 (if display then 1 else 0))
             :: xu_get_len (mFileDesc (vc s))
             :: EvUsleep 300
             :: xu_set_cur (mFileDesc (vc s)) size1
                  (xu_buf 64 XU_TASK_SET 0x10 2 0)
             :: xu_get_len (mFileDesc (vc s))
             :: trace (world s)).
Proof. apply setLEDValue_zero. Qed.

Lemma setLEDValue_acknowledged_witness :
  exists s1,
    setLEDValue long_lines true streaming = Done 0 s1
    /\ vc s1 = vc streaming.
Proof.
  exists (final (setLEDValue long_lines true streaming)).
  assert (H : setLEDValue long_lines true streaming
              = Done 0 (final (setLEDValue long_lines true streaming)))
    by (vm_compute; reflexivity).
  split; [ exact H | ].
  destruct (setLEDValue_acknowledged _ _ _ _ _ H) as (_ & Hz).
  destruct (Hz eq_refl) as (Hvc & _). exact Hvc.
Defined.

Lemma getLEDValue_some (K : Kernel) (s : St) :
  exists r b s1,
    getLEDValue K true s = Done (r, Some b) s1 /\ vc s1 = vc s.
Proof.
  unfold getLEDValue, linux_cbs_set_gpio_direction, linux_cbs_get_gpio_value.
  cbn [negb]. unfold mbind, mret.
  destruct (VendorControl_frame K (xu_buf 64 XU_TASK_SET 16 2 1) 64 0
              false s) as (r1 & s1 & H1 & V1 & _).
  rewrite H1. cbv beta iota.
  destruct (VendorControl_frame K (xu_buf 384 XU_TASK_GET 19 2 0) 384 1
              false s1) as (r2 & s2 & H2 & V2 & _).
  rewrite H2. cbv beta iota.
  eexists; eexists; eexists. split; [ reflexivity | congruence ].
Qed.

(** X11. When [toggleLED] returns 0, the value it read is the opposite of the
    value it reports, and the value it reports is the one it has written to
    line 2: the latest value write of the history carries it. *)
Theorem toggleLED_writes_negation
    (K : Kernel) (value_ok : bool) (o : option bool) (s s1 : St) :
  toggleLED K value_ok s = Done (0, o) s1 ->
  exists cur s0 size,
    getLEDValue K true s = Done (0, Some cur) s0
    /\ o = (if value_ok then Some (negb cur) else None)
    /\ hd_error (gpio_value_writes (trace (world s1)))
       = Some (xu_set_cur (mFileDesc (vc s)) size
                 (xu_buf 64 XU_TASK_SET 0x12 2 (if negb cur then 1 else 0))).
Proof.
  unfold toggleLED, mbind.
  destruct (getLEDValue_some K s) as (r & cur & s0 & Hget & Hvc).
  rewrite Hget. cbn [fst snd].
  destruct (r =? 0) eqn:Er.
  - apply Z.eqb_eq in Er. subst r.
    destruct (setLEDValue K (negb cur) s0) as [r2 s2 | s2] eqn:Hset;
      [ | discriminate ].
    destruct (setLEDValue_zero _ _ _ _ _ Hset) as (_ & Hz).
    unfold mret.
    destruct (r2 =? 0) eqn:E2.
    + apply Z.eqb_eq in E2. subst r2.
      destruct (Hz eq_refl) as (_ & size1 & size2 & Htr).
      intros H. exists cur, s0, size2. split; [ reflexivity | ].
      rewrite Hvc in Htr.
      destruct value_ok; cbn [andb] in H; injection H as <- <-;
        (split; [ reflexivity | ]); rewrite Htr;
        unfold gpio_value_writes;
        rewrite filter_cons_false by reflexivity; reflexivity.
    + cbn [andb]. intros H. injection H as -> _ _.
      discriminate.
  - unfold mret. intros H. injection H as -> _ _. discriminate.
Qed.

Lemma toggleLED_writes_negation_witness :
  exists o s1 cur s0 size,
    toggleLED long_lines true streaming = Done (0, o) s1
    /\ getLEDValue long_lines true streaming = Done (0, Some cur) s0
    /\ o = Some (negb cur)
    /\ hd_error (gpio_value_writes (trace (world s1)))
       = Some (xu_set_cur (mFileDesc (vc streaming)) size
                 (xu_buf 64 XU_TASK_SET 0x12 2 (if negb cur then 1 else 0))).
Proof.
  assert (H : toggleLED long_lines true streaming
              = Done (0, Some true)
                     (final (toggleLED long_lines true streaming)))
    by (vm_compute; reflexivity).
  destruct (toggleLED_writes_negation _ _ _ _ _ H)
    as (cur & s0 & size & Hget & Ho & Hw).
  exists (Some true), (final (toggleLED long_lines true streaming)),
    cur, s0, size.
  split; [ exact H | ]. split; [ exact Hget | ]. split; [ exact Ho | exact Hw ].
Defined.

(** ** Standard controls *)

Lemma setCameraControlSettings_cases
    (K : Kernel) (ctrl_id ctrl_val : Z) (s : St) :
  exists s1,
    setCameraControlSettings K ctrl_id ctrl_val s = Done tt s1
    /\ vc s1 = vc s
    /\ (control_writes (trace (world s1)) = control_writes (trace (world s))
        \/ control_writes (trace (world s1))
           = (wrap_u32 ctrl_id, ctrl_val) :: control_writes (trace (world s))).
Proof.
  unfold setCameraControlSettings, mbind, get_vc, ioctl, mret.
  cbn [fst snd vc world].
  destruct (queryctrl_fields _) as [[[qmin qmax] qstep] qdef].
  destruct (0 =? _); [ destruct (ctrl_id =? LINUX_CTRL_GAMMA) | ];
    match goal with
    | |- context [(ctrl_val >=? ?a) && (ctrl_val <=? ?b)] =>
        destruct ((ctrl_val >=? a) && (ctrl_val <=? b))
    end;
    eexists; (split; [ reflexivity | ]); (split; [ reflexivity | ]);
    cbn; auto.
Qed.

Lemma getCameraControlSettings_runs (K : Kernel) (ctrl_id : Z) (s : St) :
  exists r s1,
    getCameraControlSettings K ctrl_id s = Done r s1
    /\ vc s1 = vc s
    /\ control_writes (trace (world s1)) = control_writes (trace (world s))
    /\ (ret (range_answer K s ctrl_id) <> 0 ->
        r = -1 /\ s1 = after_query K s ctrl_id)
    /\ (ret (range_answer K s ctrl_id) = 0 ->
        ret (k_ioctl K (trace (world (after_query K s ctrl_id)))
               (mFileDesc (vc s)) (VIDIOC_G_CTRL (wrap_u32 ctrl_id))) <> 0 ->
        r = -1).
Proof.
  unfold getCameraControlSettings, mbind, get_vc, ioctl, mret.
  cbn [fst snd vc world]. fold (range_answer K s ctrl_id).
  rewrite (Z.eqb_sym 0).
  destruct (Z.eqb_spec (ret (range_answer K s ctrl_id)) 0) as [E | E];
    cbn [negb].
  - match goal with
    | |- context [if ?c =? 0 then _ else _] => destruct (Z.eqb_spec c 0)
    end; eexists; eexists; (split; [ reflexivity | ]);
      (split; [ reflexivity | ]); (split; [ reflexivity | ]);
      (split; [ intros; contradiction | ]); intros _ Hg;
      [ contradiction Hg | reflexivity ].
  - eexists; eexists. split; [ reflexivity | ]. split; [ reflexivity | ].
    split; [ reflexivity | ]. split; [ | intros; contradiction ].
    intros _. split; reflexivity.
Qed.

(** X12. Reading a control changes nothing: [getCameraControlSettings] always
    returns, leaves the object alone and writes no control.  It answers -1
    when the range query fails, without asking for the value, and when the
    value query fails. *)
Theorem getCameraControlSettings_read_only
    (K : Kernel) (ctrl_id : Z) (s : St) :
  exists r s1,
    getCameraControlSettings K ctrl_id s = Done r s1
    /\ vc s1 = vc s
    /\ control_writes (trace (world s1)) = control_writes (trace (world s))
    /\ (ret (range_answer K s ctrl_id) <> 0 ->
        r = -1 /\ s1 = after_query K s ctrl_id)
    /\ (ret (range_answer K s ctrl_id) = 0 ->
        ret (k_ioctl K (trace (world (after_query K s ctrl_id)))
               (mFileDesc (vc s)) (VIDIOC_G_CTRL (wrap_u32 ctrl_id))) <> 0 ->
        r = -1).
Proof. apply getCameraControlSettings_runs. Qed.

(** X13. A value inside the range it is checked against is written to the
    device: one write of that value to that control is added. *)
Theorem setCameraControlSettings_writes_in_range
    (K : Kernel) (ctrl_id ctrl_val : Z) (s : St) :
  fst (effective_range ctrl_id (range_answer K s ctrl_id)) <= ctrl_val
    <= snd (effective_range ctrl_id (range_answer K s ctrl_id)) ->
  exists s1,
    setCameraControlSettings K ctrl_id ctrl_val s = Done tt s1
    /\ vc s1 = vc s
    /\ control_writes (trace (world s1))
       = (wrap_u32 ctrl_id, ctrl_val) :: control_writes (trace (world s)).
Proof.
  intros H.
  destruct (setCameraControlSettings_cases K ctrl_id ctrl_val s)
    as (s1 & Hrun & Hvc & _).
  exists s1. split; [ exact Hrun | ]. split; [ exact Hvc | ].
  pose proof (setCameraControlSettings_in_range K ctrl_id ctrl_val s H) as Hw.
  rewrite Hrun in Hw. exact Hw.
Qed.

Lemma setCameraControlSettings_writes_in_range_witness :
  (fst (effective_range LINUX_CTRL_BRIGHTNESS
          (range_answer wide_range ready LINUX_CTRL_BRIGHTNESS)) <= 4
   <= snd (effective_range LINUX_CTRL_BRIGHTNESS
             (range_answer wide_range ready LINUX_CTRL_BRIGHTNESS)))
  /\ exists s1,
       setCameraControlSettings wide_range LINUX_CTRL_BRIGHTNESS 4 ready
       = Done tt s1
       /\ vc s1 = vc ready
       /\ control_writes (trace (world s1))
          = (wrap_u32 LINUX_CTRL_BRIGHTNESS, 4)
            :: control_writes (trace (world ready)).
Proof.
  split; [ vm_compute; split; discriminate | ].
  apply (setCameraControlSettings_writes_in_range wide_range
           LINUX_CTRL_BRIGHTNESS 4 ready).
  vm_compute; split; discriminate.
Defined.

(** ** White balance *)


(** X15. Resetting the white balance switches the automatic mode back on and
    writes nothing else: the only write it can make is 1 to the automatic
    mode, never a value to the white-balance control itself. *)
Theorem resetWhiteBalanceSetting_enables_auto (K : Kernel) (s : St) :
  exists s1,
    resetWhiteBalanceSetting K s = Done tt s1
    /\ vc s1 = vc s
    /\ (control_writes (trace (world s1)) = control_writes (trace (world s))
        \/ control_writes (trace (world s1))
           = (LINUX_CTRL_AWB_AUTO, 1) :: control_writes (trace (world s))).
Proof.
  unfold resetWhiteBalanceSetting, resetAutoWhiteBalanceSetting,
    setAutoWhiteBalanceSetting.
  apply (setCameraControlSettings_cases K LINUX_CTRL_AWB_AUTO 1 s).
Qed.

(** ** Opening and scanning *)

Lemma grows_refl (w : World) : grows w w.
Proof.
  split; [ exists []; split; [ reflexivity | constructor ] | apply incl_refl ].
Qed.

Lemma grows_trans (w1 w2 w3 : World) :
  grows w1 w2 -> grows w2 w3 -> grows w1 w3.
Proof.
  intros [(t1 & H1 & F1) L1] [(t2 & H2 & F2) L2]. split.
  - exists (t2 ++ t1). rewrite H2, H1, app_assoc. split; [ reflexivity | ].
    apply Forall_app. split; assumption.
  - eapply incl_tran; eassumption.
Qed.

Lemma grows_log (e : Event) (w : World) :
  is_release e = false -> grows w (log_event e w).
Proof.
  intros He. split; [ | apply incl_refl ].
  exists [e]. split; [ reflexivity | ]. constructor; [ exact He | constructor ].
Qed.

Lemma grows_map (e : Event) (x : Z * Z) (w : World) :
  is_release e = false -> grows w (set_live (x :: live w) (log_event e w)).
Proof.
  intros He. split.
  - exists [e]. split; [ reflexivity | ].
    constructor; [ exact He | constructor ].
  - cbn. intros y Hy. right. exact Hy.
Qed.

Lemma xioctl_grows (K : Kernel) (fd : Z) (req : Request) (s : St) :
  exists r s1,
    xioctl K fd req s = Done r s1
    /\ vc s1 = vc s
    /\ grows (world s) (world s1).
Proof.
  destruct (xioctl_loop_runs K fd req IOCTL_RETRY s) as (n & _ & Hrun & _).
  unfold xioctl. rewrite Hrun. eexists; eexists.
  split; [ reflexivity | ]. cbn. split; [ reflexivity | ].
  split; [ | apply incl_refl ].
  exists (repeat (EvIoctl fd req) n). cbn. split; [ reflexivity | ].
  apply Forall_forall. intros e He. apply repeat_spec in He. subst e.
  reflexivity.
Qed.

Ltac run_xioctl_g :=
  match goal with
  | |- context [xioctl ?K ?fd ?req ?s] =>
      let r := fresh "r" in
      let s1 := fresh "s" in
      let Hrun := fresh "Hrun" in
      let Hvc := fresh "Hvc" in
      let Hg := fresh "Hg" in
      destruct (xioctl_grows K fd req s) as (r & s1 & Hrun & Hvc & Hg);
      rewrite Hrun; clear Hrun; simp_st
  end.

Ltac chain :=
  solve [ repeat first [ apply grows_refl
                       | eassumption
                       | eapply grows_trans; [ | eassumption ] ] ].

(** What the buffer loop leaves alone, and that it only adds. *)
Lemma map_buffers_grows (K : Kernel) :
  forall n i s,
  exists ok s1,
    map_buffers K n i s = Done ok s1
    /\ mInitialized (vc s1) = mInitialized (vc s)
    /\ mDevId (vc s1) = mDevId (vc s)
    /\ mVerbose (vc s1) = mVerbose (vc s)
    /\ grows (world s) (world s1).
Proof.
  induction n as [| n IH]; intros i s.
  - cbn. run_prims. eexists; eexists. split; [ reflexivity | ]. simp_st.
    repeat split; try reflexivity; apply grows_refl.
  - cbn [map_buffers]. run_prims. simp_st. run_xioctl_g.
    destruct (-1 =? fst r).
    + eexists; eexists. split; [ reflexivity | ]. rewrite Hvc. simp_st.
      repeat split; try reflexivity; apply Hg.
    + destruct (querybuf_fields (snd r)) as [len off]. simp_st.
      match goal with
      | |- context [map_buffers K n (i + 1) ?st] =>
          destruct (IH (i + 1) st) as (ok & s1 & Hrun & Hi & Hd & Hv & Hg1)
      end.
      rewrite Hrun. exists ok, s1. split; [ reflexivity | ].
      simp_st. rewrite Hvc in *. simp_st.
      split; [ exact Hi | ]. split; [ exact Hd | ]. split; [ exact Hv | ].
      eapply grows_trans; [ exact Hg | ].
      eapply grows_trans; [ | exact Hg1 ].
      match goal with
      | |- grows _ (if ?c then _ else _) => destruct c
      end.
      * apply grows_log. reflexivity.
      * apply grows_map. reflexivity.
Qed.

Ltac out_step :=
  simp_st; cbv beta iota;
  lazymatch goal with
  | |- (if ?c then _ else _) _ = _ -> _ =>
      let E := fresh "E" in destruct c eqn:E
  | |- (if ?c then _ else _) = _ -> _ =>
      let E := fresh "E" in destruct c eqn:E
  | |- (match ?p with (_, _) => _ end) _ = _ -> _ =>
      let E := fresh "E" in destruct p eqn:E
  | |- (match ?p with (_, _) => _ end) = _ -> _ =>
      let E := fresh "E" in destruct p eqn:E
  | |- context [xioctl _ _ _ _] => run_xioctl_g
  | |- context [map_buffers ?K ?n ?i ?st] =>
      let ok := fresh "ok" in
      let s1 := fresh "s" in
      let Hrun := fresh "Hrun" in
      let Hi := fresh "Hi" in
      let Hd := fresh "Hd" in
      let Hv := fresh "Hv" in
      let Hg := fresh "Hg" in
      destruct (map_buffers_grows K n i st) as (ok & s1 & Hrun & Hi & Hd & Hv & Hg);
      rewrite Hrun; clear Hrun
  end.

Lemma openCamera_outcome (K : Kernel) (devId : Z) (s : St) :
  forall o,
  openCamera K devId s = o ->
  mInitialized (vc (final o)) = mInitialized (vc s)
  /\ mDevId (vc (final o)) = devId
  /\ mVerbose (vc (final o)) = mVerbose (vc s)
  /\ (((supported (k_camera_model K devId) = false
        \/ (mVerbose (vc s) = true
            /\ (fst (k_stat K devId) = -1 \/ snd (k_stat K devId) = false)))
       /\ o = Done false
                (mkSt (set_device devId (k_camera_model K devId) (vc s))
                      (world s)))
      \/ (supported (k_camera_model K devId) = true
          /\ (mVerbose (vc s) = false
              \/ (fst (k_stat K devId) <> -1 /\ snd (k_stat K devId) = true))
          /\ grows (log_event (EvOpen devId) (world s)) (world (final o)))).
Proof.
  intros o. unfold openCamera. run_prims. simp_st.
  destruct (k_camera_model K devId) eqn:Em;
    try (intros <-; simp_st; repeat split; left; split;
         [ left; reflexivity | reflexivity ]).
  all: repeat out_step.
  all: intros <-; cbn [final]; simp_st.
  all: try rewrite Hi; try rewrite Hd; try rewrite Hv; simp_st.
  all: repeat match goal with
              | H : vc _ = _ |- _ => rewrite H; clear H; simp_st
              end.
  all: split; [ reflexivity | ]; split; [ reflexivity | ];
    split; [ reflexivity | ].
  all: try (left; split; [ right | reflexivity ];
            apply andb_true_iff in E; destruct E as [E1 E2];
            split; [ exact E2 | ];
            first [ left; apply Z.eqb_eq in E1; lia
                  | right; apply negb_true_iff in E1; exact E1 ]).
  all: try (left; split; [ right | reflexivity ];
            apply andb_true_iff in E0; destruct E0 as [E1 E2];
            split; [ exact E2 | ];
            right; apply negb_true_iff in E1; exact E1).
  all: right; split; [ reflexivity | ].
  all: split;
    [ destruct (mVerbose (vc s)); [ right | left; reflexivity ];
      rewrite andb_true_r in E, E0;
      apply Z.eqb_neq in E; apply negb_false_iff in E0;
      split; [ lia | exact E0 ]
    | ].
  all: chain.
Qed.

Lemma openCamera_rejects_model (K : Kernel) (devId : Z) (s : St) :
  supported (k_camera_model K devId) = false ->
  openCamera K devId s
  = Done false
      (mkSt (set_device devId (k_camera_model K devId) (vc s)) (world s)).
Proof.
  intros Hu.
  destruct (openCamera_outcome K devId s _ eq_refl)
    as (_ & _ & _ & [[_ H] | [H _]]).
  - exact H.
  - congruence.
Qed.

(** X16. A device that is not one of the three supported models is turned down
    before any system call: [openCamera] returns false, the world is as it
    was, and only the device id and the model tag of the object changed. *)
Theorem openCamera_rejects_unsupported (K : Kernel) (devId : Z) (s : St) :
  supported (k_camera_model K devId) = false ->
  openCamera K devId s
  = Done false
      (mkSt (set_device devId (k_camera_model K devId) (vc s)) (world s)).
Proof.
  exact (openCamera_rejects_model K devId s).
Qed.

Lemma openCamera_rejects_unsupported_witness :
  supported (k_camera_model (always success) 7) = false
  /\ openCamera (always success) 7 constructed
     = Done false
         (mkSt (set_device 7 NONE (vc constructed)) (world constructed)).
Proof.
  split; [ reflexivity | ].
  apply (openCamera_rejects_unsupported (always success) 7 constructed).
  reflexivity.
Defined.

(** X17. The check of the device node depends on verbosity.  On a supported
    model, a verbose object gives up without opening when stat fails or the
    node is not a character device; an object that is not verbose goes on to
    open the node whatever stat said. *)
Theorem openCamera_node_check_needs_verbose
    (K : Kernel) (devId : Z) (s : St) :
  supported (k_camera_model K devId) = true ->
  (mVerbose (vc s) = true ->
   fst (k_stat K devId) = -1 \/ snd (k_stat K devId) = false ->
   openCamera K devId s
   = Done false
       (mkSt (set_device devId (k_camera_model K devId) (vc s)) (world s)))
  /\ (mVerbose (vc s) = false ->
      exists t,
        trace (world (final (openCamera K devId s)))
        = t ++ EvOpen devId :: trace (world s)).
Proof.
  intros Hs.
  destruct (openCamera_outcome K devId s _ eq_refl)
    as (_ & _ & _ & [[[Hu | [Hv Hst]] H] | (_ & Hok & Hg)]).
  - congruence.
  - split; [ intros _ _; exact H | congruence ].
  - split.
    + intros Hv Hst. destruct Hok as [Hq | [H1 H2]]; [ congruence | ].
      destruct Hst; congruence.
    + intros _. destruct Hg as [(t & Ht & _) _]. exists t. exact Ht.
Qed.

Lemma openCamera_node_check_needs_verbose_witness :
  supported (k_camera_model readback_fails 0) = true
  /\ mVerbose (vc (boot false)) = false
  /\ exists t,
       trace (world (final (openCamera readback_fails 0 (boot false))))
       = t ++ EvOpen 0 :: trace (world (boot false)).
Proof.
  split; [ reflexivity | ]. split; [ reflexivity | ].
  apply (openCamera_node_check_needs_verbose readback_fails 0 (boot false)
           eq_refl).
  reflexivity.
Defined.

(** X18. [openCamera] gives nothing back: whatever its outcome, it has closed no
    descriptor and unmapped no buffer, and every mapping that was there is
    still there.  What a failed attempt has opened or mapped stays. *)
Theorem openCamera_never_releases (K : Kernel) (devId : Z) (s : St) :
  exists t,
    trace (world (final (openCamera K devId s))) = t ++ trace (world s)
    /\ Forall (fun e => is_release e = false) t
    /\ incl (live (world s)) (live (world (final (openCamera K devId s)))).
Proof.
  assert (Hg : grows (world s) (world (final (openCamera K devId s)))).
  { destruct (openCamera_outcome K devId s _ eq_refl)
      as (_ & _ & _ & [[_ H] | (_ & _ & Hg)]).
    - rewrite H. cbn. apply grows_refl.
    - eapply grows_trans; [ | exact Hg ].
      apply (grows_log (EvOpen devId)). reflexivity. }
  destruct Hg as [(t & Ht & Hf) Hl]. exists t. auto.
Qed.

Lemma open_first_outcome (K : Kernel) :
  forall n id s o,
    open_first K n id s = o ->
    mInitialized (vc (final o)) = mInitialized (vc s)
    /\ grows (world s) (world (final o)).
Proof.
  induction n as [| n IH]; intros id s o <-.
  - cbn. split; [ reflexivity | apply grows_refl ].
  - cbn [open_first]. unfold mbind.
    destruct (openCamera_outcome K id s _ eq_refl)
      as (Hi & _ & _ & Hcase).
    assert (Hg : grows (world s) (world (final (openCamera K id s)))).
    { destruct Hcase as [[_ H] | (_ & _ & Hg)].
      - rewrite H. cbn. apply grows_refl.
      - eapply grows_trans; [ | exact Hg ].
        apply (grows_log (EvOpen id)). reflexivity. }
    destruct (openCamera K id s) as [[|] s1 | s1]; cbn [final] in *.
    + unfold mret. cbn [final]. split; assumption.
    + destruct (IH (id + 1) s1 _ eq_refl) as [Hi1 Hg1].
      split; [ congruence | eapply grows_trans; eassumption ].
    + split; assumption.
Qed.

Lemma open_first_unsupported (K : Kernel) :
  forall n id s,
    (forall j, id <= j < id + Z.of_nat n ->
               supported (k_camera_model K j) = false) ->
    exists s1,
      open_first K n id s = Done false s1
      /\ world s1 = world s
      /\ mInitialized (vc s1) = mInitialized (vc s)
      /\ (n <> O -> mDevId (vc s1) = id + Z.of_nat n - 1).
Proof.
  induction n as [| n IH]; intros id s Hu.
  - exists s. cbn. repeat split. congruence.
  - cbn [open_first]. unfold mbind at 1.
    rewrite (openCamera_rejects_model K id s) by (apply Hu; lia).
    cbv beta iota.
    destruct (IH (id + 1)
                (mkSt (set_device id (k_camera_model K id) (vc s)) (world s)))
      as (s1 & Hrun & Hw & Hi & Hd).
    { intros j Hj. apply Hu. lia. }
    exists s1. split; [ exact Hrun | ]. split; [ exact Hw | ].
    split; [ exact Hi | ]. intros _.
    destruct n as [| n].
    + cbn in Hrun. injection Hrun as <-. cbn. lia.
    + rewrite Hd by congruence. lia.
Qed.

(** X19. A scan ([init] with device id -1) over a machine where none of the
    device ids 0..63 is a supported camera tries all sixty-four, makes no
    system call beyond those of [reset], and returns false on an object that
    is not initialized and whose device id is the last one tried, 63. *)
Theorem init_scan_finds_nothing (K : Kernel) (s : St) :
  (forall id, 0 <= id < 64 -> supported (k_camera_model K id) = false) ->
  exists s1,
    init K (-1) s = Done false s1
    /\ world s1 = world (final (reset K s))
    /\ mInitialized (vc s1) = false
    /\ mDevId (vc s1) = 63.
Proof.
  intros Hu.
  destruct (reset_runs K s) as (s0 & Hr & Hi0 & _).
  destruct (open_first_unsupported K 64 0 s0) as (s1 & Hrun & Hw & Hi & Hd).
  { intros j Hj. apply Hu. lia. }
  exists s1. unfold init. unfold mbind. rewrite Hr. cbv beta iota.
  rewrite Z.eqb_refl, Hrun. cbn [negb final world]. unfold mret.
  split; [ reflexivity | ]. split; [ exact Hw | ].
  split; [ congruence | ]. rewrite Hd by discriminate. reflexivity.
Qed.

Lemma init_scan_finds_nothing_witness :
  exists s1,
    init (always success) (-1) constructed = Done false s1
    /\ world s1 = world (final (reset (always success) constructed))
    /\ mInitialized (vc s1) = false
    /\ mDevId (vc s1) = 63.
Proof.
  apply (init_scan_finds_nothing (always success) constructed).
  intros id _. reflexivity.
Defined.

(** X20. What [init] returns is what it leaves in [mInitialized]: true exactly
    when the object counts as initialized afterwards, whichever device id was
    asked for and whatever the kernel answered. *)
Theorem init_returns_mInitialized
    (K : Kernel) (devId : Z) (s s1 : St) (b : bool) :
  init K devId s = Done b s1 -> mInitialized (vc s1) = b.
Proof.
  unfold init. unfold mbind at 1.
  destruct (reset_runs K s) as (s0 & Hr & Hi0 & _). rewrite Hr.
  cbv beta iota. unfold mbind at 1.
  assert (Ho : forall o,
             (if devId =? -1 then open_first K 64 0
              else openCamera K (wrap_u8 devId)) s0 = o ->
             mInitialized (vc (final o)) = false).
  { intros o <-. destruct (devId =? -1).
    - destruct (open_first_outcome K 64 0 s0 _ eq_refl) as [H _]. congruence.
    - destruct (openCamera_outcome K (wrap_u8 devId) s0 _ eq_refl)
        as (H & _). congruence. }
  specialize (Ho _ eq_refl).
  destruct ((if devId =? -1 then open_first K 64 0
             else openCamera K (wrap_u8 devId)) s0) as [[|] s2 | s2];
    cbn [final negb] in *.
  - unfold mbind at 1.
    destruct (startCapture_frame K s2) as (ok & s3 & Hs & _). rewrite Hs.
    cbv beta iota. unfold mbind at 1. unfold upd_vc at 1. cbv beta iota.
    unfold mbind at 1.
    destruct (setLEDValue_frame K true
                (mkSt (set_mInitialized ok (vc s3)) (world s3)))
      as (r & s4 & Hl & Hv & _).
    rewrite Hl. cbv beta iota. unfold mret. intros [= <- <-].
    rewrite Hv. reflexivity.
  - unfold mret. intros [= <- <-]. exact Ho.
  - discriminate.
Qed.

Lemma init_returns_mInitialized_witness :
  init long_lines 0 constructed = Done true streaming
  /\ mInitialized (vc streaming) = true.
Proof.
  assert (H : init long_lines 0 constructed = Done true streaming)
    by (vm_compute; reflexivity).
  split; [ exact H | ].
  exact (init_returns_mInitialized long_lines 0 constructed streaming true H).
Defined.

(** ** Closing down *)

Lemma filter_release_none (t : list Event) :
  Forall (fun e => is_release e = false) t -> filter is_release t = [].
Proof.
  induction 1 as [| e t He _ IH]; cbn; [ reflexivity | ].
  rewrite He. exact IH.
Qed.

Lemma VendorControl_trace
    (K : Kernel) (buf : list Z) (len readMode : Z) (safe : bool) (s : St) :
  exists r s1 t,
    linux_cbs_VendorControl K buf len readMode safe s = Done r s1
    /\ vc s1 = vc s
    /\ live (world s1) = live (world s)
    /\ trace (world s1) = t ++ trace (world s)
    /\ Forall (fun e => is_release e = false) t.
Proof.
  unfold linux_cbs_VendorControl.
  unfold mbind, get_vc, ioctl, usleep, upd_world, mret. cbn.
  repeat step_if; eexists; eexists; eexists;
    (split; [ reflexivity | split; [ reflexivity | split; [ reflexivity | ] ] ]);
    cbn.
  all: first
    [ split; [ exact (eq_refl : _ = [] ++ _) | constructor ]
    | split; [ exact (eq_refl : _ = [_] ++ _) | repeat constructor ]
    | split; [ exact (eq_refl : _ = [_; _] ++ _) | repeat constructor ]
    | split; [ exact (eq_refl : _ = [_; _; _] ++ _) | repeat constructor ]
    | split; [ exact (eq_refl : _ = [_; _; _; _] ++ _) | repeat constructor ] ].
Qed.

Lemma setLEDValue_trace (K : Kernel) (display : bool) (s : St) :
  exists r s1 t,
    setLEDValue K display s = Done r s1
    /\ vc s1 = vc s
    /\ live (world s1) = live (world s)
    /\ trace (world s1) = t ++ trace (world s)
    /\ Forall (fun e => is_release e = false) t.
Proof.
  unfold setLEDValue, linux_cbs_set_gpio_direction, linux_cbs_set_gpio_value.
  destruct display; unfold mbind, mret; cbv beta.
  all: match goal with
       | |- context [linux_cbs_VendorControl ?K' ?b ?l ?m ?f ?st] =>
           destruct (VendorControl_trace K' b l m f st)
             as (r1 & s1 & t1 & H1 & V1 & L1 & T1 & F1)
       end.
  all: rewrite H1; cbv beta iota.
  all: match goal with
       | |- context [linux_cbs_VendorControl ?K' ?b ?l ?m ?f ?st] =>
           destruct (VendorControl_trace K' b l m f st)
             as (r2 & s2 & t2 & H2 & V2 & L2 & T2 & F2)
       end.
  all: rewrite H2; cbv beta iota.
  all: eexists; eexists; exists (t2 ++ t1); split; [ reflexivity | ].
  all: split; [ congruence | ]; split; [ congruence | ].
  all: split; [ rewrite T2, T1, app_assoc; reflexivity
              | apply Forall_app; split; assumption ].
Qed.

Lemma xioctl_trace (K : Kernel) (fd : Z) (req : Request) (s : St) :
  exists r s1 n,
    xioctl K fd req s = Done r s1
    /\ vc s1 = vc s
    /\ live (world s1) = live (world s)
    /\ (n <= IOCTL_RETRY)%nat
    /\ trace (world s1) = repeat (EvIoctl fd req) (S n) ++ trace (world s).
Proof.
  destruct (xioctl_loop_runs K fd req IOCTL_RETRY s) as (n & Hn & Hrun & _).
  unfold xioctl. rewrite Hrun. destruct n as [| n]; [ lia | ].
  eexists; eexists; exists n.
  split; [ reflexivity | ]. cbn [vc world live trace].
  repeat split. lia.
Qed.

Lemma munmap_all_trace (bufs : list Buffer) :
  forall n i s s1,
    munmap_all bufs n i s = Done tt s1 ->
    trace (world s1) = rev (unmap_calls bufs n i) ++ trace (world s).
Proof.
  induction n as [| n IH]; intros i s s1.
  - cbn. unfold mret. intros [= <-]. reflexivity.
  - cbn [munmap_all unmap_calls rev]. run_prims. intros H.
    apply IH in H. rewrite H. simp_st. rewrite <- app_assoc. reflexivity.
Qed.

Lemma unmap_calls_release (bufs : list Buffer) :
  forall n i,
    filter is_release (rev (unmap_calls bufs n i))
    = rev (unmap_calls bufs n i).
Proof.
  induction n as [| n IH]; intros i; cbn [unmap_calls rev];
    [ reflexivity | ].
  rewrite filter_app, IH. reflexivity.
Qed.

(** What [reset] does, whole: the calls it makes, in order, and the object it
    leaves. *)
Lemma reset_outcome (K : Kernel) (s : St) :
  exists s1 t,
    reset K s = Done tt s1
    /\ trace (world s1)
       = (if mFileDesc (vc s) =? 0 then []
          else [EvClose (mFileDesc (vc s))])
         ++ match mInitialized (vc s), mBuffers (vc s) with
            | true, Some bufs =>
                rev (unmap_calls bufs (Z.to_nat (mBufCount (vc s))) 0)
            | _, _ => []
            end
         ++ t ++ trace (world s)
    /\ Forall (fun e => is_release e = false) t
    /\ vc s1
       = let v1 := set_mStopCapture true (vc s) in
         let v2 := if mGrabThread (vc s)
                   then set_mGrabThread false (set_mGrabRunning false v1)
                   else v1 in
         let v3 := match mInitialized (vc s), mBuffers (vc s) with
                   | true, Some _ => set_mBuffers None v2
                   | _, _ => v2
                   end in
         let v4 := if mFileDesc (vc s) =? 0 then v3
                   else set_mFileDesc (-1) v3 in
         set_mInitialized false
           (set_mLastFrame (set_frame_data None (mLastFrame v4)) v4).
Proof.
  unfold reset.
  destruct (setLEDValue_trace K false s) as (r0 & s0 & t0 & H0 & V0 & L0 & T0 & F0).
  unfold mbind at 1. rewrite H0. run_prims. simp_st. rewrite V0. simp_st.
  destruct (mGrabThread (vc s)); cbv beta iota; simp_st.
  all: destruct (negb (mFileDesc (vc s) =? -1)); cbv beta iota;
    [ match goal with
      | |- context [xioctl ?K' ?fd ?req ?st] =>
          destruct (xioctl_trace K' fd req st)
            as (r1 & s1 & n1 & H1 & V1 & L1 & _ & T1);
          rewrite H1; simp_st
      end | ].
  all: destruct (mInitialized (vc s)) eqn:EI;
    [ destruct (mBuffers (vc s)) as [bufs |] eqn:EB | ]; cbv beta iota.
  all: try match goal with
       | |- context [munmap_all ?b ?n ?i ?st] =>
           destruct (munmap_all_unmaps b n i st) as (s' & Hm & Vm & _);
           rewrite Hm; cbv beta iota; apply munmap_all_trace in Hm;
           simp_st
       end.
  all: destruct (mFileDesc (vc s) =? 0); cbn [negb]; cbv beta iota.
  all: eexists; first [ exists (repeat (EvIoctl (mFileDesc (vc s)) VIDIOC_STREAMOFF) (S n1) ++ t0)
                      | exists t0 ].
  all: (split; [ reflexivity | ]); simp_st.
  all: split;
    [ try rewrite Hm; try rewrite T1; simp_st; rewrite T0;
      rewrite <- ?app_assoc; reflexivity | ].
  all: split;
    [ try (apply Forall_app; split; [ | exact F0 ];
           apply Forall_forall; intros e He; apply repeat_spec in He;
           subst e; reflexivity);
      try exact F0 | ].
  all: try rewrite Vm; try rewrite V1; simp_st; rewrite ?V0; reflexivity.
Qed.

(** X21. [reset] gives back in a fixed order and nothing else: the buffers are
    unmapped, by rising index, only when the object is initialized and has
    buffers; then the descriptor is closed unless it is 0, so that -1 is
    passed to close as well; the descriptor left is -1, or 0 if it was 0. *)
Theorem reset_releases (K : Kernel) (s : St) :
  exists s1 t,
    reset K s = Done tt s1
    /\ trace (world s1) = t ++ trace (world s)
    /\ releases t
       = match mInitialized (vc s), mBuffers (vc s) with
         | true, Some bufs =>
             unmap_calls bufs (Z.to_nat (mBufCount (vc s))) 0
         | _, _ => []
         end
         ++ (if mFileDesc (vc s) =? 0 then []
             else [EvClose (mFileDesc (vc s))])
    /\ mFileDesc (vc s1) = (if mFileDesc (vc s) =? 0 then 0 else -1).
Proof.
  destruct (reset_outcome K s) as (s1 & t & Hrun & Htr & Hq & Hvc).
  exists s1. eexists. split; [ exact Hrun | ].
  split; [ rewrite Htr, !app_assoc; reflexivity | ].
  split.
  - unfold releases. rewrite !filter_app, (filter_release_none t Hq).
    rewrite app_nil_r, rev_app_distr.
    destruct (mInitialized (vc s)); [ destruct (mBuffers (vc s)) | ].
    + rewrite unmap_calls_release, rev_involutive.
      destruct (mFileDesc (vc s) =? 0); reflexivity.
    + destruct (mFileDesc (vc s) =? 0); reflexivity.
    + destruct (mFileDesc (vc s) =? 0); reflexivity.
  - rewrite Hvc. cbv zeta.
    destruct (mFileDesc (vc s) =? 0) eqn:E; simp_st.
    + destruct (mInitialized (vc s)); [ destruct (mBuffers (vc s)) | ];
        destruct (mGrabThread (vc s)); simp_st; apply Z.eqb_eq; exact E.
    + reflexivity.
Qed.

Lemma reset_fixed_point (K : Kernel) (s : St) :
  mStopCapture (vc s) = true ->
  mGrabThread (vc s) = false ->
  mInitialized (vc s) = false ->
  frame_data (mLastFrame (vc s)) = None ->
  mFileDesc (vc s) = -1 \/ mFileDesc (vc s) = 0 ->
  vc (final (reset K s)) = vc s.
Proof.
  intros Hs Hg Hi Hf Hd.
  destruct (reset_outcome K s) as (s1 & t & Hrun & _ & _ & Hvc).
  rewrite Hrun. cbn [final]. rewrite Hvc. cbv zeta. rewrite Hg, Hi.
  destruct (vc s) as [ve ini fd dev model w h c fps bc bufs ci lf nf sc gr gt
                      st it].
  cbn in *. subst. destruct lf as [fid ts fw fh fc fdat]. cbn in *. subst.
  destruct Hd as [-> | ->]; reflexivity.
Qed.

(** X22. A second [reset] changes nothing in the object and unmaps nothing: it
    only repeats the LED command and, where the first one closed the
    descriptor, calls close once more, on -1. *)
Theorem reset_idempotent (K : Kernel) (s : St) :
  exists s1 s2 t,
    reset K s = Done tt s1
    /\ reset K s1 = Done tt s2
    /\ vc s2 = vc s1
    /\ live (world s2) = live (world s1)
    /\ trace (world s2) = t ++ trace (world s1)
    /\ releases t
       = (if mFileDesc (vc s) =? 0 then [] else [EvClose (-1)]).
Proof.
  destruct (reset_outcome K s) as (s1 & t1 & Hrun1 & _ & _ & Hvc1).
  destruct (reset_outcome K s1) as (s2 & t2 & Hrun2 & Htr2 & Hq2 & _).
  assert (Hi : mInitialized (vc s1) = false) by (rewrite Hvc1; reflexivity).
  assert (Hfd : mFileDesc (vc s1) = (if mFileDesc (vc s) =? 0 then 0 else -1)).
  { rewrite Hvc1. cbv zeta.
    destruct (mFileDesc (vc s) =? 0) eqn:E; simp_st; [ | reflexivity ].
    destruct (mInitialized (vc s)); [ destruct (mBuffers (vc s)) | ];
      destruct (mGrabThread (vc s)); simp_st; apply Z.eqb_eq; exact E. }
  exists s1, s2. eexists. split; [ exact Hrun1 | ]. split; [ exact Hrun2 | ].
  split.
  - replace s2 with (final (reset K s1)) by (rewrite Hrun2; reflexivity).
    apply reset_fixed_point.
    + rewrite Hvc1. cbv zeta.
      destruct (mFileDesc (vc s) =? 0);
        (destruct (mInitialized (vc s)); [ destruct (mBuffers (vc s)) | ]);
        destruct (mGrabThread (vc s)); reflexivity.
    + rewrite Hvc1. cbv zeta.
      destruct (mFileDesc (vc s) =? 0);
        (destruct (mInitialized (vc s)); [ destruct (mBuffers (vc s)) | ]);
        destruct (mGrabThread (vc s)) eqn:G; simp_st;
        first [ reflexivity | exact G ].
    + exact Hi.
    + rewrite Hvc1. reflexivity.
    + rewrite Hfd. destruct (mFileDesc (vc s) =? 0); auto.
  - split.
    { destruct (reset_runs K s1) as (s2' & Hrun2' & _ & _ & _ & Hl & _).
      rewrite Hrun2 in Hrun2'. injection Hrun2' as <-.
      apply Hl. exact Hi. }
    split; [ rewrite Htr2, Hi, !app_assoc; reflexivity | ].
    unfold releases. cbn [app]. rewrite app_nil_r.
    rewrite filter_app, (filter_release_none t2 Hq2), app_nil_r, Hfd.
    destruct (mFileDesc (vc s) =? 0); reflexivity.
Qed.

(** ** Starting the stream *)

Lemma queue_all_trace (K : Kernel) :
  forall n i s,
  exists ok s1 t,
    queue_all K n i s = Done ok s1
    /\ vc s1 = vc s
    /\ live (world s1) = live (world s)
    /\ trace (world s1) = t ++ trace (world s)
    /\ Forall (fun e => is_release e = false) t
    /\ (ok = true ->
        forall j, i <= j < i + Z.of_nat n ->
                  In (EvIoctl (mFileDesc (vc s)) (VIDIOC_QBUF j)) t).
Proof.
  induction n as [| n IH]; intros i s; cbn [queue_all].
  - exists true, s, []. split; [ reflexivity | ]. split; [ reflexivity | ].
    split; [ reflexivity | ]. split; [ reflexivity | ].
    split; [ constructor | ]. intros _ j Hj. lia.
  - run_prims.
    destruct (xioctl_trace K (mFileDesc (vc s)) (VIDIOC_QBUF i) s)
      as (r & s0 & k & Hrun & Hvc & Hl & _ & Htr).
    rewrite Hrun. cbv beta iota.
    assert (Hq : Forall (fun e => is_release e = false)
                   (repeat (EvIoctl (mFileDesc (vc s)) (VIDIOC_QBUF i)) (S k))).
    { apply Forall_forall. intros e He. apply repeat_spec in He. subst e.
      reflexivity. }
    destruct (-1 =? fst r).
    + exists false, s0. eexists. split; [ reflexivity | ].
      split; [ exact Hvc | ]. split; [ exact Hl | ].
      split; [ exact Htr | ]. split; [ exact Hq | discriminate ].
    + destruct (IH (i + 1) s0) as (ok & s1 & t & Hrun1 & Hvc1 & Hl1 & Htr1 & Hq1 & Hin).
      exists ok, s1. eexists. split; [ exact Hrun1 | ].
      split; [ congruence | ]. split; [ congruence | ].
      split; [ rewrite Htr1, Htr, app_assoc; reflexivity | ].
      split; [ apply Forall_app; split; assumption | ].
      intros Hok j Hj. apply in_or_app.
      destruct (Z.eq_dec j i) as [-> | Hne].
      * right. left. reflexivity.
      * left. rewrite <- Hvc. apply Hin; [ exact Hok | lia ].
Qed.

Lemma startCapture_outcome (K : Kernel) (s : St) :
  exists ok s1 t,
    startCapture K s = Done ok s1
    /\ live (world s1) = live (world s)
    /\ trace (world s1) = t ++ trace (world s)
    /\ Forall (fun e => is_release e = false) t
    /\ (ok = false -> vc s1 = vc s)
    /\ (ok = true ->
        vc s1 = set_mGrabThread true (vc s)
        /\ hd_error t = Some (EvIoctl (mFileDesc (vc s)) VIDIOC_STREAMON)
        /\ forall j, 0 <= j < mBufCount (vc s) ->
                     In (EvIoctl (mFileDesc (vc s)) (VIDIOC_QBUF j)) t).
Proof.
  unfold startCapture. run_prims.
  destruct (queue_all_trace K (Z.to_nat (mBufCount (vc s))) 0 s)
    as (ok & s0 & t0 & Hrun & Hvc0 & Hl0 & Htr0 & Hq0 & Hin).
  rewrite Hrun. cbv beta iota.
  destruct ok; cbn [negb]; cbv beta iota.
  2:{ exists false, s0, t0. split; [ reflexivity | ].
      split; [ exact Hl0 | ]. split; [ exact Htr0 | ]. split; [ exact Hq0 | ].
      split; [ intros _; exact Hvc0 | discriminate ]. }
  destruct (xioctl_trace K (mFileDesc (vc s)) VIDIOC_G_PRIORITY s0)
    as (r1 & s1 & k1 & Hrun1 & Hvc1 & Hl1 & _ & Htr1).
  rewrite Hrun1. cbv beta iota.
  assert (Hrep : forall e n, is_release e = false ->
                   Forall (fun e => is_release e = false) (repeat e n)).
  { intros e n He. apply Forall_forall. intros x Hx.
    apply repeat_spec in Hx. subst x. exact He. }
  destruct (-1 =? fst r1).
  { exists false, s1. eexists. split; [ reflexivity | ].
    split; [ congruence | ].
    split; [ rewrite Htr1, Htr0, app_assoc; reflexivity | ].
    split; [ apply Forall_app; split; [ apply Hrep; reflexivity | exact Hq0 ] | ].
    split; [ intros _; congruence | discriminate ]. }
  destruct (xioctl_trace K (mFileDesc (vc s)) VIDIOC_STREAMON s1)
    as (r2 & s2 & k2 & Hrun2 & Hvc2 & Hl2 & _ & Htr2).
  rewrite Hrun2. cbv beta iota.
  destruct (-1 =? fst r2).
  { exists false, s2. eexists. split; [ reflexivity | ].
    split; [ congruence | ].
    split; [ rewrite Htr2, Htr1, Htr0, !app_assoc; reflexivity | ].
    split; [ repeat (apply Forall_app; split);
             first [ exact Hq0 | apply Hrep; reflexivity ] | ].
    split; [ intros _; congruence | discriminate ]. }
  exists true. eexists. eexists. split; [ reflexivity | ]. simp_st.
  split; [ congruence | ].
  split; [ rewrite Htr2, Htr1, Htr0, !app_assoc; reflexivity | ].
  split; [ repeat (apply Forall_app; split);
           first [ exact Hq0 | apply Hrep; reflexivity ] | ].
  split; [ discriminate | ]. intros _.
  split; [ congruence | ]. split; [ reflexivity | ].
  intros j Hj. apply in_or_app. right. apply Hin; [ reflexivity | lia ].
Qed.

(** X23. [startCapture] spawns the capture thread only on success, and success
    means that every buffer of the object was queued and that the call that
    turned streaming on was its last one.  When it returns false the object
    is as it was.  It never closes or unmaps anything. *)
Theorem startCapture_spawns_after_streamon (K : Kernel) (s : St) :
  exists ok s1 t,
    startCapture K s = Done ok s1
    /\ trace (world s1) = t ++ trace (world s)
    /\ releases t = []
    /\ (ok = false -> vc s1 = vc s)
    /\ (ok = true ->
        vc s1 = set_mGrabThread true (vc s)
        /\ hd_error t = Some (EvIoctl (mFileDesc (vc s)) VIDIOC_STREAMON)
        /\ forall j, 0 <= j < mBufCount (vc s) ->
                     In (EvIoctl (mFileDesc (vc s)) (VIDIOC_QBUF j)) t).
Proof.
  destruct (startCapture_outcome K s)
    as (ok & s1 & t & Hrun & _ & Htr & Hq & Hf & Ht).
  exists ok, s1, t. split; [ exact Hrun | ]. split; [ exact Htr | ].
  split; [ unfold releases; rewrite (filter_release_none t Hq); reflexivity | ].
  split; assumption.
Qed.

Lemma map_buffers_model (K : Kernel) :
  forall n i s,
    mCameraModel (vc (final (map_buffers K n i s))) = mCameraModel (vc s).
Proof.
  induction n as [| n IH]; intros i s.
  - reflexivity.
  - cbn [map_buffers]. run_prims. simp_st. run_xioctl.
    destruct (-1 =? fst r).
    + cbn [final]. rewrite Hvc. reflexivity.
    + destruct (querybuf_fields (snd r)) as [len off]. simp_st.
      rewrite IH. simp_st. rewrite Hvc. reflexivity.
Qed.

Lemma openCamera_model (K : Kernel) (devId : Z) (s s1 : St) (b : bool) :
  openCamera K devId s = Done b s1 ->
  mCameraModel (vc s1) = k_camera_model K devId.
Proof.
  unfold openCamera. run_prims. simp_st.
  destruct (k_camera_model K devId) eqn:Em;
    try (intros [= <- <-]; reflexivity).
  all: repeat first
    [ match goal with
      | |- context [map_buffers ?K' ?n ?i ?st] =>
          let Hm := fresh "Hm" in
          let o := fresh "o" in
          pose proof (map_buffers_model K' n i st) as Hm;
          destruct (map_buffers K' n i st) as [o ? | ?];
          cbn [final] in Hm
      end
    | out_step ].
  all: try discriminate.
  all: intros [= <- <-]; simp_st.
  all: try rewrite Hm; simp_st.
  all: repeat match goal with
              | H : vc _ = _ |- _ => rewrite H; clear H; simp_st
              end.
  all: reflexivity.
Qed.

(** X24. [init] on a given device id returns true only with the resolution the
    object asked for: width and height are those it had before the call, the
    device is the id cut to eight bits and one of the supported models, and
    the capture thread has been spawned. *)
Theorem init_explicit_success
    (K : Kernel) (devId : Z) (s s1 : St) :
  devId <> -1 ->
  init K devId s = Done true s1 ->
  mWidth (vc s1) = mWidth (vc s)
  /\ mHeight (vc s1) = mHeight (vc s)
  /\ mDevId (vc s1) = wrap_u8 devId
  /\ supported (mCameraModel (vc s1)) = true
  /\ mGrabThread (vc s1) = true
  /\ mInitialized (vc s1) = true.
Proof.
  intros Hd. unfold init. unfold mbind at 1.
  destruct (reset_outcome K s) as (s0 & t0 & Hr & _ & _ & Hvc0). rewrite Hr.
  cbv beta iota. apply Z.eqb_neq in Hd. rewrite Hd. unfold mbind at 1.
  assert (Hw0 : mWidth (vc s0) = mWidth (vc s)
                /\ mHeight (vc s0) = mHeight (vc s)).
  { rewrite Hvc0. cbv zeta.
    destruct (mFileDesc (vc s) =? 0);
      (destruct (mInitialized (vc s)); [ destruct (mBuffers (vc s)) | ]);
      destruct (mGrabThread (vc s)); split; reflexivity. }
  destruct (openCamera K (wrap_u8 devId) s0) as [[|] s2 | s2] eqn:Eo;
    cbn [negb]; cbv beta iota; [ | discriminate | discriminate ].
  destruct (openCamera_keeps_resolution K _ _ _ Eo) as [Hw Hh].
  destruct (openCamera_outcome K (wrap_u8 devId) s0 _ Eo)
    as (_ & Hid & _ & Hcase). cbn [final] in Hid, Hcase.
  assert (Hm : supported (mCameraModel (vc s2)) = true).
  { destruct Hcase as [[_ H] | (Hs & _)]; [ discriminate | ].
    rewrite (openCamera_model K _ _ _ _ Eo). exact Hs. }
  unfold mbind at 1.
  destruct (startCapture_outcome K s2)
    as (ok & s3 & t3 & Hs & _ & _ & _ & _ & Ht).
  rewrite Hs. cbv beta iota. unfold mbind at 1. unfold upd_vc at 1.
  cbv beta iota. unfold mbind at 1.
  destruct (setLEDValue_frame K true
              (mkSt (set_mInitialized ok (vc s3)) (world s3)))
    as (r & s4 & Hl & Hv & _).
  rewrite Hl. cbv beta iota. unfold mret. intros [= -> <-].
  destruct (Ht eq_refl) as (Hv3 & _).
  destruct Hw0 as [Hw0 Hh0].
  rewrite Hv. simp_st. rewrite Hv3. simp_st.
  split; [ congruence | ]. split; [ congruence | ]. split; [ exact Hid | ].
  split; [ exact Hm | ]. split; reflexivity.
Qed.

Lemma init_explicit_success_witness :
  mWidth (vc streaming) = mWidth (vc constructed)
  /\ mHeight (vc streaming) = mHeight (vc constructed)
  /\ mDevId (vc streaming) = wrap_u8 0
  /\ supported (mCameraModel (vc streaming)) = true
  /\ mGrabThread (vc streaming) = true
  /\ mInitialized (vc streaming) = true.
Proof.
  apply (init_explicit_success long_lines 0 constructed streaming).
  - discriminate.
  - vm_compute. reflexivity.
Defined.

(** ** The capture thread *)

Lemma grab_iteration_outcome
    (K : Kernel) (buf buf1 : v4l2_buffer) (s s1 : St) :
  grab_iteration K buf s = Done buf1 s1 ->
  let fd := mFileDesc (vc s) in
  let r := k_ioctl K (trace (world s)) fd VIDIOC_DQBUF in
  let d := dequeued buf (payload r) in
  exists t,
    trace (world s1) = t ++ EvIoctl fd VIDIOC_DQBUF :: trace (world s)
    /\ live (world s1) = live (world s)
    /\ index buf1 = index d
    /\ filter is_ioctl t
       = (if accepted (vc s) (ret r) d || negb (bytesused d =? length d)
          then [EvIoctl fd (VIDIOC_QBUF (index d))] else [])
    /\ Forall (fun e => is_release e = false) t
    /\ mGrabRunning (vc s1) = true
    /\ mStopCapture (vc s1) = mStopCapture (vc s)
    /\ ((copies t = 0%nat
         /\ frame_id (mLastFrame (vc s1)) = frame_id (mLastFrame (vc s))
         /\ mNewFrame (vc s1) = mNewFrame (vc s)
         /\ timestamp (mLastFrame (vc s1))
            = (if accepted (vc s) (ret r) d
               then wrap_u64 (mStartTs (vc s) + buffer_ts (vc s) d)
               else timestamp (mLastFrame (vc s))))
        \/ (copies t = 1%nat
            /\ accepted (vc s) (ret r) d = true
            /\ frame_id (mLastFrame (vc s1))
               = wrap_u64 (frame_id (mLastFrame (vc s)) + 1)
            /\ mNewFrame (vc s1) = true
            /\ timestamp (mLastFrame (vc s1)) = buffer_ts (vc s) d)).
Proof.
  unfold grab_iteration, accepted, buffer_ts. run_prims. unfold ioctl.
  simp_st. cbv zeta.
  set (a := k_ioctl K (trace (world s)) (mFileDesc (vc s)) VIDIOC_DQBUF).
  set (b := dequeued buf (payload a)) in *.
  destruct ((bytesused b =? length b) && (ret a =? 0)
            && (index b <? mBufCount (vc s))) eqn:Hacc; cbv beta iota.
  - destruct (mBuffers (vc s)) as [bufs |]; [ | discriminate ].
    destruct (frame_data (mLastFrame (vc s))) as [size |]; cbv beta iota;
      [ destruct (negb (mWidth (vc s) =? 0) && negb (mHeight (vc s) =? 0)
                  && negb (buf_start (buffer_at bufs (index b)) =? nullptr));
        cbv beta iota | ];
      simp_st; intros [= <- <-]; simp_st.
    + eexists. split; [ exact (eq_refl : _ = [_; _] ++ _) | ].
      split; [ reflexivity | ]. split; [ reflexivity | ].
      split; [ reflexivity | ]. split; [ repeat constructor | ].
      split; [ reflexivity | ]. split; [ reflexivity | ].
      right. repeat split; reflexivity.
    + eexists. split; [ exact (eq_refl : _ = [_] ++ _) | ].
      split; [ reflexivity | ]. split; [ reflexivity | ].
      split; [ reflexivity | ]. split; [ repeat constructor | ].
      split; [ reflexivity | ]. split; [ reflexivity | ].
      left. repeat split; reflexivity.
    + eexists. split; [ exact (eq_refl : _ = [_] ++ _) | ].
      split; [ reflexivity | ]. split; [ reflexivity | ].
      split; [ reflexivity | ]. split; [ repeat constructor | ].
      split; [ reflexivity | ]. split; [ reflexivity | ].
      left. repeat split; reflexivity.
  - destruct (negb (bytesused b =? length b)); cbv beta iota; simp_st;
      intros [= <- <-]; simp_st.
    + eexists. split; [ exact (eq_refl : _ = [_; _] ++ _) | ].
      split; [ reflexivity | ]. split; [ reflexivity | ].
      split; [ reflexivity | ]. split; [ repeat constructor | ].
      split; [ reflexivity | ]. split; [ reflexivity | ].
      left. repeat split; reflexivity.
    + eexists. split; [ exact (eq_refl : _ = [_] ++ _) | ].
      split; [ reflexivity | ]. split; [ reflexivity | ].
      split; [ reflexivity | ]. split; [ repeat constructor | ].
      split; [ reflexivity | ]. split; [ reflexivity | ].
      left. repeat split; reflexivity.
Qed.

Lemma copies_app (a b : list Event) :
  copies (a ++ b) = (copies a + copies b)%nat.
Proof.
  unfold copies. rewrite filter_app, length_app. reflexivity.
Qed.

(** X25. One turn of the capture loop delivers at most one frame, and delivery is
    all or nothing: either nothing is copied, the frame counter and the
    new-frame flag stay as they were, or the dequeue was accepted, exactly
    one copy is made, the counter advances by one (in 64 bits), the flag is
    raised, and the frame carries the time of the buffer counted from
    [mInitTs], to which [mStartTs] is not added. *)
Theorem grab_iteration_delivery
    (K : Kernel) (buf buf1 : v4l2_buffer) (s s1 : St) :
  grab_iteration K buf s = Done buf1 s1 ->
  let r := k_ioctl K (trace (world s)) (mFileDesc (vc s)) VIDIOC_DQBUF in
  let d := dequeued buf (payload r) in
  exists t,
    trace (world s1) = t ++ trace (world s)
    /\ ((copies t = 0%nat
         /\ frame_id (mLastFrame (vc s1)) = frame_id (mLastFrame (vc s))
         /\ mNewFrame (vc s1) = mNewFrame (vc s))
        \/ (copies t = 1%nat
            /\ accepted (vc s) (ret r) d = true
            /\ frame_id (mLastFrame (vc s1))
               = wrap_u64 (frame_id (mLastFrame (vc s)) + 1)
            /\ mNewFrame (vc s1) = true
            /\ timestamp (mLastFrame (vc s1)) = buffer_ts (vc s) d)).
Proof.
  intros H r d.
  destruct (grab_iteration_outcome K buf buf1 s s1 H)
    as (t & Htr & _ & _ & _ & _ & _ & _ & Hc).
  exists (t ++ [EvIoctl (mFileDesc (vc s)) VIDIOC_DQBUF]).
  split; [ rewrite Htr, <- app_assoc; reflexivity | ].
  rewrite copies_app. cbn [copies filter is_memcpy List.length].
  rewrite Nat.add_0_r.
  destruct Hc as [(Hc & Hf & Hn & _) | Hc]; [ left | right; exact Hc ].
  split; [ exact Hc | ]. split; assumption.
Qed.

Lemma grab_iteration_delivery_witness :
  exists buf1 s1,
    grab_iteration long_lines grab_buf capturing = Done buf1 s1
    /\ frame_id (mLastFrame (vc s1)) = 1
    /\ let r := k_ioctl long_lines (trace (world capturing))
                  (mFileDesc (vc capturing)) VIDIOC_DQBUF in
       let d := dequeued grab_buf (payload r) in
       exists t,
         trace (world s1) = t ++ trace (world capturing)
         /\ ((copies t = 0%nat
              /\ frame_id (mLastFrame (vc s1))
                 = frame_id (mLastFrame (vc capturing))
              /\ mNewFrame (vc s1) = mNewFrame (vc capturing))
             \/ (copies t = 1%nat
                 /\ accepted (vc capturing) (ret r) d = true
                 /\ frame_id (mLastFrame (vc s1))
                    = wrap_u64 (frame_id (mLastFrame (vc capturing)) + 1)
                 /\ mNewFrame (vc s1) = true
                 /\ timestamp (mLastFrame (vc s1))
                    = buffer_ts (vc capturing) d)).
Proof.
  destruct (grab_iteration long_lines grab_buf capturing)
    as [b1 s1 | s1] eqn:H; [ | vm_compute in H; discriminate ].
  exists b1, s1. split; [ reflexivity | ]. split.
  - pose proof H as H'. vm_compute in H'. injection H' as _ <-. reflexivity.
  - exact (grab_iteration_delivery long_lines grab_buf b1 capturing s1 H).
Defined.

(** X26. Every turn of the capture loop starts with one dequeue and makes at most
    one more request, which queues the index the dequeue handed over.  The
    buffer is given back when the dequeue was accepted or when bytesused and
    length differ; a rejected dequeue with equal bytesused and length is not
    given back.  No turn closes or unmaps anything. *)
Theorem grab_iteration_requeue
    (K : Kernel) (buf buf1 : v4l2_buffer) (s s1 : St) :
  grab_iteration K buf s = Done buf1 s1 ->
  let fd := mFileDesc (vc s) in
  let r := k_ioctl K (trace (world s)) fd VIDIOC_DQBUF in
  let d := dequeued buf (payload r) in
  exists t,
    trace (world s1) = t ++ EvIoctl fd VIDIOC_DQBUF :: trace (world s)
    /\ filter is_ioctl t
       = (if accepted (vc s) (ret r) d || negb (bytesused d =? length d)
          then [EvIoctl fd (VIDIOC_QBUF (index d))] else [])
    /\ releases t = []
    /\ index buf1 = index d.
Proof.
  intros H fd r d.
  destruct (grab_iteration_outcome K buf buf1 s s1 H)
    as (t & Htr & _ & Hi & Hq & Hrel & _).
  exists t. split; [ exact Htr | ]. split; [ exact Hq | ].
  split; [ | exact Hi ].
  unfold releases. rewrite (filter_release_none t Hrel). reflexivity.
Qed.

Lemma grab_iteration_requeue_witness :
  exists buf1 s1 t,
    grab_iteration long_lines grab_buf capturing = Done buf1 s1
    /\ trace (world s1)
       = t ++ EvIoctl 3 VIDIOC_DQBUF :: trace (world capturing)
    /\ filter is_ioctl t = [EvIoctl 3 (VIDIOC_QBUF 0)]
    /\ releases t = []
    /\ index buf1 = 0.
Proof.
  destruct (grab_iteration long_lines grab_buf capturing)
    as [b1 s1 | s1] eqn:H; [ | vm_compute in H; discriminate ].
  exists b1, s1.
  destruct (grab_iteration_requeue long_lines grab_buf b1 capturing s1 H)
    as (t & Htr & Hq & Hrel & Hi).
  exists t. split; [ reflexivity | ]. split; [ exact Htr | ].
  split; [ exact Hq | ]. split; [ exact Hrel | exact Hi ].
Defined.

Lemma grab_turns_outcome (K : Kernel) :
  forall n buf s buf1 s1,
    grab_turns K n buf s = Done buf1 s1 ->
    exists t,
      trace (world s1) = t ++ trace (world s)
      /\ Forall (fun e => is_release e = false) t
      /\ live (world s1) = live (world s)
      /\ (copies t <= n)%nat
      /\ wrap_u64 (frame_id (mLastFrame (vc s1)))
         = wrap_u64 (frame_id (mLastFrame (vc s)) + Z.of_nat (copies t))
      /\ (copies t = 0%nat ->
          frame_id (mLastFrame (vc s1)) = frame_id (mLastFrame (vc s))
          /\ mNewFrame (vc s1) = mNewFrame (vc s))
      /\ ((0 < copies t)%nat -> mNewFrame (vc s1) = true)
      /\ (n <> O -> mGrabRunning (vc s1) = true)
      /\ (n = O -> vc s1 = vc s).
Proof.
  induction n as [| n IH]; intros buf s buf1 s1.
  - cbn. unfold mret. intros [= <- <-]. exists [].
    split; [ reflexivity | ]. split; [ constructor | ].
    split; [ reflexivity | ]. split; [ cbn; lia | ].
    split; [ cbn; rewrite Z.add_0_r; reflexivity | ].
    split; [ intros _; split; reflexivity | ].
    split; [ cbn; lia | ]. split; [ congruence | reflexivity ].
  - cbn [grab_turns]. unfold mbind.
    destruct (grab_iteration K buf s) as [b0 s0 | s0] eqn:Hit;
      [ | discriminate ].
    intros Hrest.
    destruct (grab_iteration_outcome K buf b0 s s0 Hit)
      as (t1 & Htr1 & Hl1 & _ & _ & Hq1 & Hg1 & _ & Hc1).
    destruct (IH b0 s0 buf1 s1 Hrest)
      as (t2 & Htr2 & Hq2 & Hl2 & Hle & Hid & Hz & Hp & Hg2 & He).
    exists (t2 ++ t1 ++ [EvIoctl (mFileDesc (vc s)) VIDIOC_DQBUF]).
    split; [ rewrite Htr2, Htr1, <- !app_assoc; reflexivity | ].
    split; [ repeat (apply Forall_app; split); try assumption;
             repeat constructor | ].
    split; [ congruence | ].
    rewrite !copies_app. cbn [copies filter is_memcpy List.length].
    rewrite Nat.add_0_r.
    assert (Hgr : mGrabRunning (vc s1) = true).
    { destruct n as [| n]; [ rewrite (He eq_refl); exact Hg1 | ].
      apply Hg2. discriminate. }
    destruct Hc1 as [(Hc & Hf & Hn & _) | (Hc & _ & Hf & Hn & _)];
      rewrite Hc.
    + rewrite Nat.add_0_r. split; [ lia | ].
      split; [ rewrite Hid, Hf; reflexivity | ].
      split; [ intros H0; destruct (Hz H0); split; congruence | ].
      split; [ exact Hp | ]. split; [ intros _; exact Hgr | discriminate ].
    + split; [ lia | ]. split.
      * rewrite Hid, Hf. unfold wrap_u64.
        rewrite Zplus_mod_idemp_l. f_equal. lia.
      * split; [ lia | ]. split; [ | split; [ intros _; exact Hgr
                                             | discriminate ] ].
        intros _. destruct (copies t2) eqn:E2.
        -- destruct (Hz eq_refl) as [_ Hsame]. congruence.
        -- apply Hp. lia.
Qed.

(** X27. The capture thread as a whole.  On a negative descriptor it returns at
    once, having lowered the new-frame flag and the stop flag and made no
    system call.  Otherwise it waits once on the descriptor and runs its
    turns; when it ends it is no longer marked running, the frame counter
    has advanced by the number of copies made (in 64 bits), at most one per
    turn, and the new-frame flag is up exactly when a copy was made.
    Nothing is closed or unmapped. *)
Theorem grabThreadFunc_counts (K : Kernel) (turns : nat) (s s1 : St) :
  grabThreadFunc K turns s = Done tt s1 ->
  (mFileDesc (vc s) < 0 ->
   world s1 = world s
   /\ vc s1 = set_mStopCapture false (set_mNewFrame false (vc s)))
  /\ (0 <= mFileDesc (vc s) ->
      exists t,
        trace (world s1)
        = t ++ EvSelect (mFileDesc (vc s)) 2 :: trace (world s)
        /\ releases t = []
        /\ (copies t <= turns)%nat
        /\ mGrabRunning (vc s1) = false
        /\ (mNewFrame (vc s1) = true <-> (0 < copies t)%nat)
        /\ wrap_u64 (frame_id (mLastFrame (vc s1)))
           = wrap_u64 (frame_id (mLastFrame (vc s))
                       + Z.of_nat (copies t))).
Proof.
  unfold grabThreadFunc, grab_prelude. run_prims. simp_st.
  destruct (mFileDesc (vc s) <? 0) eqn:Efd; cbv beta iota.
  - intros [= <-]. apply Z.ltb_lt in Efd. split; [ | lia ].
    intros _. split; reflexivity.
  - apply Z.ltb_ge in Efd.
    match goal with
    | |- context [grab_turns K turns grab_buf ?st] =>
        destruct (grab_turns K turns grab_buf st) as [b1 s2 | s2] eqn:Hrun;
          [ | discriminate ]
    end.
    cbv beta iota. intros [= <-]. split; [ lia | ]. intros _.
    destruct (grab_turns_outcome K turns _ _ _ _ Hrun)
      as (t & Htr & Hq & _ & Hle & Hid & Hz & Hp & _).
    simp_st. exists t. split; [ exact Htr | ].
    split; [ unfold releases; rewrite (filter_release_none t Hq);
             reflexivity | ].
    split; [ exact Hle | ]. split; [ reflexivity | ].
    split; [ | exact Hid ].
    split.
    + intros Hn. destruct (copies t) eqn:Ec; [ | lia ].
      destruct (Hz eq_refl) as [_ Hsame]. congruence.
    + exact Hp.
Qed.

Lemma grabThreadFunc_counts_witness :
  exists s1,
    grabThreadFunc long_lines 2 streaming = Done tt s1
    /\ 0 <= mFileDesc (vc streaming)
    /\ exists t,
         trace (world s1)
         = t ++ EvSelect (mFileDesc (vc streaming)) 2
             :: trace (world streaming)
         /\ releases t = []
         /\ (copies t <= 2)%nat
         /\ mGrabRunning (vc s1) = false
         /\ (mNewFrame (vc s1) = true <-> (0 < copies t)%nat)
         /\ wrap_u64 (frame_id (mLastFrame (vc s1)))
            = wrap_u64 (frame_id (mLastFrame (vc streaming))
                        + Z.of_nat (copies t)).
Proof.
  destruct (grabThreadFunc long_lines 2 streaming) as [[] s1 | s1] eqn:H;
    [ | vm_compute in H; discriminate ].
  exists s1. split; [ reflexivity | ].
  assert (Hfd : 0 <= mFileDesc (vc streaming)) by (vm_compute; discriminate).
  split; [ exact Hfd | ].
  exact (proj2 (grabThreadFunc_counts long_lines 2 streaming s1 H) Hfd).
Defined.

(** ** A session from [init] to [reset] *)

Lemma map_buffers_owns (K : Kernel) :
  forall n i s bufs,
  mBuffers (vc s) = Some bufs ->
  0 <= i ->
  (Z.to_nat i + n <= List.length bufs)%nat ->
  exists ok s1 bufs1,
    map_buffers K n i s = Done ok s1
    /\ mBuffers (vc s1) = Some bufs1
    /\ List.length bufs1 = List.length bufs
    /\ (forall j, 0 <= j < i -> buffer_at bufs1 j = buffer_at bufs j)
    /\ forall a l, In (a, l) (live (world s1)) ->
         In (a, l) (live (world s))
         \/ exists j, i <= j < i + Z.of_nat n
                      /\ buf_start (buffer_at bufs1 j) = a.
Proof.
  induction n as [| n IH]; intros i s bufs Hbufs Hi Hfit.
  - cbn. run_prims. exists true. eexists. exists bufs.
    split; [ reflexivity | ]. simp_st.
    split; [ exact Hbufs | ]. split; [ reflexivity | ].
    split; [ reflexivity | ]. intros a l Hin. left. exact Hin.
  - cbn [map_buffers]. run_prims. simp_st. run_xioctl.
    destruct (-1 =? fst r).
    + exists false. eexists. exists bufs. split; [ reflexivity | ].
      rewrite Hvc. simp_st. split; [ exact Hbufs | ].
      split; [ reflexivity | ]. split; [ reflexivity | ].
      intros a l Hin. left. rewrite <- Hlive. exact Hin.
    + destruct (querybuf_fields (snd r)) as [len off] eqn:Eq. simp_st.
      match goal with
      | |- context [map_buffers K n (i + 1) ?st] =>
          destruct (IH (i + 1) st
                      (store_at (Z.to_nat i)
                         (mkBuffer (k_mmap K (trace (world s0))
                                      (mFileDesc (vc s)) len off) len) bufs))
            as (ok & s1 & bufs1 & Hrun & Hb1 & Hlen & Hold & Hown)
      end.
      { simp_st. rewrite Hvc. simp_st. rewrite Hbufs. reflexivity. }
      { lia. }
      { rewrite store_at_length. lia. }
      rewrite Hrun. exists ok, s1, bufs1. split; [ reflexivity | ].
      split; [ exact Hb1 | ].
      split; [ rewrite Hlen; apply store_at_length | ].
      split.
      * intros j Hj. rewrite Hold by lia. unfold buffer_at.
        apply store_at_other. lia.
      * intros a l Hin. destruct (Hown a l Hin) as [Hbefore | (j & Hj & Hs)].
        -- simp_st.
           destruct (k_mmap K (trace (world s0)) (mFileDesc (vc s)) len off
                     =? MAP_FAILED); simp_st.
           ++ left. rewrite <- Hlive. exact Hbefore.
           ++ destruct Hbefore as [Heq | Hbefore].
              ** right. exists i. split; [ lia | ].
                 rewrite Hold by lia. unfold buffer_at.
                 rewrite store_at_same by lia.
                 injection Heq as <- _. reflexivity.
              ** left. rewrite <- Hlive. exact Hbefore.
        -- right. exists j. split; [ lia | exact Hs ].
Qed.

Lemma openCamera_owns (K : Kernel) (devId : Z) (s s1 : St) :
  openCamera K devId s = Done true s1 ->
  exists bufs,
    mBuffers (vc s1) = Some bufs
    /\ mBufCount (vc s1) = Z.of_nat (List.length bufs)
    /\ forall a l, In (a, l) (live (world s1)) ->
         In (a, l) (live (world s))
         \/ exists b, In b bufs /\ buf_start b = a.
Proof.
  unfold openCamera. run_prims. simp_st.
  destruct (k_camera_model K devId); try discriminate.
  all: repeat head_step.
  all: pose proof (granted_count_nonneg (mBufCount (vc s)) (snd r3)) as Hg.
  all: match goal with
       | |- context [map_buffers ?K ?n ?i ?st] =>
           destruct (map_buffers_owns K n i st _ eq_refl ltac:(lia))
             as (ok & s' & bufs1 & Hrun & Hb & Hlen & _ & Hown);
           [ rewrite repeat_length; cbn; lia | ];
           rewrite Hrun; clear Hrun
       end.
  all: destruct ok; cbn [negb]; cbv beta iota; [ | discriminate ].
  all: intros Hdone; injection Hdone as <-.
  all: simp_st.
  all: rewrite repeat_length in Hlen.
  all: exists bufs1; split; [ exact Hb | ].
  all: split; [ rewrite Hlen; lia | ].
  all: intros a l Hin; destruct (Hown a l Hin) as [Hbefore | (j & Hj & Hs)];
    [ left; congruence | right ].
  all: exists (buffer_at bufs1 j); split; [ | exact Hs ].
  all: unfold buffer_at; apply nth_In; lia.
Qed.

(** X28. A session opened on a given device id gives back all it mapped: when
    [init] has returned true in a process that had no mapping, the [reset]
    that follows leaves none, and the object is no longer initialized. *)
Theorem init_reset_round_trip (K : Kernel) (devId : Z) (s s1 : St) :
  devId <> -1 ->
  live (world s) = [] ->
  init K devId s = Done true s1 ->
  exists s2,
    reset K s1 = Done tt s2
    /\ live (world s2) = []
    /\ mInitialized (vc s2) = false.
Proof.
  intros Hd Hempty. unfold init. unfold mbind at 1.
  destruct (reset_runs K s) as (s0 & Hr & _ & _ & Hincl & _). rewrite Hr.
  cbv beta iota. apply Z.eqb_neq in Hd. rewrite Hd. unfold mbind at 1.
  assert (Hl0 : live (world s0) = []).
  { destruct (live (world s0)) as [| m rest] eqn:E; [ reflexivity | ].
    exfalso. assert (Hin : In m (live (world s))) by (apply Hincl; left; reflexivity).
    rewrite Hempty in Hin. exact Hin. }
  destruct (openCamera K (wrap_u8 devId) s0) as [[|] s2 | s2] eqn:Eo;
    cbn [negb]; cbv beta iota; [ | discriminate | discriminate ].
  destruct (openCamera_owns K _ _ _ Eo) as (bufs & Hb & Hcount & Hown).
  unfold mbind at 1.
  destruct (startCapture_outcome K s2)
    as (ok & s3 & t3 & Hs & Hl3 & _ & _ & _ & Ht).
  rewrite Hs. cbv beta iota. unfold mbind at 1. unfold upd_vc at 1.
  cbv beta iota. unfold mbind at 1.
  destruct (setLEDValue_frame K true
              (mkSt (set_mInitialized ok (vc s3)) (world s3)))
    as (r & s4 & Hl & Hv & Hl4).
  rewrite Hl. cbv beta iota. unfold mret. intros [= -> <-].
  destruct (Ht eq_refl) as (Hv3 & _). simp_st.
  destruct (reset_runs K s4) as (s5 & Hr5 & Hi5 & _).
  exists s5. split; [ exact Hr5 | ]. split; [ | exact Hi5 ].
  replace s5 with (final (reset K s4)) by (rewrite Hr5; reflexivity).
  apply (reset_unmaps_session K s4 bufs).
  - rewrite Hv. reflexivity.
  - rewrite Hv. simp_st. rewrite Hv3. simp_st. exact Hb.
  - rewrite Hv. simp_st. rewrite Hv3. simp_st. exact Hcount.
  - intros a l Hin. rewrite Hl4, Hl3 in Hin.
    destruct (Hown a l Hin) as [Hbefore | Hbuf]; [ | exact Hbuf ].
    rewrite Hl0 in Hbefore. destruct Hbefore.
Qed.

Lemma init_reset_round_trip_witness :
  exists s2,
    reset long_lines streaming = Done tt s2
    /\ live (world s2) = []
    /\ mInitialized (vc s2) = false.
Proof.
  apply (init_reset_round_trip long_lines 0 constructed streaming).
  - discriminate.
  - reflexivity.
  - vm_compute. reflexivity.
Defined.

(** ** What the address returned by mmap is used for *)

Lemma xioctl_loop_same_trace (K : Kernel) (fd : Z) (req : Request) :
  forall tries s s',
  trace (world s) = trace (world s') ->
  exists r w w',
    xioctl_loop K tries fd req s = Done r (mkSt (vc s) w)
    /\ xioctl_loop K tries fd req s' = Done r (mkSt (vc s') w')
    /\ trace w = trace w' /\ errno w = errno w'
    /\ live w = live (world s) /\ live w' = live (world s').
Proof.
  induction tries as [| t IH]; intros s s' Htr.
  - cbn. unfold mbind, ioctl, mret. simp_st. rewrite Htr.
    destruct (ret _ =? 0); eexists; eexists; eexists;
      (split; [ reflexivity | split; [ reflexivity | ] ]); simp_st;
      rewrite Htr; repeat split.
  - cbn [xioctl_loop]. unfold mbind, ioctl, get_world, mret. simp_st.
    rewrite Htr.
    destruct (ret (k_ioctl K (trace (world s')) fd req) =? 0).
    + eexists; eexists; eexists.
      split; [ reflexivity | split; [ reflexivity | ] ]. simp_st.
      rewrite Htr. repeat split.
    + simp_st.
      destruct (transient (err (k_ioctl K (trace (world s')) fd req))).
      * match goal with
        | |- context [xioctl_loop K t fd req ?a = _ /\
                      xioctl_loop K t fd req ?b = _ /\ _] =>
            destruct (IH a b) as (r & w & w' & H1 & H2 & Ht & He & Hl & Hl')
        end.
        { simp_st. rewrite Htr. reflexivity. }
        exists r, w, w'. simp_st.
        split; [ exact H1 | ]. split; [ exact H2 | ]. repeat split; assumption.
      * eexists; eexists; eexists.
        split; [ reflexivity | split; [ reflexivity | ] ]. simp_st.
        rewrite Htr. repeat split.
Qed.

Lemma forget_fd (v v' : VideoCapture) :
  set_mBuffers None v = set_mBuffers None v' -> mFileDesc v = mFileDesc v'.
Proof.
  destruct v, v'. unfold set_mBuffers. cbn. intros [=]. assumption.
Qed.

Lemma forget_count (i : Z) (v v' : VideoCapture) :
  set_mBuffers None v = set_mBuffers None v' ->
  set_mBuffers None (set_mBufCount i v)
  = set_mBuffers None (set_mBufCount i v').
Proof.
  destruct v, v'. unfold set_mBuffers, set_mBufCount. cbn. intros [=].
  subst. reflexivity.
Qed.

Lemma forget_buffer (i j : Z) (b b' : Buffer) (v v' : VideoCapture) :
  set_mBuffers None v = set_mBuffers None v' ->
  set_mBuffers None (set_buffer j b (set_mBufCount i v))
  = set_mBuffers None (set_buffer j b' (set_mBufCount i v')).
Proof.
  destruct v, v'. unfold set_buffer, set_mBuffers, set_mBufCount. cbn.
  intros [=]. subst. reflexivity.
Qed.

Lemma map_buffers_same
    (K : Kernel) (m : list Event -> Z -> Z -> Z -> Z) :
  forall n i s s',
  same_but_buffers s s' ->
  exists ok s1 s1',
    map_buffers (with_mmap K m) n i s = Done ok s1
    /\ map_buffers K n i s' = Done ok s1'
    /\ same_but_buffers s1 s1'.
Proof.
  induction n as [| n IH]; intros i s s' (Htr & Her & Hvc).
  - cbn. run_prims. eexists; eexists; eexists.
    split; [ reflexivity | ]. split; [ reflexivity | ].
    unfold same_but_buffers. simp_st. split; [ exact Htr | ].
    split; [ exact Her | ].
    apply forget_count. exact Hvc.
  - cbn [map_buffers]. run_prims. simp_st.
    assert (Hfd : mFileDesc (vc s) = mFileDesc (vc s'))
      by (apply forget_fd; exact Hvc).
    change (xioctl (with_mmap K m)) with (xioctl K).
    unfold xioctl.
    rewrite Hfd.
    match goal with
    | |- exists _ _ _,
          match xioctl_loop K ?t ?fd ?req ?a with _ => _ end = _
          /\ match xioctl_loop K ?t ?fd ?req ?b with _ => _ end = _ /\ _ =>
        destruct (xioctl_loop_same_trace K fd req t a b)
          as (r & w & w' & H1 & H2 & Ht & He & _ & _)
    end.
    { simp_st. exact Htr. }
    rewrite H1, H2. cbv beta iota. simp_st.
    destruct (-1 =? fst r).
    + eexists; eexists; eexists.
      split; [ reflexivity | ]. split; [ reflexivity | ].
      unfold same_but_buffers. simp_st. split; [ exact Ht | ].
      split; [ exact He | ].
      apply forget_count. exact Hvc.
    + destruct (querybuf_fields (snd r)) as [len off]. simp_st.
      match goal with
      | |- exists _ _ _,
            map_buffers _ n (i + 1) ?a = _
            /\ map_buffers K n (i + 1) ?b = _ /\ _ =>
          destruct (IH (i + 1) a b) as (ok & s1 & s1' & R1 & R2 & Hs)
      end.
      { unfold same_but_buffers. simp_st.
        split; [ | split ].
        - destruct (_ =? MAP_FAILED), (_ =? MAP_FAILED); simp_st;
            rewrite Ht; reflexivity.
        - destruct (_ =? MAP_FAILED), (_ =? MAP_FAILED); simp_st; exact He.
        - apply forget_buffer. exact Hvc. }
      exists ok, s1, s1'. split; [ exact R1 | ]. split; [ exact R2 | exact Hs ].
Qed.

Ltac both_step :=
  simp_st; cbv beta iota;
  match goal with
  | |- context [xioctl ?K ?fd ?req ?s] => run_xioctl
  | |- context [match ?p with (_, _) => _ end] =>
      let E := fresh "E" in destruct p eqn:E
  | |- context [if ?c then _ else _] =>
      let E := fresh "E" in destruct c eqn:E
  end.

(** X29. [openCamera] never looks at what mmap returns: with any other answers
    to mmap it returns the same result after the same system calls.  A
    mapping that failed is recorded as a buffer like any other. *)
Theorem openCamera_ignores_mmap
    (K : Kernel) (m : list Event -> Z -> Z -> Z -> Z) (devId : Z) (s : St) :
  value (openCamera (with_mmap K m) devId s) = value (openCamera K devId s)
  /\ trace (world (final (openCamera (with_mmap K m) devId s)))
     = trace (world (final (openCamera K devId s))).
Proof.
  unfold openCamera. run_prims.
  cbn [with_mmap k_camera_model k_stat k_open k_clock].
  change (xioctl (with_mmap K m)) with (xioctl K).
  simp_st.
  destruct (k_camera_model K devId); try (split; reflexivity).
  all: repeat both_step.
  all: try (split; reflexivity).
  all: match goal with
       | |- context [map_buffers (with_mmap ?K' ?m') ?n ?i ?st] =>
           destruct (map_buffers_same K' m' n i st st)
             as (ok & s' & s'' & R1 & R2 & Ht & He & Hv);
           [ repeat split | ];
           rewrite R1, R2; cbv beta iota
       end.
  all: destruct ok; cbn [negb]; cbv beta iota; cbn [value final];
    simp_st; split; first [ reflexivity | exact Ht ].
Qed.
